(** * Memory Monitor (Node.js): the sampling-and-alerting loop

  A shallow embedding of the monitoring core of the repository:
  - the metric readers of [systemUtils.js] (repeated verbatim in the
    [app.js] that [install.sh] writes out),
  - the notifier [sendTelegramAlert] with its rate limiter and retry loop,
  - the three sinks [storeMetrics], [updatePrometheusMetrics] and
    [updateStatusFile],
  - the body of the scheduled task of [runMonitoring],
  - the SQLite adapter's [storeMetrics] / [getRecentMetrics] of
    [database.js].

  External collaborators (the OS metric source, the Telegram transport, the
  database driver, the Prometheus registry, the file system, the clock) are
  inputs of the model: every call made by the code receives its outcome,
  a value or a thrown error, from an environment record. *)

From Stdlib Require Import ZArith QArith Qround Lia Ascii Sorting.Sorted.
From stdpp Require Import gmap strings list.

Local Open Scope Z_scope.

(** ** JavaScript numbers

  A JavaScript number is modelled as an exact rational extended with
  [NaN] and the two infinities.  Rounding error of the binary
  representation and the sign of zero are not modelled; every quantity the
  code computes from integral counters by [-], [* 8], [/ 1024] stays exact
  in binary floating point as long as it is below 2^53.  A quotient such
  as [used / total] is rounded by the machine, so the percentage that
  [Math.round] sees can lie a last bit beside the exact one: where the
  exact value is a half (29 of 200 is 14.5) the code can round down where
  the model rounds up.  No statement below depends on which way such a
  half goes. *)
Module JsNum.

Inductive num : Type :=
| Fin (q : Q)
| Inf (negative : bool)
| NaN.

Definition Qzero (q : Q) : bool := Qeq_bool q 0.
Definition Qneg (q : Q) : bool := negb (Qle_bool 0 q).

Definition of_Z (z : Z) : num := Fin (inject_Z z).

(** [a - b] *)
Definition sub (a b : num) : num :=
  match a, b with
  | Fin x, Fin y => Fin (x - y)
  | Fin _, Inf s => Inf (negb s)
  | Inf s, Fin _ => Inf s
  | Inf s, Inf t => if Bool.eqb s t then NaN else Inf s
  | _, _ => NaN
  end.

(** [a * b] *)
Definition mul (a b : num) : num :=
  match a, b with
  | Fin x, Fin y => Fin (x * y)
  | Fin x, Inf s | Inf s, Fin x => if Qzero x then NaN else Inf (xorb s (Qneg x))
  | Inf s, Inf t => Inf (xorb s t)
  | _, _ => NaN
  end.

(** [a / b] *)
Definition div (a b : num) : num :=
  match a, b with
  | Fin x, Fin y =>
      if Qzero y then (if Qzero x then NaN else Inf (Qneg x)) else Fin (x / y)
  | Fin _, Inf _ => Fin 0
  | Inf s, Fin y => Inf (xorb s (Qneg y))
  | _, _ => NaN
  end.

(** [Math.round(a)]: the nearest integer, halves rounded towards +∞. *)
Definition Math_round (a : num) : num :=
  match a with
  | Fin x => Fin (inject_Z (Qfloor (x + (1 # 2))))
  | other => other
  end.

(** [a >= b] *)
Definition geb (a b : num) : bool :=
  match a, b with
  | Fin x, Fin y => Qle_bool y x
  | Fin _, Inf s => s
  | Inf s, Fin _ => negb s
  | Inf s, Inf t => orb (negb s) t
  | _, _ => false
  end.

(** [a > b] *)
Definition gtb (a b : num) : bool :=
  match a, b with
  | Fin x, Fin y => negb (Qle_bool x y)
  | Fin _, Inf s => s
  | Inf s, Fin _ => negb s
  | Inf s, Inf t => andb (negb s) t
  | _, _ => false
  end.

(** [a === b] *)
Definition strict_eq (a b : num) : bool :=
  match a, b with
  | Fin x, Fin y => Qeq_bool x y
  | Inf s, Inf t => Bool.eqb s t
  | _, _ => false
  end.

(** Truthiness of a number: everything but [0] and [NaN]. *)
Definition truthy (a : num) : bool :=
  match a with
  | Fin x => negb (Qzero x)
  | Inf _ => true
  | NaN => false
  end.

(** [a || 0] *)
Definition or0 (a : num) : num := if truthy a then a else Fin 0.

Definition zero : num := Fin 0.

(** The interval [0, ∞): a finite, non-negative number. *)
Definition in_range (a : num) : bool :=
  match a with
  | Fin x => Qle_bool 0 x
  | _ => false
  end.

End JsNum.
Import JsNum.

(** ** Outcomes of fallible calls *)

Inductive result (A : Type) : Type :=
| Ok (a : A)
| Throw (message : string).
Arguments Ok {A} a.
Arguments Throw {A} message.

Module Res.

Definition bind {A B : Type} (k : A → result B) (r : result A) : result B :=
  match r with
  | Ok a => k a
  | Throw e => Throw e
  end.

(** [try { body } catch (error) { handler }] *)
Definition try_catch {A : Type} (body : result A) (handler : string → result A)
  : result A :=
  match body with
  | Ok a => Ok a
  | Throw e => handler e
  end.

End Res.

#[global] Instance result_ret : MRet result := @Ok.
#[global] Instance result_bind : MBind result := @Res.bind.

(** ** Configuration ([config.get]) *)

Record Config : Type := {
  monitoring_checkInterval : Z;
  monitoring_threshold : num;
  cpu_monitor : bool;
  cpu_threshold : num;
  disk_monitor : bool;
  disk_threshold : num;
  disk_path : string;
  swap_monitor : bool;
  swap_threshold : num;
  load_monitor : bool;
  load_threshold : num;
  network_monitor : bool;
  network_threshold : num;
  network_interface : string;
  database_enabled : bool;
  prometheus_enabled : bool
}.

(** ** Metric readers ([systemUtils.js], and the same text in [app.js]) *)
Module Readers.

(** What [si.mem()] resolves to. *)
Record MemInfo : Type := {
  used : num; total : num; swapused : num; swaptotal : num
}.

(** What [si.currentLoad()] resolves to. *)
Record CurrentLoad : Type := { currentLoad : num }.

(** An element of the array [si.fsSize()] resolves to. *)
Record FsSize : Type := { mount : string; use : num }.

(** An element of the array [si.networkStats(iface)] resolves to. *)
Record NetworkStats : Type := { rx_bytes : num; tx_bytes : num }.

(** [arr[0].field]: a [TypeError] when the array is empty. *)
Definition first {A : Type} (arr : list A) : result A :=
  match arr with
  | x :: _ => Ok x
  | [] => Throw "Cannot read properties of undefined"
  end.

Definition checkRamUsage (si_mem : result MemInfo) : result num :=
  Res.try_catch
    (memInfo ← si_mem;
     mret (Math_round (mul (div (used memInfo) (total memInfo)) (of_Z 100))))
    (λ error, mret zero).

Definition checkCpuUsage (cfg : Config) (si_currentLoad : result CurrentLoad)
  : result num :=
  if negb (cpu_monitor cfg) then mret zero
  else
    Res.try_catch
      (cpuLoad ← si_currentLoad;
       mret (Math_round (currentLoad cpuLoad)))
      (λ error, mret zero).

(** [fsSize.find(fs => fs.mount === diskPath) || fsSize[0]], then [.use] *)
Definition diskInfo_of (diskPath : string) (fsSize : list FsSize) : result FsSize :=
  match List.find (λ fs, String.eqb (mount fs) diskPath) fsSize with
  | Some d => Ok d
  | None => first fsSize
  end.

Definition checkDiskUsage (cfg : Config) (si_fsSize : result (list FsSize))
  : result num :=
  if negb (disk_monitor cfg) then mret zero
  else
    Res.try_catch
      (let diskPath := disk_path cfg in
       fsSize ← si_fsSize;
       diskInfo ← diskInfo_of diskPath fsSize;
       mret (Math_round (use diskInfo)))
      (λ error, mret zero).

Definition checkSwapUsage (cfg : Config) (si_mem : result MemInfo) : result num :=
  if negb (swap_monitor cfg) then mret zero
  else
    Res.try_catch
      (memInfo ← si_mem;
       if strict_eq (swaptotal memInfo) zero then mret zero
       else mret (Math_round
                    (mul (div (swapused memInfo) (swaptotal memInfo)) (of_Z 100))))
      (λ error, mret zero).

(** [os.loadavg()[0]]: an absent element is [undefined], which the
    division turns into [NaN]. *)
Definition loadavg0 (loadavg : list num) : num :=
  match loadavg with
  | x :: _ => x
  | [] => NaN
  end.

(** [os_cpus] is [os.cpus().length]. *)
Definition checkLoadAverage (cfg : Config)
    (os_loadavg : result (list num)) (os_cpus : result nat) : result num :=
  if negb (load_monitor cfg) then mret zero
  else
    Res.try_catch
      (loadavg ← os_loadavg;
       let load := loadavg0 loadavg in
       cpuCount ← os_cpus;
       let loadPerCore := div load (of_Z (Z.of_nat cpuCount)) in
       mret (Math_round (mul loadPerCore (of_Z 100))))
      (λ error, mret zero).

(** [((s2 - s1) * 8) / 1024 / 1024] *)
Definition rate_Mbps (s2 s1 : num) : num :=
  div (div (mul (sub s2 s1) (of_Z 8)) (of_Z 1024)) (of_Z 1024).

(** The value of the reader.  The two samples are taken one second apart;
    the wait is [checkNetworkUsage_waits]. *)
Definition checkNetworkUsage (cfg : Config)
    (networkStats1 networkStats2 : result (list NetworkStats))
  : result (num * num) :=
  if negb (network_monitor cfg) then mret (zero, zero)
  else
    Res.try_catch
      (stats1 ← networkStats1;
       stats2 ← networkStats2;
       s2 ← first stats2;
       s1 ← first stats1;
       let rxRate := rate_Mbps (rx_bytes s2) (rx_bytes s1) in
       s2' ← first stats2;
       s1' ← first stats1;
       let txRate := rate_Mbps (tx_bytes s2') (tx_bytes s1') in
       mret (rxRate, txRate))
      (λ error, mret (zero, zero)).

(** The waits of [checkNetworkUsage], in milliseconds:
    [await new Promise(resolve => setTimeout(resolve, 1000))] between the
    two samples, reached when monitoring is on and the first sample was
    answered.  No other reader waits. *)
Definition checkNetworkUsage_waits (cfg : Config)
    (networkStats1 : result (list NetworkStats)) : list Z :=
  if negb (network_monitor cfg) then []
  else match networkStats1 with
       | Ok _ => [1000]
       | Throw _ => []
       end.

(** The outcome of every call a tick makes to the metric source. *)
Record Source : Type := {
  ram_si_mem : result MemInfo;
  cpu_si_currentLoad : result CurrentLoad;
  disk_si_fsSize : result (list FsSize);
  swap_si_mem : result MemInfo;
  load_os_loadavg : result (list num);
  load_os_cpus : result nat;
  net_si_networkStats1 : result (list NetworkStats);
  net_si_networkStats2 : result (list NetworkStats)
}.

(** The snapshot object of a tick. *)
Record Metrics : Type := {
  ram : num; cpu : num; disk : num; swap : num; load : num;
  network : num * num
}.

(** The object literal at the head of the scheduled task: the six readers
    are awaited in order. *)
Definition collectMetrics (cfg : Config) (src : Source) : result Metrics :=
  ram ← checkRamUsage (ram_si_mem src);
  cpu ← checkCpuUsage cfg (cpu_si_currentLoad src);
  disk ← checkDiskUsage cfg (disk_si_fsSize src);
  swap ← checkSwapUsage cfg (swap_si_mem src);
  load ← checkLoadAverage cfg (load_os_loadavg src) (load_os_cpus src);
  network ← checkNetworkUsage cfg (net_si_networkStats1 src) (net_si_networkStats2 src);
  mret {| ram := ram; cpu := cpu; disk := disk; swap := swap; load := load;
          network := network |}.

End Readers.
Import Readers.

(** ** Alert kinds, records and the trace of collaborator calls *)

(** The six literals passed to [sendTelegramAlert]. *)
Inductive AlertType : Type := RAM | CPU | Disk | Swap | Load | Network.

Definition alertType_name (alertType : AlertType) : string :=
  match alertType with
  | RAM => "RAM" | CPU => "CPU" | Disk => "Disk"
  | Swap => "Swap" | Load => "Load" | Network => "Network"
  end.

Definition lower_ascii (c : ascii) : ascii :=
  let n := nat_of_ascii c in
  if ((65 <=? n) && (n <=? 90))%nat then ascii_of_nat (n + 32) else c.

Fixpoint toLowerCase (s : string) : string :=
  match s with
  | EmptyString => EmptyString
  | String c rest => String (lower_ascii c) (toLowerCase rest)
  end.

(** The text of an alert value is built from the readings by string
    templates; the model keeps the readings the text is built from.  The
    Load text shows [loadPercent / 100 * os.cpus().length] beside the load
    per core. *)
Inductive UsageValue : Type :=
| Percent (reading : num)
| LoadValue (loadPercent : num) (cpuCount : nat)
| NetValue (rxRate txRate : num).

(** The arguments of [db.storeAlert]. *)
Record AlertRecord : Type := {
  alert_timestamp : string;
  alert_hostname : string;
  alert_type : AlertType;
  alert_value : UsageValue;
  alert_message : string;
  sentSuccessfully : bool
}.

(** The arguments of [db.storeMetrics]. *)
Record MetricRecord : Type := {
  timestamp : string;
  hostname : string;
  ip_address : string;
  ram_usage : num;
  cpu_usage : num;
  disk_usage : num;
  swap_usage : num;
  load_average : num;
  network_rx : num;
  network_tx : num;
  extra_data : option string
}.

(** The gauges of [setupPrometheus]. *)
Inductive Gauge : Type :=
| g_ramUsage | g_cpuUsage | g_diskUsage | g_swapUsage | g_loadAverage
| g_networkRx | g_networkTx.

(** The lines [updateStatusFile] appends after the header line. *)
Inductive StatusLine : Type :=
| RamLine (reading : num)
| CpuLine (reading : num)
| DiskLine (path : string) (reading : num)
| SwapLine (reading : num)
| LoadLine (reading : num) (cpuCount : nat)
| NetworkLine (iface : string) (rxRate txRate : num).

(** Calls to the collaborators, in the order they are made.  [EvDispatch]
    marks an entry into [sendTelegramAlert], [EvRateLimited] its
    rate-limited exit. *)
Inductive Event : Type :=
| EvDispatch (alertType : AlertType) (usageValue : UsageValue)
| EvRateLimited (alertType : AlertType) (timeSinceLastAlert : Z)
| EvSendMessage (message : string)
| EvSleep (ms : Z)
| EvCounterInc (alertType : AlertType)
| EvDbStoreAlert (record : AlertRecord)
| EvDbStoreMetrics (record : MetricRecord)
| EvGaugeSet (gauge : Gauge) (value : num)
| EvWriteStatus (lines : list StatusLine).

(** ** Computations of the application

    A computation reads and writes the global [lastAlertTimes], records the
    collaborator calls it makes, and ends with a value or a thrown error;
    [None] is a loop that did not finish within its fuel. *)
Definition M (A : Type) : Type :=
  gmap string Z → option (result A * gmap string Z * list Event).

Module Comp.

Definition ret {A : Type} (a : A) : M A := λ st, Some (Ok a, st, []).

Definition bind {A B : Type} (k : A → M B) (m : M A) : M B := λ st,
  match m st with
  | None => None
  | Some (Throw e, st1, ev1) => Some (Throw e, st1, ev1)
  | Some (Ok a, st1, ev1) =>
      match k a st1 with
      | None => None
      | Some (r, st2, ev2) => Some (r, st2, ev1 ++ ev2)
      end
  end.

(** [try { body } catch (error) { handler }]: what the body did before it
    threw stays done. *)
Definition try_catch {A : Type} (body : M A) (handler : string → M A) : M A :=
  λ st,
  match body st with
  | None => None
  | Some (Ok a, st1, ev1) => Some (Ok a, st1, ev1)
  | Some (Throw e, st1, ev1) =>
      match handler e st1 with
      | None => None
      | Some (r, st2, ev2) => Some (r, st2, ev1 ++ ev2)
      end
  end.

Definition lift {A : Type} (r : result A) : M A := λ st, Some (r, st, []).

Definition emit (e : Event) : M unit := λ st, Some (Ok tt, st, [e]).

(** Calls made one after the other that all return. *)
Definition emit_all (evs : list Event) : M unit := λ st, Some (Ok tt, st, evs).

(** [while (cond) { body }] over the loop's local variables. *)
Fixpoint while {L : Type} (fuel : nat) (cond : L → bool) (body : L → M L)
    (locals : L) : M L :=
  match fuel with
  | O => λ _, None
  | S fuel' =>
      if cond locals
      then bind (while fuel' cond body) (body locals)
      else ret locals
  end.

End Comp.

#[global] Instance M_ret : MRet M := @Comp.ret.
#[global] Instance M_bind : MBind M := @Comp.bind.

(** The module-level [db] and [prometheus]: [true] when not [null]. *)
Record App : Type := { db : bool; prometheus : bool }.

(** ** The notifier ([app.js]) *)
Module Notifier.

(** [const lastAlertTimes = { ram: 0, cpu: 0, disk: 0, swap: 0, load: 0,
    network: 0 }] *)
Definition lastAlertTimes_init : gmap string Z :=
  <["ram" := 0]> (<["cpu" := 0]> (<["disk" := 0]> (<["swap" := 0]>
  (<["load" := 0]> (<["network" := 0]> ∅))))).

(** [if (!lastAlertTimes[alertKey]) { lastAlertTimes[alertKey] = 0; }] *)
Definition ensure_key (alertKey : string) : M unit := λ st,
  match st !! alertKey with
  | None | Some 0 => Some (Ok tt, <[alertKey := 0]> st, [])
  | Some _ => Some (Ok tt, st, [])
  end.

(** [lastAlertTimes[alertKey]] in arithmetic position *)
Definition read_key (alertKey : string) : M Z := λ st,
  Some (Ok (default 0 (st !! alertKey)), st, []).

(** [lastAlertTimes[alertKey] = currentTime] *)
Definition write_key (alertKey : string) (currentTime : Z) : M unit := λ st,
  Some (Ok tt, <[alertKey := currentTime]> st, []).

(** The outcome of every external call of one [sendTelegramAlert]. *)
Record DispatchEnv : Type := {
  date_now : Z;                          (* Math.floor(Date.now() / 1000) *)
  formatAlert : result string;           (* await formatAlert(...) *)
  bot_sendMessage : nat → result unit;   (* the n-th await bot.sendMessage(...) *)
  storeAlert_timestamp : string;
  storeAlert_hostname : string;          (* (await getSystemInfo()).hostname *)
  db_storeAlert : result Z               (* await db.storeAlert(...) *)
}.

Definition storeAlert (app : App) (cfg : Config) (env : DispatchEnv)
    (alertType : AlertType) (value : UsageValue) (message : string)
    (sent : bool) : M bool :=
  if negb (db app) || negb (database_enabled cfg) then mret false
  else
    Comp.try_catch
      (let timestamp := storeAlert_timestamp env in
       Comp.emit (EvDbStoreAlert
                    {| alert_timestamp := timestamp;
                       alert_hostname := storeAlert_hostname env;
                       alert_type := alertType;
                       alert_value := value;
                       alert_message := message;
                       sentSuccessfully := sent |});;
       Comp.lift (db_storeAlert env);;
       mret true)
      (λ error, mret false).

Definition maxRetries : nat := 3.

(** The body of the retry loop.  The n-th call of [bot.sendMessage] is the
    one made with [retry = n]: [retry] grows by one with every failed call
    and a call that succeeds is the last.  Nothing after the call throws
    ([inc()] takes no argument, [storeAlert] catches its own errors), so
    [success] is still [false] whenever the handler runs. *)
Definition attempt (app : App) (cfg : Config) (env : DispatchEnv)
    (alertType : AlertType) (usageValue : UsageValue) (message : string)
    (locals : nat * bool) : M (nat * bool) :=
  let '(retry, success) := locals in
  Comp.try_catch
    (Comp.emit (EvSendMessage message);;
     Comp.lift (bot_sendMessage env retry);;
     write_key (toLowerCase (alertType_name alertType)) (date_now env);;
     (if prometheus app && prometheus_enabled cfg
      then Comp.emit (EvCounterInc alertType) else mret tt);;
     (if db app && database_enabled cfg
      then storeAlert app cfg env alertType usageValue message true;; mret tt
      else mret tt);;
     mret (retry, true))
    (λ error,
     Comp.emit (EvSleep 2000);;
     mret (S retry, success)).

(** [getSystemInfo] catches its own errors and its answer only feeds the
    message text, which [formatAlert] stands for. *)
Definition sendTelegramAlert (fuel : nat) (app : App) (cfg : Config)
    (env : DispatchEnv) (alertType : AlertType) (usageValue : UsageValue)
  : M bool :=
  Comp.emit (EvDispatch alertType usageValue);;
  let currentTime := date_now env in
  let alertInterval := monitoring_checkInterval cfg * 10 in
  let alertKey := toLowerCase (alertType_name alertType) in
  ensure_key alertKey;;
  last ← read_key alertKey;
  let timeSinceLastAlert := currentTime - last in
  if timeSinceLastAlert <? alertInterval then
    Comp.emit (EvRateLimited alertType timeSinceLastAlert);;
    mret false
  else
    Comp.try_catch
      (message ← Comp.lift (formatAlert env);
       '(retry, success) ←
         Comp.while fuel
           (λ '(retry, success), (retry <? maxRetries)%nat && negb success)
           (attempt app cfg env alertType usageValue message)
           (O, false);
       if negb success then
         (if db app && database_enabled cfg
          then storeAlert app cfg env alertType usageValue message false;; mret tt
          else mret tt);;
         mret false
       else mret true)
      (λ error, mret false).

End Notifier.
Import Notifier.

(** ** The sinks ([app.js]) *)
Module Sinks.

(** The outcome of every external call of the three sinks of one tick. *)
Record SinkEnv : Type := {
  systemInfo_hostname : string;          (* (await getSystemInfo()).hostname *)
  systemInfo_ip : string;
  storeMetrics_timestamp : string;
  db_storeMetrics : result Z;            (* await db.storeMetrics(...) *)
  gauge_set : Gauge → result unit;       (* prometheus.<gauge>.set(...) *)
  status_os_cpus : result nat;           (* os.cpus().length of the Load line *)
  fs_writeFileSync : result unit         (* fs.writeFileSync(statusFile, ...) *)
}.

(** [metrics.network] is always the two-element array a reader returned, and
    the snapshot has no key beyond the six standard ones, so [extraDataJson]
    is [null]. *)
Definition storeMetrics (app : App) (cfg : Config) (env : SinkEnv)
    (metrics : Metrics) : M bool :=
  if negb (db app) || negb (database_enabled cfg) then mret false
  else
    Comp.try_catch
      (let '(networkRx, networkTx) := network metrics in
       let extraDataJson : option string := None in
       let timestamp := storeMetrics_timestamp env in
       Comp.emit (EvDbStoreMetrics
                    {| timestamp := timestamp;
                       hostname := systemInfo_hostname env;
                       ip_address := systemInfo_ip env;
                       ram_usage := or0 (ram metrics);
                       cpu_usage := or0 (cpu metrics);
                       disk_usage := or0 (disk metrics);
                       swap_usage := or0 (swap metrics);
                       load_average := or0 (load metrics);
                       network_rx := networkRx;
                       network_tx := networkTx;
                       extra_data := extraDataJson |});;
       Comp.lift (db_storeMetrics env);;
       mret true)
      (λ error, mret false).

(** [prometheus.<gauge>.set(value)] *)
Definition set (env : SinkEnv) (gauge : Gauge) (value : num) : M unit :=
  Comp.emit (EvGaugeSet gauge value);;
  Comp.lift (gauge_set env gauge).

Definition updatePrometheusMetrics (app : App) (cfg : Config) (env : SinkEnv)
    (metrics : Metrics) : M bool :=
  if negb (prometheus app) || negb (prometheus_enabled cfg) then mret false
  else
    Comp.try_catch
      (set env g_ramUsage (or0 (ram metrics));;
       set env g_cpuUsage (or0 (cpu metrics));;
       set env g_diskUsage (or0 (disk metrics));;
       set env g_swapUsage (or0 (swap metrics));;
       set env g_loadAverage (or0 (load metrics));;
       set env g_networkRx (fst (network metrics));;
       set env g_networkTx (snd (network metrics));;
       mret true)
      (λ error, mret false).

(** [Object.keys(metrics).forEach(key => ...)]: the keys come in the order
    of the object literal.  The Load line asks [os.cpus()] for the number of
    cores, a call that can throw. *)
Definition statusContent (cfg : Config) (env : SinkEnv) (metrics : Metrics)
  : result (list StatusLine) :=
  let ramLines := [RamLine (ram metrics)] in
  let cpuLines := if cpu_monitor cfg then [CpuLine (cpu metrics)] else [] in
  let diskLines :=
    if disk_monitor cfg then [DiskLine (disk_path cfg) (disk metrics)] else [] in
  let swapLines :=
    if swap_monitor cfg && gtb (swap metrics) zero
    then [SwapLine (swap metrics)] else [] in
  loadLines ←
    (if load_monitor cfg then
       cpuCount ← status_os_cpus env;
       mret [LoadLine (load metrics) cpuCount]
     else mret []);
  let networkLines :=
    if network_monitor cfg
    then [NetworkLine (network_interface cfg)
            (fst (network metrics)) (snd (network metrics))]
    else [] in
  mret (ramLines ++ cpuLines ++ diskLines ++ swapLines ++ loadLines
        ++ networkLines).

(** The text is built first, inside the [try]: when [os.cpus()] throws,
    [fs.writeFileSync] is not reached. *)
Definition updateStatusFile (cfg : Config) (env : SinkEnv) (metrics : Metrics)
  : M unit :=
  Comp.try_catch
    (statusContent ← Comp.lift (statusContent cfg env metrics);
     Comp.emit (EvWriteStatus statusContent);;
     Comp.lift (fs_writeFileSync env))
    (λ error, mret tt).

End Sinks.
Import Sinks.

(** ** The scheduled task of [runMonitoring] ([app.js]) *)
Module Tick.

Record TickEnv : Type := {
  source : Source;
  sinks : SinkEnv;
  alert_os_cpus : result nat;            (* os.cpus().length of the Load check *)
  dispatch : AlertType → DispatchEnv
}.

(** [if (cond) { await sendTelegramAlert(alertType, value); }] *)
Definition alert_if (cond : bool) (fuel : nat) (app : App) (cfg : Config)
    (env : TickEnv) (alertType : AlertType) (usageValue : UsageValue) : M unit :=
  if cond
  then sendTelegramAlert fuel app cfg (dispatch env alertType) alertType usageValue;;
       mret tt
  else mret tt.

(** The threshold checks, in the order of the source text.  The Load check
    computes the text of its value with [os.cpus()] before it dispatches;
    that call is not guarded, so its error leaves the checks. *)
Definition checkThresholds (fuel : nat) (app : App) (cfg : Config)
    (env : TickEnv) (metrics : Metrics) : M unit :=
  alert_if (geb (ram metrics) (monitoring_threshold cfg))
    fuel app cfg env RAM (Percent (ram metrics));;
  alert_if (cpu_monitor cfg && geb (cpu metrics) (cpu_threshold cfg))
    fuel app cfg env CPU (Percent (cpu metrics));;
  alert_if (disk_monitor cfg && geb (disk metrics) (disk_threshold cfg))
    fuel app cfg env Disk (Percent (disk metrics));;
  alert_if (swap_monitor cfg && geb (swap metrics) (swap_threshold cfg)
            && gtb (swap metrics) zero)
    fuel app cfg env Swap (Percent (swap metrics));;
  (if load_monitor cfg && geb (load metrics) (load_threshold cfg) then
     cpuCount ← Comp.lift (alert_os_cpus env);
     sendTelegramAlert fuel app cfg (dispatch env Load) Load
       (LoadValue (load metrics) cpuCount);;
     mret tt
   else mret tt);;
  (if network_monitor cfg then
     let '(rxRate, txRate) := network metrics in
     alert_if (geb rxRate (network_threshold cfg)
               || geb txRate (network_threshold cfg))
       fuel app cfg env Network (NetValue rxRate txRate)
   else mret tt).

(** The object literal at the head of the task with the calls the readers
    make besides those to the metric source. *)
Definition awaitMetrics (cfg : Config) (src : Source) : M Metrics :=
  Comp.emit_all
    (map EvSleep (checkNetworkUsage_waits cfg (net_si_networkStats1 src)));;
  Comp.lift (collectMetrics cfg src).

(** [getSystemInfo] catches its own errors; its answer is the host name and
    the address in the outcomes of the sinks. *)
Definition runMonitoring_tick (fuel : nat) (app : App) (cfg : Config)
    (env : TickEnv) : M unit :=
  Comp.try_catch
    (metrics ← awaitMetrics cfg (source env);
     (if database_enabled cfg
      then storeMetrics app cfg (sinks env) metrics;; mret tt else mret tt);;
     (if prometheus_enabled cfg
      then updatePrometheusMetrics app cfg (sinks env) metrics;; mret tt
      else mret tt);;
     updateStatusFile cfg (sinks env) metrics;;
     checkThresholds fuel app cfg env metrics)
    (λ error, mret tt).

End Tick.
Import Tick.

(** ** The SQLite adapter ([database.js])

    A table is the list of its rows in insertion order, each with the
    identifier the engine assigned.  [LIMIT] is given a whole number. *)
Module Sqlite.

Record Table (Row : Type) : Type := {
  rows : list (Z * Row);
  last_id : Z
}.
Arguments rows {Row} _.
Arguments last_id {Row} _.

(** [INSERT INTO t (...) VALUES (...)], resolving to [this.lastID].  The
    engine is taken to accept the row: a rejected insert appends nothing. *)
Definition insert_row {Row : Type} (row : Row) (t : Table Row) : Table Row * Z :=
  let id := last_id t + 1 in
  ({| rows := rows t ++ [(id, row)]; last_id := id |}, id).

(** [ORDER BY timestamp DESC] on a [TEXT] column: byte-wise comparison.
    Rows with equal timestamps come out in the order of their insertion, as
    the engine returns them. *)
Fixpoint place {Row : Type} (ts : Row → string) (r : Z * Row)
    (sorted : list (Z * Row)) : list (Z * Row) :=
  match sorted with
  | [] => [r]
  | r' :: rest =>
      if String.ltb (ts (snd r')) (ts (snd r))
      then r :: r' :: rest
      else r' :: place ts r rest
  end.

Definition order_by_timestamp_desc {Row : Type} (ts : Row → string)
    (l : list (Z * Row)) : list (Z * Row) :=
  fold_left (λ acc r, place ts r acc) l [].

(** [SELECT * FROM t ORDER BY timestamp DESC LIMIT ?]: a negative limit is
    no limit. *)
Definition select_recent {Row : Type} (ts : Row → string) (limit : Z)
    (t : Table Row) : list (Z * Row) :=
  if limit <? 0 then order_by_timestamp_desc ts (rows t)
  else take (Z.to_nat limit) (order_by_timestamp_desc ts (rows t)).

(** The row of the [alerts] table: [sent_successfully] is stored as
    [sentSuccessfully ? 1 : 0]. *)
Record AlertRow : Type := {
  row_timestamp : string;
  row_hostname : string;
  row_alert_type : AlertType;
  row_value : UsageValue;
  row_message : string;
  sent_successfully : Z
}.

Record Database : Type := {
  metrics : Table MetricRecord;
  alerts : Table AlertRow
}.

Definition storeMetrics (timestamp hostname ipAddress : string)
    (ramUsage cpuUsage diskUsage swapUsage loadAverage networkRx networkTx : num)
    (extraData : option string) (d : Database) : Database * Z :=
  let '(t, id) :=
    insert_row {| timestamp := timestamp; hostname := hostname;
                  ip_address := ipAddress; ram_usage := ramUsage;
                  cpu_usage := cpuUsage; disk_usage := diskUsage;
                  swap_usage := swapUsage; load_average := loadAverage;
                  network_rx := networkRx; network_tx := networkTx;
                  extra_data := extraData |} (metrics d) in
  ({| metrics := t; alerts := alerts d |}, id).

Definition storeAlert (timestamp hostname : string) (alertType : AlertType)
    (value : UsageValue) (message : string) (sentSuccessfully : bool)
    (d : Database) : Database * Z :=
  let '(t, id) :=
    insert_row {| row_timestamp := timestamp; row_hostname := hostname;
                  row_alert_type := alertType; row_value := value;
                  row_message := message;
                  sent_successfully := if sentSuccessfully then 1 else 0 |}
      (alerts d) in
  ({| metrics := metrics d; alerts := t |}, id).

Definition getRecentMetrics (limit : Z) (d : Database)
  : list (Z * MetricRecord) :=
  select_recent timestamp limit (metrics d).

Definition getRecentAlerts (limit : Z) (d : Database) : list (Z * AlertRow) :=
  select_recent row_timestamp limit (alerts d).

(** Appending a whole record. *)
Definition appendMetric (r : MetricRecord) (d : Database) : Database * Z :=
  storeMetrics (timestamp r) (hostname r) (ip_address r) (ram_usage r)
    (cpu_usage r) (disk_usage r) (swap_usage r) (load_average r)
    (network_rx r) (network_tx r) (extra_data r) d.

End Sqlite.


From Stdlib Require OrderedTypeEx.
From Stdlib Require Import DecimalString.

(** ** JavaScript strings

    A string is the list of its UTF-16 code units, which is what [length],
    [padEnd], [repeat] and [split] count and cut.  Strings are taken to stay
    below the length limit of the engine. *)
Module JsString.

(** An ASCII literal of the source text. *)
Definition lit (s : string) : list N :=
  map N_of_ascii (String.list_ascii_of_string s).

(** [' '.repeat(count)] *)
Definition repeat_space (count : Z) : result (list N) :=
  if count <? 0 then Throw "RangeError: Invalid count value"
  else Ok (replicate (Z.to_nat count) 32%N).

(** [s.padEnd(targetLength)] *)
Definition padEnd (s : list N) (targetLength : Z) : list N :=
  s ++ replicate (Z.to_nat (targetLength - Z.of_nat (length s))) 32%N.

(** [s.padStart(targetLength)] *)
Definition padStart (s : list N) (targetLength : Z) : list N :=
  replicate (Z.to_nat (targetLength - Z.of_nat (length s))) 32%N ++ s.

(** [s.split(sep)] for a separator of one code unit *)
Fixpoint split (sep : N) (s : list N) : list (list N) :=
  match s with
  | [] => [[]]
  | c :: rest =>
      if (c =? sep)%N then [] :: split sep rest
      else match split sep rest with
           | piece :: pieces => (c :: piece) :: pieces
           | [] => [[c]]
           end
  end.

(** [lines.join(sep)] *)
Fixpoint join (sep : list N) (lines : list (list N)) : list N :=
  match lines with
  | [] => []
  | [line] => line
  | line :: rest => line ++ sep ++ join sep rest
  end.

(** White space and line terminators, the code units [trim] strips. *)
Definition is_space (c : N) : bool :=
  ((9 <=? c) && (c <=? 13) || (c =? 32) || (c =? 160) || (c =? 5760)
   || (8192 <=? c) && (c <=? 8202) || (c =? 8232) || (c =? 8233)
   || (c =? 8239) || (c =? 8287) || (c =? 12288) || (c =? 65279))%N.

Fixpoint trimStart (s : list N) : list N :=
  match s with
  | c :: rest => if is_space c then trimStart rest else s
  | [] => []
  end.

(** [s.trim()] *)
Definition trim (s : list N) : list N := rev (trimStart (rev (trimStart s))).

(** [arr.pop()] of a split, which is never empty *)
Definition pop (pieces : list (list N)) : list N := List.last pieces [].

(** [s.replace(from, to)] for one code unit each: the first occurrence *)
Fixpoint replace (from to : N) (s : list N) : list N :=
  match s with
  | [] => []
  | c :: rest => if (c =? from)%N then to :: rest else c :: replace from to rest
  end.

(** [s.substring(0, n)] *)
Definition substring0 (n : nat) (s : list N) : list N := take n s.

(** [a === b] on strings *)
Definition eqb (a b : list N) : bool := bool_decide (a = b).

(** The two conversions of numbers to text the code uses.  They are left
    open: every statement holds whatever text a number is printed as. *)
Record NumberFormat : Type := {
  ToString : num → list N;          (* `${x}` *)
  toFixed : num → nat → list N      (* x.toFixed(digits) *)
}.

End JsString.

(** ** Host identity and top consumers ([systemUtils.js], repeated in
    [app.js]) *)
Module SystemUtils.
Import JsString.

(** An element of an array of [os.networkInterfaces()]. *)
Record Iface : Type := {
  family : list N;
  internal : bool;
  address : list N
}.

(** What [si.osInfo()] resolves to. *)
Record OsInfo : Type := {
  distro : list N;
  release : list N;
  kernel_version : list N          (* osInfo.kernel *)
}.

(** An element of the array [si.fsSize()] resolves to. *)
Record FsEntry : Type := {
  fs_mount : list N;               (* fs.mount *)
  fs_use : num;                    (* fs.use *)
  fs_size : num                    (* fs.size *)
}.

(** The outcome of every external call of one [getSystemInfo];
    [os.networkInterfaces()] is the list of the object's keys, in key order,
    with their arrays. *)
Record HostEnv : Type := {
  os_hostname : list N;
  os_networkInterfaces : list (list N * list Iface);
  si_osInfo : result OsInfo;
  os_uptime : Q;
  si_mem : result MemInfo;
  si_cpu : result unit;
  si_currentLoad : result CurrentLoad;
  si_fsSize : result (list FsEntry)
}.

Record SystemInfo : Type := {
  hostname : list N;
  ip : list N;
  os : list N;
  kernel : list N;
  uptime : list N;
  ramUsage : num;
  totalRam : list N;
  cpuUsage : num;
  diskUsage : num;
  totalDisk : list N
}.

(** The two nested [forEach] over the interfaces: every external IPv4 entry
    overwrites [ipAddress]. *)
Definition pick_ip (networkInterfaces : list (list N * list Iface)) : list N :=
  fold_left
    (λ ipAddress entry,
       fold_left
         (λ ipAddress iface,
            if eqb (family iface) (lit "IPv4") && negb (internal iface)
            then address iface else ipAddress)
         entry.2 ipAddress)
    networkInterfaces (lit "127.0.0.1").

(** [x % y] on finite numbers: the remainder has the sign of [x]. *)
Definition rem (x y : Q) : Q :=
  let quotient := (x / y)%Q in
  let truncated := if Qle_bool 0 quotient then Qfloor quotient
                   else Qceiling quotient in
  (x - y * inject_Z truncated)%Q.

Definition uptimeDays (uptimeSeconds : Q) : Z :=
  Qfloor (uptimeSeconds / 86400).

Definition uptimeHours (uptimeSeconds : Q) : Z :=
  Qfloor (rem uptimeSeconds 86400 / 3600).

Definition uptimeMinutes (uptimeSeconds : Q) : Z :=
  Qfloor (rem uptimeSeconds 3600 / 60).

Definition uptime_text (fmt : NumberFormat) (uptimeSeconds : Q) : list N :=
  let days := uptimeDays uptimeSeconds in
  let hours := uptimeHours uptimeSeconds in
  let minutes := uptimeMinutes uptimeSeconds in
  if 0 <? days then
    ToString fmt (of_Z days) ++ lit "d " ++ ToString fmt (of_Z hours)
    ++ lit "h " ++ ToString fmt (of_Z minutes) ++ lit "m"
  else if 0 <? hours then
    ToString fmt (of_Z hours) ++ lit "h " ++ ToString fmt (of_Z minutes)
    ++ lit "m"
  else ToString fmt (of_Z minutes) ++ lit "m".

(** [1024 ** 3] *)
Definition GiB : num := of_Z 1073741824.

(** [fsSize.find(fs => fs.mount === diskPath) || fsSize[0]], then a
    property of it is read *)
Definition diskInfo_for (diskPath : list N) (fsSize : list FsEntry)
  : result FsEntry :=
  match List.find (λ fs, eqb (fs_mount fs) diskPath) fsSize with
  | Some d => Ok d
  | None => Readers.first fsSize
  end.

(** The record of the [catch] branch. *)
Definition unknown_host (hostname : list N) : SystemInfo := {|
  hostname := hostname;
  ip := lit "127.0.0.1";
  os := lit "Unknown";
  kernel := lit "Unknown";
  uptime := lit "Unknown";
  ramUsage := zero;
  totalRam := lit "0Gi";
  cpuUsage := zero;
  diskUsage := zero;
  totalDisk := lit "0G"
|}.

Definition getSystemInfo (fmt : NumberFormat) (diskPath : list N)
    (env : HostEnv) : result SystemInfo :=
  Res.try_catch
    (let hostname := os_hostname env in
     let ipAddress := pick_ip (os_networkInterfaces env) in
     osInfo ← si_osInfo env;
     let uptime := uptime_text fmt (os_uptime env) in
     memInfo ← si_mem env;
     let totalMemoryGB := toFixed fmt (div (total memInfo) GiB) 1 in
     let ramUsage :=
       Math_round (mul (div (used memInfo) (total memInfo)) (of_Z 100)) in
     cpuInfo ← si_cpu env;
     cpuLoad ← si_currentLoad env;
     let cpuUsage := Math_round (currentLoad cpuLoad) in
     fsSize ← si_fsSize env;
     diskInfo ← diskInfo_for diskPath fsSize;
     let totalDiskGB := toFixed fmt (div (fs_size diskInfo) GiB) 1 in
     let diskUsage := Math_round (fs_use diskInfo) in
     mret {| hostname := hostname;
             ip := ipAddress;
             os := distro osInfo ++ lit " " ++ release osInfo;
             kernel := kernel_version osInfo;
             uptime := uptime;
             ramUsage := ramUsage;
             totalRam := totalMemoryGB ++ lit "Gi";
             cpuUsage := cpuUsage;
             diskUsage := diskUsage;
             totalDisk := totalDiskGB ++ lit "G" |})
    (λ error, mret (unknown_host (os_hostname env))).

(** An element of [processes.list] of [si.processes()]; the percentages are
    finite numbers. *)
Record Process : Type := {
  name : list N;
  memPercent : Q;
  cpu_percent : Q                  (* proc.cpu *)
}.

(** [list.sort((a, b) => key(b) - key(a))]: descending, and stable, so a
    process goes behind those already placed that use as much. *)
Fixpoint sort_in (key : Process → Q) (proc : Process) (sorted : list Process)
  : list Process :=
  match sorted with
  | [] => [proc]
  | first :: rest =>
      if Qle_bool (key proc) (key first)
      then first :: sort_in key proc rest
      else proc :: first :: rest
  end.

Definition sort_desc (key : Process → Q) (l : list Process) : list Process :=
  fold_left (λ sorted proc, sort_in key proc sorted) l [].

(** [arr.slice(0, count)]: a negative count is taken from the end. *)
Definition slice0 {A : Type} (count : Z) (arr : list A) : list A :=
  if count <? 0 then take (Z.to_nat (Z.of_nat (length arr) + count)) arr
  else take (Z.to_nat count) arr.

Definition process_line (fmt : NumberFormat) (key : Process → Q)
    (proc : Process) : list N :=
  lit "  - " ++ padEnd (name proc) 15 ++ lit " ("
  ++ toFixed fmt (Fin (key proc)) 1 ++ lit "%)".

(** [error.code] of the callback of [exec]. *)
Inductive ExecCode : Type :=
| ExitCode (code : Z)
| OtherCode.

(** The outcome of the external calls of one [getTopProcesses]:
    [exec_error] is [None] for a [null] error.  [exec] is taken to report
    through its callback, with a string for [stdout]. *)
Record TopEnv : Type := {
  si_processes : result (list Process);
  exec_error : option ExecCode;
  exec_stdout : list N
}.

(** The text made of one line of the output of [du]. *)
Definition du_line (line : list N) : list N :=
  match line with
  | [] => []
  | _ =>
      match split 9 line with
      | [size; path_text] =>
          let path := pop (split 47 path_text) in
          lit "  - /" ++ padEnd path 15 ++ lit " " ++ size
      | _ => []
      end
  end.

Definition du_breakdown (stdout : list N) : list N :=
  let lines := split 10 (trim stdout) in
  let result :=
    List.filter (λ line, negb (Nat.eqb (length line) 0)) (map du_line lines) in
  join (lit (String "010" EmptyString)) result.

Definition getTopProcesses (fmt : NumberFormat) (env : TopEnv)
    (resourceType : list N) (count : Z) : result (list N) :=
  Res.try_catch
    (if eqb resourceType (lit "RAM") then
       processes ← si_processes env;
       let sortedProcesses := slice0 count (sort_desc memPercent processes) in
       mret (join (lit (String "010" EmptyString))
               (map (process_line fmt memPercent) sortedProcesses))
     else if eqb resourceType (lit "CPU") then
       processes ← si_processes env;
       let sortedProcesses := slice0 count (sort_desc cpu_percent processes) in
       mret (join (lit (String "010" EmptyString))
               (map (process_line fmt cpu_percent) sortedProcesses))
     else if eqb resourceType (lit "Disk") then
       match exec_error env with
       | Some (ExitCode 1) | None => mret (du_breakdown (exec_stdout env))
       | Some _ => mret (lit "Could not get disk usage information")
       end
     else mret (lit "Unknown resource type"))
    (λ error,
     mret (lit "Could not get " ++ resourceType ++ lit " process information")).

End SystemUtils.

(** ** The alert text ([alertFormatter.js]) *)
Module AlertFormatter.
Import JsString.

(** [config.get('alertFormat. ...')] *)
Record AlertFormat : Type := {
  enabled : bool;
  width : Z;
  linePrefix : list N;
  lineSuffix : list N;
  topBorder : list N;
  titleBorder : list N;
  sectionBorder : list N;
  bottomBorder : list N;
  titleAlign : list N;
  dateEmoji : list N;
  hostnameEmoji : list N;
  ipEmoji : list N;
  uptimeEmoji : list N;
  osEmoji : list N;
  kernelEmoji : list N;
  ramEmoji : list N;
  cpuEmoji : list N;
  diskEmoji : list N;
  topProcessesEmoji : list N;
  diskBreakdownEmoji : list N;
  includeSystemInfo : bool;
  includeResources : bool;
  includeTopProcesses : bool;
  includeDiskBreakdown : bool
}.

(** [config.get('monitoring. ...')] as far as the text goes. *)
Record Monitoring : Type := {
  alertMessageTitle : list N;
  monitoring_includeTopProcesses : bool;
  topProcessesCount : Z
}.

Definition newline : list N := lit (String "010" EmptyString).

(** [new Date().toISOString().replace('T', ' ').substring(0, 19)] *)
Definition dateStr_of (toISOString : list N) : list N :=
  substring0 19 (replace 84 32 toISOString).

(** [contentWidth] *)
Definition contentWidth (af : AlertFormat) : Z :=
  width af - Z.of_nat (length (linePrefix af)) - Z.of_nat (length (lineSuffix af)).

(** A line of the box,
    [`${linePrefix}${a}${b}${' '.repeat(contentWidth - a.length - b.length)}${lineSuffix}`]:
    the parts of the text, then as many spaces as the lengths of the parts
    leave of the content width. *)
Definition box_row (af : AlertFormat) (parts : list (list N)) : result (list N) :=
  spaces ← repeat_space
             (contentWidth af - Z.of_nat (length (concat parts)));
  mret (linePrefix af ++ concat parts ++ spaces ++ lineSuffix af).

(** The [for] loops over the lines of a [getTopProcesses] text: a line that
    is blank after [trim] is skipped. *)
Fixpoint box_rows (af : AlertFormat) (lines : list (list N))
  : result (list (list N)) :=
  match lines with
  | [] => mret []
  | line :: rest =>
      if Nat.eqb (length (trim line)) 0 then box_rows af rest
      else
        row ← box_row af [line];
        rows ← box_rows af rest;
        mret (row :: rows)
  end.

Definition titleLine (af : AlertFormat) (title : list N) : list N :=
  let contentWidth := contentWidth af in
  if eqb (titleAlign af) (lit "center") then
    linePrefix af
    ++ padEnd (padStart title
                 (Z.quot (contentWidth + Z.of_nat (length title)) 2))
         contentWidth
    ++ lineSuffix af
  else if eqb (titleAlign af) (lit "right") then
    linePrefix af ++ padStart title contentWidth ++ lineSuffix af
  else linePrefix af ++ padEnd title contentWidth ++ lineSuffix af.

(** The array [message] of the box format. *)
Definition box_lines (fmt : NumberFormat) (af : AlertFormat) (mon : Monitoring)
    (toISOString : list N) (top : SystemUtils.TopEnv)
    (systemInfo : SystemUtils.SystemInfo) : result (list (list N)) :=
  let head := [topBorder af; titleLine af (alertMessageTitle mon); titleBorder af] in
  info ←
    (if includeSystemInfo af then
       let dateStr := dateStr_of toISOString in
       l1 ← box_row af [dateEmoji af; lit " Date:       "; dateStr];
       l2 ← box_row af [hostnameEmoji af; lit " Hostname:     ";
                        SystemUtils.hostname systemInfo];
       l3 ← box_row af [ipEmoji af; lit " IP Address:   ";
                        SystemUtils.ip systemInfo];
       l4 ← box_row af [uptimeEmoji af; lit " Uptime:       ";
                        SystemUtils.uptime systemInfo];
       l5 ← box_row af [osEmoji af; lit " OS:           ";
                        SystemUtils.os systemInfo];
       l6 ← box_row af [kernelEmoji af; lit " Kernel:       ";
                        SystemUtils.kernel systemInfo];
       mret [l1; l2; l3; l4; l5; l6; sectionBorder af]
     else mret []);
  resources ←
    (if includeResources af then
       let ramText :=
         ramEmoji af ++ lit " RAM Usage:       "
         ++ ToString fmt (SystemUtils.ramUsage systemInfo) ++ lit "% of "
         ++ SystemUtils.totalRam systemInfo in
       let cpuText :=
         cpuEmoji af ++ lit " CPU Usage:       "
         ++ ToString fmt (SystemUtils.cpuUsage systemInfo) ++ lit "%" in
       let diskText :=
         diskEmoji af ++ lit " Disk Usage:      "
         ++ ToString fmt (SystemUtils.diskUsage systemInfo) ++ lit "% of "
         ++ SystemUtils.totalDisk systemInfo in
       l1 ← box_row af [ramText];
       l2 ← box_row af [cpuText];
       l3 ← box_row af [diskText];
       mret [l1; l2; l3; sectionBorder af]
     else mret []);
  processes ←
    (if includeTopProcesses af && monitoring_includeTopProcesses mon then
       let topProcessesHeader := topProcessesEmoji af ++ lit " Top RAM Consumers:" in
       header ← box_row af [topProcessesHeader];
       topRamProcesses ← SystemUtils.getTopProcesses fmt top (lit "RAM") 3;
       rows ← box_rows af (split 10 topRamProcesses);
       mret (header :: rows ++ [sectionBorder af])
     else mret []);
  breakdown ←
    (if includeDiskBreakdown af && monitoring_includeTopProcesses mon then
       let diskBreakdownHeader :=
         diskBreakdownEmoji af ++ lit " Disk Usage Breakdown:" in
       header ← box_row af [diskBreakdownHeader];
       diskBreakdown ← SystemUtils.getTopProcesses fmt top (lit "Disk") 3;
       rows ← box_rows af (split 10 diskBreakdown);
       mret (header :: rows)
     else mret []);
  mret (head ++ info ++ resources ++ processes ++ breakdown ++ [bottomBorder af]).

(** The plain text of [formatAlert] when the box format is switched off. *)
Definition plain_text (fmt : NumberFormat) (mon : Monitoring)
    (toISOString : list N) (top : SystemUtils.TopEnv)
    (systemInfo : SystemUtils.SystemInfo) : result (list N) :=
  let dateStr := dateStr_of toISOString in
  let message :=
    alertMessageTitle mon ++ newline ++ newline
    ++ lit "Date: " ++ dateStr ++ newline
    ++ lit "Hostname: " ++ SystemUtils.hostname systemInfo ++ newline
    ++ lit "IP Address: " ++ SystemUtils.ip systemInfo ++ newline
    ++ lit "Uptime: " ++ SystemUtils.uptime systemInfo ++ newline
    ++ lit "OS: " ++ SystemUtils.os systemInfo ++ newline
    ++ lit "Kernel: " ++ SystemUtils.kernel systemInfo ++ newline ++ newline
    ++ lit "RAM Usage: " ++ ToString fmt (SystemUtils.ramUsage systemInfo)
    ++ lit "% of " ++ SystemUtils.totalRam systemInfo ++ newline
    ++ lit "CPU Usage: " ++ ToString fmt (SystemUtils.cpuUsage systemInfo)
    ++ lit "%" ++ newline
    ++ lit "Disk Usage: " ++ ToString fmt (SystemUtils.diskUsage systemInfo)
    ++ lit "% of " ++ SystemUtils.totalDisk systemInfo ++ newline ++ newline in
  if monitoring_includeTopProcesses mon then
    topRamProcesses ←
      SystemUtils.getTopProcesses fmt top (lit "RAM") (topProcessesCount mon);
    topDiskUsage ←
      SystemUtils.getTopProcesses fmt top (lit "Disk") (topProcessesCount mon);
    mret (message ++ lit "Top RAM Consumers:" ++ newline ++ topRamProcesses
          ++ newline ++ newline
          ++ lit "Disk Usage Breakdown:" ++ newline ++ topDiskUsage)
  else mret message.

Definition formatAlert (fmt : NumberFormat) (af : AlertFormat) (mon : Monitoring)
    (toISOString : list N) (top : SystemUtils.TopEnv)
    (alertType : AlertType) (usageValue : UsageValue)
    (systemInfo : SystemUtils.SystemInfo) : result (list N) :=
  if negb (enabled af) then plain_text fmt mon toISOString top systemInfo
  else
    message ← box_lines fmt af mon toISOString top systemInfo;
    mret (join newline message).

End AlertFormatter.

(** ** The connection test ([app.js]) *)
Module ConnectionTest.
Import JsString.

(** ['🔄 SYSTEM MONITOR TEST MESSAGE'] and the three labels, the pictographs
    spelled out in code units. *)
Definition test_title : list N :=
  [55357; 56580]%N ++ lit " SYSTEM MONITOR TEST MESSAGE".
Definition hostname_label : list N :=
  [55357; 56741; 65039]%N ++ lit " Hostname:     ".
Definition ip_label : list N := [55356; 57104]%N ++ lit " IP Address:   ".
Definition time_label : list N := [9201; 65039]%N ++ lit " Time:         ".

Definition test_message (af : AlertFormatter.AlertFormat)
    (systemInfo : SystemUtils.SystemInfo) (dateStr : list N) : result (list N) :=
  if AlertFormatter.enabled af then
    l1 ← AlertFormatter.box_row af [test_title];
    l2 ← AlertFormatter.box_row af [hostname_label; SystemUtils.hostname systemInfo];
    l3 ← AlertFormatter.box_row af [ip_label; SystemUtils.ip systemInfo];
    l4 ← AlertFormatter.box_row af [time_label; dateStr];
    mret (join AlertFormatter.newline
            [AlertFormatter.topBorder af; l1; AlertFormatter.titleBorder af;
             l2; l3; l4; AlertFormatter.bottomBorder af])
  else
    mret (test_title ++ AlertFormatter.newline ++ AlertFormatter.newline
          ++ [55357; 56741; 65039]%N ++ lit " Hostname: "
          ++ SystemUtils.hostname systemInfo ++ AlertFormatter.newline
          ++ [55356; 57104]%N ++ lit " IP Address: "
          ++ SystemUtils.ip systemInfo ++ AlertFormatter.newline
          ++ [9201; 65039]%N ++ lit " Time: " ++ dateStr).

(** The result and the message handed to [bot.sendMessage], if the call is
    reached; [send] is the outcome of that call. *)
Definition testTelegramConnection (fmt : NumberFormat)
    (af : AlertFormatter.AlertFormat) (diskPath : list N)
    (host : SystemUtils.HostEnv) (toISOString : list N) (send : result unit)
  : bool * option (list N) :=
  match
    systemInfo ← SystemUtils.getSystemInfo fmt diskPath host;
    test_message af systemInfo (AlertFormatter.dateStr_of toISOString)
  with
  | Throw _ => (false, None)
  | Ok message =>
      match send with
      | Ok _ => (true, Some message)
      | Throw _ => (false, Some message)
      end
  end.

End ConnectionTest.

(** ** Start-up of the database ([database.js], [app.js]) *)
Module Setup.

(** What [setupDatabase] hands back: [null], the interface object of an
    adapter, or the promise that calling an [async] function gives. *)
Inductive DbHandle : Type :=
| DbNull
| DbInterface
| DbPromise.

(** [setupSqlite]: [mkdir] is the outcome of making sure of the directory
    ([fs.existsSync], [fs.mkdirSync]).  [new sqlite3.Database(dbPath)] and
    [db.serialize] only queue their work: a file that cannot be opened
    shows later, outside this call, and the interface is returned all the
    same. *)
Definition setupSqlite (mkdir : result unit) : result DbHandle :=
  Res.try_catch
    (mkdir;;
     mret DbInterface)
    (λ error, mret DbNull).

(** [setupMysql] and [setupPostgresql] are [async]: the call returns a
    promise at once and cannot throw; [setupDatabase] returns that promise
    without awaiting it. *)
Definition setupMysql : result DbHandle := mret DbPromise.
Definition setupPostgresql : result DbHandle := mret DbPromise.

Definition setupDatabase (cfg : Config) (dbType : string) (mkdir : result unit)
  : result DbHandle :=
  if negb (database_enabled cfg) then mret DbNull
  else
    Res.try_catch
      (if String.eqb dbType "sqlite" then setupSqlite mkdir
       else if String.eqb dbType "mysql" then setupMysql
       else if String.eqb dbType "postgresql" then setupPostgresql
       else mret DbNull)
      (λ error, mret DbNull).

(** [let db = null; if (config.get('database.enabled')) { db = setupDatabase(); }] *)
Definition module_db (cfg : Config) (dbType : string) (mkdir : result unit)
  : result DbHandle :=
  if database_enabled cfg then setupDatabase cfg dbType mkdir else mret DbNull.

(** Truthiness of [db]: every object is truthy, a promise too. *)
Definition truthy (handle : DbHandle) : bool :=
  match handle with
  | DbNull => false
  | DbInterface | DbPromise => true
  end.

(** [await db.storeMetrics(...)] and [await db.storeAlert(...)]: the
    interface passes the call on to the driver; a promise has no such
    method, and calling [undefined] throws. *)
Definition call_method {A : Type} (handle : DbHandle) (driver : result A)
  : result A :=
  match handle with
  | DbInterface => driver
  | DbPromise => Throw "TypeError: not a function"
  | DbNull => Throw "TypeError: Cannot read properties of null"
  end.

End Setup.
(** ** Vocabulary of the statements *)
Module Spec.

(** A strictly positive finite number. *)
Definition positive (a : num) : bool :=
  match a with
  | Fin x => negb (Qle_bool x 0)
  | _ => false
  end.

(** Two numbers that denote the same value. *)
Definition same_number (a b : num) : Prop :=
  match a, b with
  | Fin x, Fin y => x == y
  | Inf s, Inf t => s = t
  | NaN, NaN => True
  | _, _ => False
  end.

(** A call that throws. *)
Definition is_throw {A : Type} (r : result A) : bool :=
  match r with Throw _ => true | Ok _ => false end.

Definition when_ok {A : Type} (check : A → bool) (r : result A) : bool :=
  match r with
  | Ok a => check a
  | Throw _ => true
  end.

(** Byte counters that are finite, non-negative and did not go backwards
    between the two samples. *)
Definition monotone_counters (l1 l2 : list NetworkStats) : bool :=
  match l1, l2 with
  | s1 :: _, s2 :: _ =>
      in_range (rx_bytes s1) && in_range (rx_bytes s2)
      && geb (rx_bytes s2) (rx_bytes s1)
      && in_range (tx_bytes s1) && in_range (tx_bytes s2)
      && geb (tx_bytes s2) (tx_bytes s1)
  | _, _ => true
  end.

(** A metric source whose answers, when it answers, are finite and
    non-negative, with positive totals and core count and monotone byte
    counters. *)
Definition plausible (src : Source) : bool :=
  when_ok (λ m, in_range (used m) && positive (total m)) (ram_si_mem src)
  && when_ok (λ c, in_range (currentLoad c)) (cpu_si_currentLoad src)
  && when_ok (forallb (λ f, in_range (use f))) (disk_si_fsSize src)
  && when_ok (λ m, in_range (swapused m) && in_range (swaptotal m)) (swap_si_mem src)
  && when_ok (λ l, match l with x :: _ => in_range x | [] => false end)
       (load_os_loadavg src)
  && when_ok (λ n, (0 <? n)%nat) (load_os_cpus src)
  && match net_si_networkStats1 src, net_si_networkStats2 src with
     | Ok l1, Ok l2 => monotone_counters l1 l2
     | _, _ => true
     end.

(** Every reading of the snapshot lies in [0, ∞). *)
Definition readings_in_range (m : Metrics) : bool :=
  in_range (ram m) && in_range (cpu m) && in_range (disk m)
  && in_range (swap m) && in_range (load m)
  && in_range (fst (network m)) && in_range (snd (network m)).

Definition config_all_enabled : Config := {|
  monitoring_checkInterval := 60;
  monitoring_threshold := of_Z 80;
  cpu_monitor := true; cpu_threshold := of_Z 90;
  disk_monitor := true; disk_threshold := of_Z 90; disk_path := "/";
  swap_monitor := true; swap_threshold := of_Z 0;
  load_monitor := true; load_threshold := of_Z 100;
  network_monitor := true; network_threshold := of_Z 5;
  network_interface := "eth0";
  database_enabled := true;
  prometheus_enabled := true
|}.

(** The same with CPU monitoring switched off. *)
Definition config_cpu_off : Config := {|
  monitoring_checkInterval := 60;
  monitoring_threshold := of_Z 80;
  cpu_monitor := false; cpu_threshold := of_Z 90;
  disk_monitor := true; disk_threshold := of_Z 90; disk_path := "/";
  swap_monitor := true; swap_threshold := of_Z 0;
  load_monitor := true; load_threshold := of_Z 100;
  network_monitor := true; network_threshold := of_Z 5;
  network_interface := "eth0";
  database_enabled := true;
  prometheus_enabled := true
|}.

Definition mem_85_of_100 : MemInfo :=
  {| used := of_Z 85; total := of_Z 100; swapused := of_Z 0; swaptotal := of_Z 0 |}.

(** [rx_bytes] goes from 1,000,000 to 2,048,000 between the samples. *)
Definition source_quiet : Source := {|
  ram_si_mem := Ok mem_85_of_100;
  cpu_si_currentLoad := Ok {| currentLoad := Fin (123 # 10) |};
  disk_si_fsSize := Ok [ {| mount := "/"; use := Fin (405 # 10) |} ];
  swap_si_mem := Ok mem_85_of_100;
  load_os_loadavg := Ok [Fin (1 # 2); Fin (1 # 4); Fin (1 # 8)];
  load_os_cpus := Ok 4%nat;
  net_si_networkStats1 := Ok [ {| rx_bytes := of_Z 1000000; tx_bytes := of_Z 500 |} ];
  net_si_networkStats2 := Ok [ {| rx_bytes := of_Z 2048000; tx_bytes := of_Z 900 |} ]
|}.

(** The interface counters restart between the two samples. *)
Definition source_counter_restart : Source := {|
  ram_si_mem := Ok mem_85_of_100;
  cpu_si_currentLoad := Ok {| currentLoad := Fin (123 # 10) |};
  disk_si_fsSize := Ok [ {| mount := "/"; use := Fin (405 # 10) |} ];
  swap_si_mem := Ok mem_85_of_100;
  load_os_loadavg := Ok [Fin (1 # 2); Fin (1 # 4); Fin (1 # 8)];
  load_os_cpus := Ok 4%nat;
  net_si_networkStats1 := Ok [ {| rx_bytes := of_Z 2048000; tx_bytes := of_Z 900 |} ];
  net_si_networkStats2 := Ok [ {| rx_bytes := of_Z 1000000; tx_bytes := of_Z 500 |} ]
|}.


(** *** Reading a trace *)

(** The key of [lastAlertTimes] an alert type is filed under. *)
Definition alertKey (alertType : AlertType) : string :=
  toLowerCase (alertType_name alertType).

(** The entry of [lastAlertTimes] that belongs to a kind, by name: the six
    keys of the object the application starts with. *)
Definition kindKey (kind : AlertType) : string :=
  match kind with
  | RAM => "ram" | CPU => "cpu" | Disk => "disk"
  | Swap => "swap" | Load => "load" | Network => "network"
  end.

(** The time of the last successful send the rate limiter works with. *)
Definition lastSentAt (st : gmap string Z) (key : string) : Z :=
  default 0 (st !! key).

(** The alert types [sendTelegramAlert] was entered for, in order. *)
Definition dispatched (evs : list Event) : list AlertType :=
  flat_map (λ e, match e with EvDispatch t _ => [t] | _ => [] end) evs.

(** Whether a dispatch left through the rate limiter. *)
Definition rateLimited (evs : list Event) : bool :=
  existsb (λ e, match e with EvRateLimited _ _ => true | _ => false end) evs.


(** The number of calls of [bot.sendMessage]. *)
Definition attempts (evs : list Event) : nat :=
  length (List.filter
            (λ e, match e with EvSendMessage _ => true | _ => false end) evs).

(** The alert records handed to [db.storeAlert], in order. *)
Definition alertRecords (evs : list Event) : list AlertRecord :=
  flat_map (λ e, match e with EvDbStoreAlert r => [r] | _ => [] end) evs.

(** [k] failed attempts, each followed by the two-second wait. *)
Definition retries (k : nat) (message : string) : list Event :=
  concat (replicate k [EvSendMessage message; EvSleep 2000]).

(** The first of the three attempts that the transport accepts. *)
Definition first_success (send : nat → result unit) : option nat :=
  match send 0%nat, send 1%nat, send 2%nat with
  | Ok _, _, _ => Some 0%nat
  | Throw _, Ok _, _ => Some 1%nat
  | Throw _, Throw _, Ok _ => Some 2%nat
  | Throw _, Throw _, Throw _ => None
  end.

Definition app_full : App := {| db := true; prometheus := true |}.

(** A dispatch at time [now] whose [k]-th call (from 0) of the transport is
    the only one to succeed. *)
Definition dispatch_at (now : Z) (k : nat) : DispatchEnv := {|
  date_now := now;
  formatAlert := Ok "alert";
  bot_sendMessage := λ n, if (n =? k)%nat then Ok tt else Throw "ETELEGRAM";
  storeAlert_timestamp := "2024-05-01 10:00:00";
  storeAlert_hostname := "host-1";
  db_storeAlert := Ok 1
|}.

(** The counter increment of a successful send. *)
Definition counted (app : App) (cfg : Config) (t : AlertType) : list Event :=
  if prometheus app && prometheus_enabled cfg then [EvCounterInc t] else [].

(** The record a dispatch hands to [db.storeAlert]. *)
Definition stored (app : App) (cfg : Config) (env : DispatchEnv)
    (t : AlertType) (v : UsageValue) (message : string) (sent : bool) : list Event :=
  if db app && database_enabled cfg
  then [EvDbStoreAlert
          {| alert_timestamp := storeAlert_timestamp env;
             alert_hostname := storeAlert_hostname env;
             alert_type := t; alert_value := v;
             alert_message := message;
             sentSuccessfully := sent |}]
  else [].


(** [lastAlertTimes] once the key of the alert type is made sure of. *)
Definition ensured (key : string) (st : gmap string Z) : gmap string Z :=
  match st !! key with
  | None | Some 0 => <[key := 0]> st
  | Some _ => st
  end.

(** What a dispatch comes to, read off the outcomes of its calls. *)
Definition dispatch_outcome (app : App) (cfg : Config) (env : DispatchEnv)
    (t : AlertType) (v : UsageValue) (st : gmap string Z)
  : result bool * gmap string Z * list Event :=
  let st1 := ensured (alertKey t) st in
  let since := date_now env - lastSentAt st (alertKey t) in
  if since <? monitoring_checkInterval cfg * 10 then
    (Ok false, st1, [EvDispatch t v; EvRateLimited t since])
  else
    match formatAlert env with
    | Throw _ => (Ok false, st1, [EvDispatch t v])
    | Ok message =>
        match first_success (bot_sendMessage env) with
        | Some k =>
            (Ok true, <[alertKey t := date_now env]> st1,
             EvDispatch t v :: retries k message ++ EvSendMessage message
             :: counted app cfg t ++ stored app cfg env t v message true)
        | None =>
            (Ok false, st1,
             EvDispatch t v :: retries 3 message
             ++ stored app cfg env t v message false)
        end
    end.


(** *** Breaches and sinks *)

(** The alert kinds in the order of the threshold checks. *)
Definition kinds : list AlertType := [RAM; CPU; Disk; Swap; Load; Network].

(** A breach in the words of the contract: the kind is monitored and its
    reading is at least its threshold; RAM is always monitored, Network
    looks at both rates. *)
Definition breach_as_stated (cfg : Config) (m : Metrics) (t : AlertType) : bool :=
  match t with
  | RAM => geb (ram m) (monitoring_threshold cfg)
  | CPU => cpu_monitor cfg && geb (cpu m) (cpu_threshold cfg)
  | Disk => disk_monitor cfg && geb (disk m) (disk_threshold cfg)
  | Swap => swap_monitor cfg && geb (swap m) (swap_threshold cfg)
  | Load => load_monitor cfg && geb (load m) (load_threshold cfg)
  | Network =>
      network_monitor cfg
      && (geb (fst (network m)) (network_threshold cfg)
          || geb (snd (network m)) (network_threshold cfg))
  end.

(** The same, with a swap reading that must also be above 0. *)
Definition breach (cfg : Config) (m : Metrics) (t : AlertType) : bool :=
  match t with
  | Swap => breach_as_stated cfg m Swap && gtb (swap m) zero
  | other => breach_as_stated cfg m other
  end.

Definition is_sink_event (e : Event) : bool :=
  match e with
  | EvDbStoreMetrics _ | EvGaugeSet _ _ | EvWriteStatus _ => true
  | _ => false
  end.

(** A trace without the calls of the three sinks. *)
Definition alert_events (evs : list Event) : list Event :=
  List.filter (λ e, negb (is_sink_event e)) evs.

(** The gauge writes of a trace, in order. *)
Definition gauge_events (evs : list Event) : list (Gauge * num) :=
  flat_map (λ e, match e with EvGaugeSet g x => [(g, x)] | _ => [] end) evs.

(** The record [storeMetrics] builds from a snapshot. *)
Definition metricRecord_of (env : SinkEnv) (m : Metrics) : MetricRecord :=
  {| timestamp := storeMetrics_timestamp env;
     hostname := systemInfo_hostname env;
     ip_address := systemInfo_ip env;
     ram_usage := or0 (ram m);
     cpu_usage := or0 (cpu m);
     disk_usage := or0 (disk m);
     swap_usage := or0 (swap m);
     load_average := or0 (load m);
     network_rx := fst (network m);
     network_tx := snd (network m);
     extra_data := None |}.

(** The kinds whose threshold check a tick carries through: all six, unless
    Load is in breach and the [os.cpus()] of its check throws, which ends
    the tick before the Load dispatch and the Network check. *)
Definition reached (cfg : Config) (m : Metrics) (env : TickEnv)
  : list AlertType :=
  if breach cfg m Load && is_throw (alert_os_cpus env)
  then [RAM; CPU; Disk; Swap] else kinds.

(** The waits of the readers of a tick. *)
Definition reader_waits (cfg : Config) (src : Source) : list Event :=
  map EvSleep (checkNetworkUsage_waits cfg (net_si_networkStats1 src)).

(** The reading a gauge is to show: 0 stands in for a reading that is
    absent, that is, not a number. *)
Definition shown (reading : num) : num :=
  match reading with
  | NaN => zero
  | present => present
  end.

(** The gauges with what they are to show, in the order of the writes. *)
Definition gauges_as_stated (m : Metrics) : list (Gauge * num) :=
  [(g_ramUsage, shown (ram m)); (g_cpuUsage, shown (cpu m));
   (g_diskUsage, shown (disk m)); (g_swapUsage, shown (swap m));
   (g_loadAverage, shown (load m));
   (g_networkRx, fst (network m)); (g_networkTx, snd (network m))].

(** A write that sets the gauge it is to set to the number it is to show. *)
Definition same_write (written stated : Gauge * num) : Prop :=
  written.1 = stated.1 ∧ same_number written.2 stated.2.

(** How many of a row of gauge writes are made: all up to and including the
    first one the registry refuses. *)
Fixpoint writes_made (outcome : Gauge → result unit) (gauges : list Gauge)
  : nat :=
  match gauges with
  | [] => 0
  | g :: rest =>
      S (match outcome g with
         | Ok _ => writes_made outcome rest
         | Throw _ => 0
         end)
  end.

(** The gauge writes [updatePrometheusMetrics] sets out to make. *)
Definition gauge_writes (m : Metrics) : list (Gauge * num) :=
  [(g_ramUsage, or0 (ram m)); (g_cpuUsage, or0 (cpu m));
   (g_diskUsage, or0 (disk m)); (g_swapUsage, or0 (swap m));
   (g_loadAverage, or0 (load m));
   (g_networkRx, fst (network m)); (g_networkTx, snd (network m))].

(** The calls made of a list of gauge writes: up to the first that throws. *)
Fixpoint calls_until_throw (outcome : Gauge → result unit)
    (writes : list (Gauge * num)) : list Event :=
  match writes with
  | [] => []
  | (g, x) :: rest =>
      EvGaugeSet g x
      :: match outcome g with
         | Ok _ => calls_until_throw outcome rest
         | Throw _ => []
         end
  end.

(** The write of the status file, made once its text is built. *)
Definition status_trace (cfg : Config) (env : SinkEnv) (m : Metrics)
  : list Event :=
  match statusContent cfg env m with
  | Ok content => [EvWriteStatus content]
  | Throw _ => []
  end.

(** The calls the three sinks make in a tick. *)
Definition sink_trace (app : App) (cfg : Config) (env : SinkEnv) (m : Metrics)
  : list Event :=
  (if db app && database_enabled cfg
   then [EvDbStoreMetrics (metricRecord_of env m)] else [])
  ++ (if prometheus app && prometheus_enabled cfg
      then calls_until_throw (gauge_set env) (gauge_writes m) else [])
  ++ status_trace cfg env m.

(** The writes of the status file in a trace. *)
Definition status_writes (evs : list Event) : list (list StatusLine) :=
  flat_map (λ e, match e with EvWriteStatus content => [content] | _ => [] end)
    evs.

(** Sinks that all succeed. *)
Definition sinks_fine : SinkEnv := {|
  systemInfo_hostname := "host-1";
  systemInfo_ip := "10.0.0.5";
  storeMetrics_timestamp := "2024-05-01 10:00:00";
  db_storeMetrics := Ok 1;
  gauge_set := λ _, Ok tt;
  status_os_cpus := Ok 4%nat;
  fs_writeFileSync := Ok tt
|}.

(** Sinks whose collaborators all fail: the database, the registry and
    the file system. *)
Definition sinks_broken : SinkEnv := {|
  systemInfo_hostname := "host-1";
  systemInfo_ip := "10.0.0.5";
  storeMetrics_timestamp := "2024-05-01 10:00:00";
  db_storeMetrics := Throw "SQLITE_BUSY";
  gauge_set := λ _, Throw "Value is not a valid number";
  status_os_cpus := Ok 4%nat;
  fs_writeFileSync := Throw "ENOSPC"
|}.

(** Sinks that succeed on a host where [os.cpus()] throws. *)
Definition sinks_cpus_down : SinkEnv := {|
  systemInfo_hostname := "host-1";
  systemInfo_ip := "10.0.0.5";
  storeMetrics_timestamp := "2024-05-01 10:00:00";
  db_storeMetrics := Ok 1;
  gauge_set := λ _, Ok tt;
  status_os_cpus := Throw "ENOSYS";
  fs_writeFileSync := Ok tt
|}.

(** A tick on a quiet host: RAM at 85 % of a threshold of 80 %, no swap. *)
Definition tick_quiet : TickEnv := {|
  source := source_quiet;
  sinks := sinks_fine;
  alert_os_cpus := Ok 4%nat;
  dispatch := λ _, dispatch_at 1000000 0
|}.

(** The same tick with other outcomes of the sinks. *)
Definition with_sinks (outcomes : SinkEnv) (env : TickEnv) : TickEnv := {|
  source := source env;
  sinks := outcomes;
  alert_os_cpus := alert_os_cpus env;
  dispatch := dispatch env
|}.

(** A host with a load of 6 on 4 cores, 150 % per core, where [os.cpus()]
    answers the reader and throws afterwards. *)
Definition source_loaded : Source := {|
  ram_si_mem := ram_si_mem source_quiet;
  cpu_si_currentLoad := cpu_si_currentLoad source_quiet;
  disk_si_fsSize := disk_si_fsSize source_quiet;
  swap_si_mem := swap_si_mem source_quiet;
  load_os_loadavg := Ok [Fin 6; Fin 5; Fin 4];
  load_os_cpus := Ok 4%nat;
  net_si_networkStats1 := net_si_networkStats1 source_quiet;
  net_si_networkStats2 := net_si_networkStats2 source_quiet
|}.

Definition tick_cpus_lost : TickEnv := {|
  source := source_loaded;
  sinks := sinks_cpus_down;
  alert_os_cpus := Throw "ENOSYS";
  dispatch := λ _, dispatch_at 1000000 0
|}.

(** A host that reports no memory at all: the RAM reading is not a
    number. *)
Definition source_no_memory : Source := {|
  ram_si_mem := Ok {| used := of_Z 0; total := of_Z 0;
                      swapused := of_Z 0; swaptotal := of_Z 0 |};
  cpu_si_currentLoad := cpu_si_currentLoad source_quiet;
  disk_si_fsSize := disk_si_fsSize source_quiet;
  swap_si_mem := swap_si_mem source_quiet;
  load_os_loadavg := load_os_loadavg source_quiet;
  load_os_cpus := load_os_cpus source_quiet;
  net_si_networkStats1 := net_si_networkStats1 source_quiet;
  net_si_networkStats2 := net_si_networkStats2 source_quiet
|}.

Definition tick_no_memory : TickEnv := {|
  source := source_no_memory;
  sinks := sinks_fine;
  alert_os_cpus := Ok 4%nat;
  dispatch := λ _, dispatch_at 1000000 0
|}.

(** *** Stores *)

(** Newest first: along the list the timestamps do not increase. *)
Definition newest_first {Row : Type} (ts : Row → string)
    (l : list (Z * Row)) : Prop :=
  Sorted (λ a b, String.leb (ts b.2) (ts a.2) = true) l.

(** [out] is the [limit] newest rows of [rows], newest first: [out] and the
    rows left out make up [rows], no row left out is newer than a row of
    [out], and [out] holds [limit] rows, or all of them when there are
    fewer or the limit is negative. *)
Definition newest_rows {Row : Type} (ts : Row → string) (limit : Z)
    (rows out : list (Z * Row)) : Prop :=
  ∃ rest,
    rows ≡ₚ out ++ rest
    ∧ newest_first ts out
    ∧ (∀ x y, In x out → In y rest → String.leb (ts y.2) (ts x.2) = true)
    ∧ Z.of_nat (length out)
      = if limit <? 0 then Z.of_nat (length rows)
        else Z.min limit (Z.of_nat (length rows)).

Definition record_at (time : string) : MetricRecord := {|
  timestamp := time;
  hostname := "host-1";
  ip_address := "10.0.0.5";
  ram_usage := of_Z 85;
  cpu_usage := of_Z 12;
  disk_usage := of_Z 41;
  swap_usage := of_Z 0;
  load_average := of_Z 13;
  network_rx := Fin (8384000 # 1048576);
  network_tx := Fin (3200 # 1048576);
  extra_data := None
|}.

Definition db_empty : Sqlite.Database := {|
  Sqlite.metrics := {| Sqlite.rows := []; Sqlite.last_id := 0 |};
  Sqlite.alerts := {| Sqlite.rows := []; Sqlite.last_id := 0 |}
|}.

(** A store that already holds a row stamped later than now, as after the
    clock of the host was set back. *)
Definition db_ahead : Sqlite.Database :=
  (Sqlite.appendMetric (record_at "2024-05-01 12:00:00") db_empty).1.

(** A store with two earlier rows. *)
Definition db_behind : Sqlite.Database :=
  (Sqlite.appendMetric (record_at "2024-05-01 09:59:00")
     (Sqlite.appendMetric (record_at "2024-05-01 09:58:00") db_empty).1).1.

(** *** Sequences of dispatches and further readings of a trace *)

(** The alert types whose counter was incremented, in order. *)
Definition counterIncs (evs : list Event) : list AlertType :=
  flat_map (λ e, match e with EvCounterInc t => [t] | _ => [] end) evs.

(** The waits of a trace, in milliseconds. *)
Definition sleeps (evs : list Event) : list Z :=
  flat_map (λ e, match e with EvSleep ms => [ms] | _ => [] end) evs.

(** The same dispatch with another outcome of [db.storeAlert]. *)
Definition with_db_storeAlert (outcome : result Z) (env : DispatchEnv)
  : DispatchEnv :=
  {| date_now := date_now env;
     formatAlert := formatAlert env;
     bot_sendMessage := bot_sendMessage env;
     storeAlert_timestamp := storeAlert_timestamp env;
     storeAlert_hostname := storeAlert_hostname env;
     db_storeAlert := outcome |}.

(** [sendTelegramAlert] called for one alert type again and again, each call
    with its own outcomes; the result lists the start time and the returned
    boolean of every call. *)
Fixpoint sendTelegramAlert_each (fuel : nat) (app : App) (cfg : Config)
    (t : AlertType) (v : UsageValue) (calls : list DispatchEnv)
    (st : gmap string Z) : option (list (Z * bool) * gmap string Z) :=
  match calls with
  | [] => Some ([], st)
  | env :: rest =>
      match sendTelegramAlert fuel app cfg env t v st with
      | Some (Ok b, st1, _) =>
          match sendTelegramAlert_each fuel app cfg t v rest st1 with
          | Some (outcomes, st2) => Some ((date_now env, b) :: outcomes, st2)
          | None => None
          end
      | _ => None
      end
  end.

(** A metric source none of whose calls answers. *)
Definition source_down : Source := {|
  ram_si_mem := Throw "ENOENT";
  cpu_si_currentLoad := Throw "ENOENT";
  disk_si_fsSize := Throw "ENOENT";
  swap_si_mem := Throw "ENOENT";
  load_os_loadavg := Throw "ENOENT";
  load_os_cpus := Throw "ENOENT";
  net_si_networkStats1 := Throw "ENOENT";
  net_si_networkStats2 := Throw "ENOENT"
|}.

(** Every call of the metric source throws. *)
Definition all_throw (src : Source) : Prop :=
  (∃ e, ram_si_mem src = Throw e)
  ∧ (∃ e, cpu_si_currentLoad src = Throw e)
  ∧ (∃ e, disk_si_fsSize src = Throw e)
  ∧ (∃ e, swap_si_mem src = Throw e)
  ∧ (∃ e, load_os_loadavg src = Throw e)
  ∧ (∃ e, net_si_networkStats1 src = Throw e).

(** The snapshot of readers that all returned 0. *)
Definition all_zero : Metrics :=
  {| ram := zero; cpu := zero; disk := zero; swap := zero; load := zero;
     network := (zero, zero) |}.

(** No threshold of the configuration is at or below 0. *)
Definition thresholds_above_zero (cfg : Config) : bool :=
  negb (geb zero (monitoring_threshold cfg))
  && negb (geb zero (cpu_threshold cfg))
  && negb (geb zero (disk_threshold cfg))
  && negb (geb zero (load_threshold cfg))
  && negb (geb zero (network_threshold cfg)).

(** What the threshold check of one kind does to lastAlertTimes and which
    calls it makes: nothing when the kind is not in breach, one dispatch
    otherwise. *)
Definition check_step (app : App) (cfg : Config) (env : TickEnv) (m : Metrics)
    (t : AlertType) (st st' : gmap string Z) (evs : list Event) : Prop :=
  (breach cfg m t = false ∧ st' = st ∧ evs = [])
  ∨ (breach cfg m t = true
     ∧ ∃ v b, dispatch_outcome app cfg (dispatch env t) t v st = (Ok b, st', evs)).

(** The threshold checks of a list of kinds, one after the other. *)
Inductive check_chain (app : App) (cfg : Config) (env : TickEnv) (m : Metrics)
  : list AlertType → gmap string Z → gmap string Z → list Event → Prop :=
| chain_nil (st : gmap string Z) : check_chain app cfg env m [] st st []
| chain_cons (t : AlertType) (ts : list AlertType) (st st1 st2 : gmap string Z)
    (e1 e2 : list Event) :
    check_step app cfg env m t st st1 e1 →
    check_chain app cfg env m ts st1 st2 e2 →
    check_chain app cfg env m (t :: ts) st st2 (e1 ++ e2).

(** *** Hosts, number texts and boxes *)

(** An external IPv4 entry: the test of the inner [forEach] of
    [getSystemInfo]. *)
Definition external (iface : SystemUtils.Iface) : bool :=
  JsString.eqb (SystemUtils.family iface) (JsString.lit "IPv4")
  && negb (SystemUtils.internal iface).

(** The entries of [os.networkInterfaces()], in the order they are visited. *)
Definition all_ifaces (networkInterfaces : list (list N * list SystemUtils.Iface))
  : list SystemUtils.Iface :=
  concat (map snd networkInterfaces).

(** Every awaited call of [getSystemInfo] answers, and [si.fsSize()] with
    at least one file system. *)
Definition answers (env : SystemUtils.HostEnv) : bool :=
  match SystemUtils.si_osInfo env, SystemUtils.si_mem env,
        SystemUtils.si_cpu env, SystemUtils.si_currentLoad env,
        SystemUtils.si_fsSize env with
  | Ok _, Ok _, Ok _, Ok _, Ok (_ :: _) => true
  | _, _, _, _, _ => false
  end.

(** The decimal digits of a whole number. *)
Definition digits (z : Z) : list N :=
  JsString.lit (NilZero.string_of_int (Z.to_int z)).

(** [x.toFixed(d)] of a finite number that is not negative: the nearest
    multiple of [10^-d], the larger one of two. *)
Definition fixed (q : Q) (d : nat) : list N :=
  let scaled := Qfloor (q * inject_Z (10 ^ Z.of_nat d) + (1 # 2)) in
  let whole := scaled / 10 ^ Z.of_nat d in
  let fraction := scaled mod 10 ^ Z.of_nat d in
  match d with
  | O => digits whole
  | _ =>
      digits whole ++ JsString.lit "."
      ++ replicate (d - length (digits fraction)) 48%N ++ digits fraction
  end.

(** A number format for the examples.  It prints whole numbers and
    [toFixed] as JavaScript does for numbers of moderate size; a number
    that is not whole is printed by [`${x}`] with six decimals, which is
    not always JavaScript's text. *)
Definition decimal_format : JsString.NumberFormat := {|
  JsString.ToString x :=
    match x with
    | Fin q =>
        if Qeq_bool q (inject_Z (Qfloor q)) then digits (Qfloor q)
        else if Qle_bool 0 q then fixed q 6
        else JsString.lit "-" ++ fixed (- q) 6
    | Inf false => JsString.lit "Infinity"
    | Inf true => JsString.lit "-Infinity"
    | NaN => JsString.lit "NaN"
    end;
  JsString.toFixed x d :=
    match x with
    | Fin q =>
        if Qle_bool 0 q then fixed q d else JsString.lit "-" ++ fixed (- q) d
    | Inf false => JsString.lit "Infinity"
    | Inf true => JsString.lit "-Infinity"
    | NaN => JsString.lit "NaN"
    end
|}.

(** A host with a loopback and two external addresses, up for one day, one
    hour and five minutes. *)
Definition host_sample : SystemUtils.HostEnv := {|
  SystemUtils.os_hostname := JsString.lit "web-01";
  SystemUtils.os_networkInterfaces :=
    [(JsString.lit "lo",
      [{| SystemUtils.family := JsString.lit "IPv4";
          SystemUtils.internal := true;
          SystemUtils.address := JsString.lit "127.0.0.1" |}]);
     (JsString.lit "eth0",
      [{| SystemUtils.family := JsString.lit "IPv4";
          SystemUtils.internal := false;
          SystemUtils.address := JsString.lit "10.0.0.5" |};
       {| SystemUtils.family := JsString.lit "IPv6";
          SystemUtils.internal := false;
          SystemUtils.address := JsString.lit "fe80::1" |}]);
     (JsString.lit "eth1",
      [{| SystemUtils.family := JsString.lit "IPv4";
          SystemUtils.internal := false;
          SystemUtils.address := JsString.lit "192.168.1.7" |}])];
  SystemUtils.si_osInfo :=
    Ok {| SystemUtils.distro := JsString.lit "Ubuntu";
          SystemUtils.release := JsString.lit "22.04";
          SystemUtils.kernel_version := JsString.lit "5.15.0" |};
  SystemUtils.os_uptime := 90300;
  SystemUtils.si_mem :=
    Ok {| used := of_Z 6442450944; total := of_Z 8589934592;
          swapused := zero; swaptotal := zero |};
  SystemUtils.si_cpu := Ok tt;
  SystemUtils.si_currentLoad := Ok {| currentLoad := Fin (251 # 10) |};
  SystemUtils.si_fsSize :=
    Ok [{| SystemUtils.fs_mount := JsString.lit "/boot";
           SystemUtils.fs_use := Fin (12 # 1);
           SystemUtils.fs_size := of_Z 1073741824 |};
        {| SystemUtils.fs_mount := JsString.lit "/";
           SystemUtils.fs_use := Fin (615 # 10);
           SystemUtils.fs_size := of_Z 53687091200 |}]
|}.

(** The same host while [si.mem()] fails. *)
Definition host_mem_down : SystemUtils.HostEnv := {|
  SystemUtils.os_hostname := SystemUtils.os_hostname host_sample;
  SystemUtils.os_networkInterfaces := SystemUtils.os_networkInterfaces host_sample;
  SystemUtils.si_osInfo := SystemUtils.si_osInfo host_sample;
  SystemUtils.os_uptime := SystemUtils.os_uptime host_sample;
  SystemUtils.si_mem := Throw "ENOENT";
  SystemUtils.si_cpu := SystemUtils.si_cpu host_sample;
  SystemUtils.si_currentLoad := SystemUtils.si_currentLoad host_sample;
  SystemUtils.si_fsSize := SystemUtils.si_fsSize host_sample
|}.

(** The same host under a name of 42 characters. *)
Definition host_long_name : SystemUtils.HostEnv := {|
  SystemUtils.os_hostname :=
    JsString.lit "ip-172-31-12-34.eu-west-1.compute.internal";
  SystemUtils.os_networkInterfaces := SystemUtils.os_networkInterfaces host_sample;
  SystemUtils.si_osInfo := SystemUtils.si_osInfo host_sample;
  SystemUtils.os_uptime := SystemUtils.os_uptime host_sample;
  SystemUtils.si_mem := SystemUtils.si_mem host_sample;
  SystemUtils.si_cpu := SystemUtils.si_cpu host_sample;
  SystemUtils.si_currentLoad := SystemUtils.si_currentLoad host_sample;
  SystemUtils.si_fsSize := SystemUtils.si_fsSize host_sample
|}.

(** *** Top consumers *)

(** [top] holds the [count] processes of [processes] that use most by
    [key], the largest first (all but the last [-count] of them for a
    negative [count]). *)
Definition top_consumers (key : SystemUtils.Process → Q) (count : Z)
    (processes top : list SystemUtils.Process) : Prop :=
  ∃ rest,
    processes ≡ₚ top ++ rest
    ∧ StronglySorted (λ a b, (key b <= key a)%Q) top
    ∧ (∀ p q, p ∈ top → q ∈ rest → (key q <= key p)%Q)
    ∧ Z.of_nat (length top)
      = if count <? 0 then Z.max 0 (Z.of_nat (length processes) + count)
        else Z.min count (Z.of_nat (length processes)).

(** The text [getTopProcesses] makes of the processes chosen. *)
Definition process_lines (fmt : JsString.NumberFormat)
    (key : SystemUtils.Process → Q) (top : list SystemUtils.Process) : list N :=
  JsString.join (JsString.lit (String "010" EmptyString))
    (map (SystemUtils.process_line fmt key) top).

(** Three processes, and a [du] that printed two directories. *)
Definition top_sample : SystemUtils.TopEnv := {|
  SystemUtils.si_processes :=
    Ok [{| SystemUtils.name := JsString.lit "nginx";
           SystemUtils.memPercent := 15 # 10;
           SystemUtils.cpu_percent := 30 # 1 |};
        {| SystemUtils.name := JsString.lit "postgres";
           SystemUtils.memPercent := 221 # 10;
           SystemUtils.cpu_percent := 5 # 1 |};
        {| SystemUtils.name := JsString.lit "node";
           SystemUtils.memPercent := 87 # 10;
           SystemUtils.cpu_percent := 12 # 1 |}];
  SystemUtils.exec_error := None;
  SystemUtils.exec_stdout :=
    JsString.lit "1.2G" ++ [9%N] ++ JsString.lit "/var/log" ++ [10%N]
    ++ JsString.lit "300M" ++ [9%N] ++ JsString.lit "/var/cache" ++ [10%N]
|}.

(** [si.processes()] fails and [du] could not be started. *)
Definition top_down : SystemUtils.TopEnv := {|
  SystemUtils.si_processes := Throw "EPERM";
  SystemUtils.exec_error := Some (SystemUtils.ExitCode 127);
  SystemUtils.exec_stdout := []
|}.

(** *** Boxes *)

(** A line of the body of a box: a row of the full width, or the border
    between two sections. *)
Definition box_line_ok (af : AlertFormatter.AlertFormat) (line : list N) : Prop :=
  Z.of_nat (length line) = AlertFormatter.width af
  ∨ line = AlertFormatter.sectionBorder af.

(** The labels and values of the rows of the system section. *)
Definition info_fields (af : AlertFormatter.AlertFormat) (toISOString : list N)
    (systemInfo : SystemUtils.SystemInfo) : list (list N * list N) :=
  [(AlertFormatter.dateEmoji af ++ JsString.lit " Date:       ",
    AlertFormatter.dateStr_of toISOString);
   (AlertFormatter.hostnameEmoji af ++ JsString.lit " Hostname:     ",
    SystemUtils.hostname systemInfo);
   (AlertFormatter.ipEmoji af ++ JsString.lit " IP Address:   ",
    SystemUtils.ip systemInfo);
   (AlertFormatter.uptimeEmoji af ++ JsString.lit " Uptime:       ",
    SystemUtils.uptime systemInfo);
   (AlertFormatter.osEmoji af ++ JsString.lit " OS:           ",
    SystemUtils.os systemInfo);
   (AlertFormatter.kernelEmoji af ++ JsString.lit " Kernel:       ",
    SystemUtils.kernel systemInfo)].

(** The alert format of the README: rows of 44 code units between bars. *)
Definition box_readme : AlertFormatter.AlertFormat := {|
  AlertFormatter.enabled := true;
  AlertFormatter.width := 44;
  AlertFormatter.linePrefix := [9474; 32]%N;
  AlertFormatter.lineSuffix := [32; 9474]%N;
  AlertFormatter.topBorder := [9484%N] ++ replicate 44 9472%N ++ [9488%N];
  AlertFormatter.titleBorder := [9500%N] ++ replicate 44 9472%N ++ [9508%N];
  AlertFormatter.sectionBorder := [9500%N] ++ replicate 44 9472%N ++ [9508%N];
  AlertFormatter.bottomBorder := [9492%N] ++ replicate 44 9472%N ++ [9496%N];
  AlertFormatter.titleAlign := JsString.lit "center";
  AlertFormatter.dateEmoji := [55357; 56787; 65039]%N;
  AlertFormatter.hostnameEmoji := [];
  AlertFormatter.ipEmoji := [];
  AlertFormatter.uptimeEmoji := [];
  AlertFormatter.osEmoji := [];
  AlertFormatter.kernelEmoji := [];
  AlertFormatter.ramEmoji := [55358; 56800]%N;
  AlertFormatter.cpuEmoji := [55357; 56613]%N;
  AlertFormatter.diskEmoji := [55357; 56510]%N;
  AlertFormatter.topProcessesEmoji := [55358; 56830]%N;
  AlertFormatter.diskBreakdownEmoji := [55357; 56513]%N;
  AlertFormatter.includeSystemInfo := true;
  AlertFormatter.includeResources := true;
  AlertFormatter.includeTopProcesses := true;
  AlertFormatter.includeDiskBreakdown := true
|}.

(** The same format with the box switched off. *)
Definition plain_readme : AlertFormatter.AlertFormat := {|
  AlertFormatter.enabled := false;
  AlertFormatter.width := AlertFormatter.width box_readme;
  AlertFormatter.linePrefix := AlertFormatter.linePrefix box_readme;
  AlertFormatter.lineSuffix := AlertFormatter.lineSuffix box_readme;
  AlertFormatter.topBorder := AlertFormatter.topBorder box_readme;
  AlertFormatter.titleBorder := AlertFormatter.titleBorder box_readme;
  AlertFormatter.sectionBorder := AlertFormatter.sectionBorder box_readme;
  AlertFormatter.bottomBorder := AlertFormatter.bottomBorder box_readme;
  AlertFormatter.titleAlign := AlertFormatter.titleAlign box_readme;
  AlertFormatter.dateEmoji := AlertFormatter.dateEmoji box_readme;
  AlertFormatter.hostnameEmoji := AlertFormatter.hostnameEmoji box_readme;
  AlertFormatter.ipEmoji := AlertFormatter.ipEmoji box_readme;
  AlertFormatter.uptimeEmoji := AlertFormatter.uptimeEmoji box_readme;
  AlertFormatter.osEmoji := AlertFormatter.osEmoji box_readme;
  AlertFormatter.kernelEmoji := AlertFormatter.kernelEmoji box_readme;
  AlertFormatter.ramEmoji := AlertFormatter.ramEmoji box_readme;
  AlertFormatter.cpuEmoji := AlertFormatter.cpuEmoji box_readme;
  AlertFormatter.diskEmoji := AlertFormatter.diskEmoji box_readme;
  AlertFormatter.topProcessesEmoji := AlertFormatter.topProcessesEmoji box_readme;
  AlertFormatter.diskBreakdownEmoji := AlertFormatter.diskBreakdownEmoji box_readme;
  AlertFormatter.includeSystemInfo := true;
  AlertFormatter.includeResources := true;
  AlertFormatter.includeTopProcesses := true;
  AlertFormatter.includeDiskBreakdown := true
|}.

(** The monitoring section of the README. *)
Definition monitoring_readme : AlertFormatter.Monitoring := {|
  AlertFormatter.alertMessageTitle :=
    [55357; 56741; 65039]%N ++ JsString.lit " SYSTEM STATUS ALERT";
  AlertFormatter.monitoring_includeTopProcesses := true;
  AlertFormatter.topProcessesCount := 10
|}.

(** The record of [host_sample]. *)
Definition info_sample : SystemUtils.SystemInfo := {|
  SystemUtils.hostname := JsString.lit "web-01";
  SystemUtils.ip := JsString.lit "192.168.1.7";
  SystemUtils.os := JsString.lit "Ubuntu 22.04";
  SystemUtils.kernel := JsString.lit "5.15.0";
  SystemUtils.uptime := JsString.lit "1d 1h 5m";
  SystemUtils.ramUsage := of_Z 75;
  SystemUtils.totalRam := JsString.lit "8.0Gi";
  SystemUtils.cpuUsage := of_Z 25;
  SystemUtils.diskUsage := of_Z 62;
  SystemUtils.totalDisk := JsString.lit "50.0G"
|}.

(** The same host under a name of 42 characters. *)
Definition info_long_name : SystemUtils.SystemInfo := {|
  SystemUtils.hostname := JsString.lit "ip-172-31-12-34.eu-west-1.compute.internal";
  SystemUtils.ip := SystemUtils.ip info_sample;
  SystemUtils.os := SystemUtils.os info_sample;
  SystemUtils.kernel := SystemUtils.kernel info_sample;
  SystemUtils.uptime := SystemUtils.uptime info_sample;
  SystemUtils.ramUsage := SystemUtils.ramUsage info_sample;
  SystemUtils.totalRam := SystemUtils.totalRam info_sample;
  SystemUtils.cpuUsage := SystemUtils.cpuUsage info_sample;
  SystemUtils.diskUsage := SystemUtils.diskUsage info_sample;
  SystemUtils.totalDisk := SystemUtils.totalDisk info_sample
|}.

Definition iso_sample : list N := JsString.lit "2024-05-01T09:58:07.123Z".

(** *** Start-up *)

(** The sinks of a tick whose database calls go through [handle]. *)
Definition sinks_through (handle : Setup.DbHandle) (driver : result Z)
    (env : SinkEnv) : SinkEnv :=
  {| systemInfo_hostname := systemInfo_hostname env;
     systemInfo_ip := systemInfo_ip env;
     storeMetrics_timestamp := storeMetrics_timestamp env;
     db_storeMetrics := Setup.call_method handle driver;
     gauge_set := gauge_set env;
     status_os_cpus := status_os_cpus env;
     fs_writeFileSync := fs_writeFileSync env |}.

(** The module-level variables after start-up. *)
Definition app_with (handle : Setup.DbHandle) (prometheus : bool) : App :=
  {| db := Setup.truthy handle; prometheus := prometheus |}.

(** *** The text of a dispatch *)

(** The dispatch whose text is made as [sendTelegramAlert] makes it: by
    [formatAlert] from the record of [getSystemInfo].  [message_of] is the
    message as the rest of the dispatch passes it on. *)
Definition dispatch_formatted (fmt : JsString.NumberFormat)
    (af : AlertFormatter.AlertFormat) (mon : AlertFormatter.Monitoring)
    (diskPath : list N) (host : SystemUtils.HostEnv) (toISOString : list N)
    (top : SystemUtils.TopEnv) (message_of : list N → string)
    (alertType : AlertType) (usageValue : UsageValue) (env : DispatchEnv)
  : DispatchEnv :=
  {| date_now := date_now env;
     formatAlert :=
       match
         systemInfo ← SystemUtils.getSystemInfo fmt diskPath host;
         AlertFormatter.formatAlert fmt af mon toISOString top alertType
           usageValue systemInfo
       with
       | Ok text => Ok (message_of text)
       | Throw error => Throw error
       end;
     bot_sendMessage := bot_sendMessage env;
     storeAlert_timestamp := storeAlert_timestamp env;
     storeAlert_hostname := storeAlert_hostname env;
     db_storeAlert := db_storeAlert env |}.

End Spec.
Import Spec.

(** * Properties *)

(** ** Numbers *)

Lemma round_of_nonneg (q : Q) :
  (0 <= q)%Q → (0 <= inject_Z (Qfloor (q + (1 # 2))))%Q.
Proof.
  intros H.
  assert (Hq : (0 <= q + (1 # 2))%Q).
  { apply Qle_trans with (y := q); [exact H|].
    rewrite <- (Qplus_0_r q) at 1. apply Qplus_le_r. discriminate. }
  apply Qfloor_resp_le in Hq. change (Qfloor 0) with 0 in Hq.
  change 0%Q with (inject_Z 0). rewrite <- Zle_Qle. exact Hq.
Qed.

Lemma in_range_inv (a : num) :
  in_range a = true → ∃ q, a = Fin q ∧ (0 <= q)%Q.
Proof.
  destruct a; simpl; try discriminate.
  intros H. exists q. split; [done|]. by apply Qle_bool_iff.
Qed.

Lemma positive_inv (a : num) :
  positive a = true → ∃ q, a = Fin q ∧ (0 < q)%Q.
Proof.
  destruct a; simpl; try discriminate.
  intros H. exists q. split; [done|].
  apply Qnot_le_lt. intros Hle. apply Qle_bool_iff in Hle.
  rewrite Hle in H. discriminate.
Qed.

Lemma Qzero_pos (q : Q) : (0 < q)%Q → Qzero q = false.
Proof.
  intros Hq. unfold Qzero. destruct (Qeq_bool q 0) eqn:E; [|done].
  apply Qeq_bool_iff in E. rewrite E in Hq. by apply Qlt_irrefl in Hq.
Qed.

Lemma in_range_zero : in_range zero = true.
Proof. reflexivity. Qed.

Lemma in_range_round (a : num) :
  in_range a = true → in_range (Math_round a) = true.
Proof.
  intros (q & -> & Hq)%in_range_inv. simpl.
  apply Qle_bool_iff. by apply round_of_nonneg.
Qed.

Lemma in_range_div (a b : num) :
  in_range a = true → positive b = true → in_range (div a b) = true.
Proof.
  intros (x & -> & Hx)%in_range_inv (y & -> & Hy)%positive_inv. simpl.
  rewrite (Qzero_pos y Hy).
  apply Qle_bool_iff. apply Qle_shift_div_l; [done|]. by rewrite Qmult_0_l.
Qed.

Lemma in_range_mul (a b : num) :
  in_range a = true → in_range b = true → in_range (mul a b) = true.
Proof.
  intros (x & -> & Hx)%in_range_inv (y & -> & Hy)%in_range_inv. simpl.
  apply Qle_bool_iff. by apply Qmult_le_0_compat.
Qed.

Lemma in_range_sub (a b : num) :
  in_range a = true → in_range b = true → geb a b = true →
  in_range (sub a b) = true.
Proof.
  intros (x & -> & Hx)%in_range_inv (y & -> & Hy)%in_range_inv. simpl.
  intros Hle%Qle_bool_iff. apply Qle_bool_iff.
  apply (Qplus_le_l _ _ y). ring_simplify. exact Hle.
Qed.

Lemma in_range_rate (s2 s1 : num) :
  in_range s1 = true → in_range s2 = true → geb s2 s1 = true →
  in_range (rate_Mbps s2 s1) = true.
Proof.
  intros H1 H2 Hge. unfold rate_Mbps.
  repeat apply in_range_div; try reflexivity.
  apply in_range_mul; [|reflexivity]. by apply in_range_sub.
Qed.

Lemma or0_same (a : num) : a ≠ NaN → same_number (or0 a) a.
Proof.
  destruct a as [q|s|]; unfold or0; simpl; try done.
  intros _. destruct (Qzero q) eqn:E; simpl; [|reflexivity].
  symmetry. by apply Qeq_bool_iff.
Qed.

Example Math_round_halves_up :
  Math_round (Fin (5 # 2)) = of_Z 3
  ∧ Math_round (Fin (-5 # 2)) = of_Z (-2)
  ∧ Math_round (Fin (913 # 10)) = of_Z 91.
Proof. repeat split. Qed.

Example division_by_zero :
  div (of_Z 5) (of_Z 0) = Inf false
  ∧ div (of_Z 0) (of_Z 0) = NaN
  ∧ geb NaN (of_Z 0) = false.
Proof. repeat split. Qed.

Example ram_without_total :
  checkRamUsage
    (Ok {| used := of_Z 0; total := of_Z 0;
           swapused := of_Z 0; swaptotal := of_Z 0 |}) = Ok NaN.
Proof. reflexivity. Qed.

(** ** Metric readers *)

Lemma checkRamUsage_spec (si_mem : result MemInfo) :
  ∃ v, checkRamUsage si_mem = Ok v
    ∧ (∀ e, si_mem = Throw e → v = zero)
    ∧ (when_ok (λ m, in_range (used m) && positive (total m)) si_mem = true →
       in_range v = true).
Proof.
  destruct si_mem as [m|e]; simpl.
  - eexists. split; [reflexivity|]. split; [discriminate|].
    intros [Hu Ht]%andb_prop.
    apply in_range_round, in_range_mul; [|reflexivity]. by apply in_range_div.
  - exists zero. repeat split; done.
Qed.

Lemma checkCpuUsage_spec (cfg : Config) (si_currentLoad : result CurrentLoad) :
  ∃ v, checkCpuUsage cfg si_currentLoad = Ok v
    ∧ (cpu_monitor cfg = false → v = zero)
    ∧ (∀ e, si_currentLoad = Throw e → v = zero)
    ∧ (when_ok (λ c, in_range (currentLoad c)) si_currentLoad = true →
       in_range v = true).
Proof.
  unfold checkCpuUsage. destruct (cpu_monitor cfg); simpl.
  - destruct si_currentLoad as [c|e]; simpl.
    + eexists. split; [reflexivity|]. repeat split; try discriminate.
      apply in_range_round.
    + exists zero. repeat split; done.
  - exists zero. repeat split; done.
Qed.

Lemma diskInfo_of_in (diskPath : string) (fsSize : list FsSize) (d : FsSize) :
  diskInfo_of diskPath fsSize = Ok d → In d fsSize.
Proof.
  unfold diskInfo_of.
  destruct (List.find _ fsSize) as [d'|] eqn:E.
  - intros [= <-]. by apply find_some in E as [? _].
  - destruct fsSize as [|x l]; simpl; [discriminate|].
    intros [= <-]. by left.
Qed.

Lemma checkDiskUsage_spec (cfg : Config) (si_fsSize : result (list FsSize)) :
  ∃ v, checkDiskUsage cfg si_fsSize = Ok v
    ∧ (disk_monitor cfg = false → v = zero)
    ∧ (∀ e, si_fsSize = Throw e → v = zero)
    ∧ (si_fsSize = Ok [] → v = zero)
    ∧ (when_ok (forallb (λ f, in_range (use f))) si_fsSize = true →
       in_range v = true).
Proof.
  unfold checkDiskUsage. destruct (disk_monitor cfg); simpl.
  - destruct si_fsSize as [l|e]; simpl.
    + destruct (diskInfo_of (disk_path cfg) l) as [d|e] eqn:E; simpl.
      * eexists. split; [reflexivity|]. repeat split; try discriminate.
        { intros [= ->]. discriminate. }
        intros Hall. apply in_range_round.
        apply diskInfo_of_in in E.
        rewrite forallb_forall in Hall. by apply Hall.
      * exists zero. repeat split; done.
    + exists zero. repeat split; done.
  - exists zero. repeat split; done.
Qed.

Lemma strict_eq_zero_false (a : num) :
  in_range a = true → strict_eq a zero = false → positive a = true.
Proof.
  intros (q & -> & Hq)%in_range_inv. simpl. intros Hne.
  destruct (Qle_bool q 0) eqn:E; [|done].
  apply Qle_bool_iff in E.
  assert (Qeq_bool q 0 = true); [|congruence].
  apply Qeq_bool_iff. by apply Qle_antisym.
Qed.

Lemma checkSwapUsage_spec (cfg : Config) (si_mem : result MemInfo) :
  ∃ v, checkSwapUsage cfg si_mem = Ok v
    ∧ (swap_monitor cfg = false → v = zero)
    ∧ (∀ e, si_mem = Throw e → v = zero)
    ∧ (when_ok (λ m, in_range (swapused m) && in_range (swaptotal m)) si_mem = true →
       in_range v = true).
Proof.
  unfold checkSwapUsage. destruct (swap_monitor cfg); simpl.
  - destruct si_mem as [m|e]; simpl.
    + destruct (strict_eq (swaptotal m) zero) eqn:E; simpl.
      * exists zero. repeat split; done.
      * eexists. split; [reflexivity|]. repeat split; try discriminate.
        intros [Hu Ht]%andb_prop.
        apply in_range_round, in_range_mul; [|reflexivity].
        apply in_range_div; [done|]. by apply strict_eq_zero_false.
    + exists zero. repeat split; done.
  - exists zero. repeat split; done.
Qed.

Lemma positive_of_nat (n : nat) : (0 <? n)%nat = true → positive (of_Z (Z.of_nat n)) = true.
Proof.
  intros H%Nat.ltb_lt. simpl.
  destruct (Qle_bool (inject_Z (Z.of_nat n)) 0) eqn:E; [|done].
  apply Qle_bool_iff in E. change 0%Q with (inject_Z 0) in E.
  rewrite <- Zle_Qle in E. lia.
Qed.

Lemma checkLoadAverage_spec (cfg : Config)
    (os_loadavg : result (list num)) (os_cpus : result nat) :
  ∃ v, checkLoadAverage cfg os_loadavg os_cpus = Ok v
    ∧ (load_monitor cfg = false → v = zero)
    ∧ (∀ e, os_loadavg = Throw e ∨ os_cpus = Throw e → v = zero)
    ∧ (when_ok (λ l, match l with x :: _ => in_range x | [] => false end) os_loadavg
         = true →
       when_ok (λ n, (0 <? n)%nat) os_cpus = true →
       in_range v = true).
Proof.
  unfold checkLoadAverage. destruct (load_monitor cfg); simpl.
  - destruct os_loadavg as [l|e]; simpl.
    + destruct os_cpus as [n|e]; simpl.
      * eexists. split; [reflexivity|]. split; [discriminate|].
        split; [by intros e [?|?]|].
        intros Hl Hn. destruct l as [|x l]; [discriminate|]. simpl.
        apply in_range_round, in_range_mul; [|reflexivity].
        apply in_range_div; [done|]. by apply positive_of_nat.
      * exists zero. repeat split; done.
    + exists zero. repeat split; done.
  - exists zero. repeat split; done.
Qed.

Lemma checkNetworkUsage_spec (cfg : Config)
    (networkStats1 networkStats2 : result (list NetworkStats)) :
  ∃ v, checkNetworkUsage cfg networkStats1 networkStats2 = Ok v
    ∧ (network_monitor cfg = false → v = (zero, zero))
    ∧ (∀ e, networkStats1 = Throw e ∨ networkStats2 = Throw e → v = (zero, zero))
    ∧ (networkStats1 = Ok [] ∨ networkStats2 = Ok [] → v = (zero, zero))
    ∧ (match networkStats1, networkStats2 with
       | Ok l1, Ok l2 => monotone_counters l1 l2
       | _, _ => true
       end = true →
       in_range (fst v) = true ∧ in_range (snd v) = true).
Proof.
  unfold checkNetworkUsage. destruct (network_monitor cfg); simpl.
  - destruct networkStats1 as [l1|e1]; simpl.
    + destruct networkStats2 as [l2|e2]; simpl.
      * destruct l2 as [|s2 l2]; simpl; [exists (zero, zero); repeat split; done|].
        destruct l1 as [|s1 l1]; simpl; [exists (zero, zero); repeat split; done|].
        eexists. split; [reflexivity|]. split; [discriminate|].
        split; [by intros e [?|?]|]. split; [by intros [?|?]|].
        intros H. repeat (apply andb_prop in H as [H ?]).
        split; by apply in_range_rate.
      * exists (zero, zero). repeat split; done.
    + exists (zero, zero). repeat split; done.
  - exists (zero, zero). repeat split; done.
Qed.

(** C5 (as stated, refuted): with the interface counters restarting between
    the two samples of the network reader, the snapshot holds a negative
    rate, so not every reading lies in [0, ∞). *)
Lemma C5_counterexample_negative_rate :
  ∃ m, collectMetrics config_all_enabled source_counter_restart = Ok m
    ∧ in_range (fst (network m)) = false
    ∧ readings_in_range m = false.
Proof. eexists. split; [reflexivity|]. split; vm_compute; reflexivity. Qed.

(** C5 (amended): every reader returns normally whatever the metric source
    does, so the snapshot is always built with all six keys; a reading is 0
    (the network pair is (0, 0)) when its resource is disabled and when the
    underlying read throws or answers with an empty list; the readings lie
    in [0, ∞) when the answers of the source are plausible (finite and
    non-negative, positive totals and core count, byte counters that do not
    go backwards). *)
Theorem C5_readers_total_zero_on_failure (cfg : Config) (src : Source) :
  ∃ m, collectMetrics cfg src = Ok m
    ∧ ((cpu_monitor cfg = false → cpu m = zero)
       ∧ (disk_monitor cfg = false → disk m = zero)
       ∧ (swap_monitor cfg = false → swap m = zero)
       ∧ (load_monitor cfg = false → load m = zero)
       ∧ (network_monitor cfg = false → network m = (zero, zero)))
    ∧ ((∀ e, ram_si_mem src = Throw e → ram m = zero)
       ∧ (∀ e, cpu_si_currentLoad src = Throw e → cpu m = zero)
       ∧ (∀ e, disk_si_fsSize src = Throw e → disk m = zero)
       ∧ (disk_si_fsSize src = Ok [] → disk m = zero)
       ∧ (∀ e, swap_si_mem src = Throw e → swap m = zero)
       ∧ (∀ e, load_os_loadavg src = Throw e ∨ load_os_cpus src = Throw e →
               load m = zero)
       ∧ (∀ e, net_si_networkStats1 src = Throw e
               ∨ net_si_networkStats2 src = Throw e →
               network m = (zero, zero))
       ∧ (net_si_networkStats1 src = Ok [] ∨ net_si_networkStats2 src = Ok [] →
          network m = (zero, zero)))
    ∧ (plausible src = true → readings_in_range m = true).
Proof.
  destruct (checkRamUsage_spec (ram_si_mem src)) as (r & Er & Fr & Rr).
  destruct (checkCpuUsage_spec cfg (cpu_si_currentLoad src))
    as (c & Ec & Dc & Fc & Rc).
  destruct (checkDiskUsage_spec cfg (disk_si_fsSize src))
    as (d & Ed & Dd & Fd & Nd & Rd).
  destruct (checkSwapUsage_spec cfg (swap_si_mem src))
    as (s & Es & Ds & Fs & Rs).
  destruct (checkLoadAverage_spec cfg (load_os_loadavg src) (load_os_cpus src))
    as (l & El & Dl & Fl & Rl).
  destruct (checkNetworkUsage_spec cfg (net_si_networkStats1 src)
              (net_si_networkStats2 src)) as (n & En & Dn & Fn & Nn & Rn).
  exists {| ram := r; cpu := c; disk := d; swap := s; load := l; network := n |}.
  split.
  { unfold collectMetrics. rewrite Er, Ec, Ed, Es, El, En. reflexivity. }
  simpl. split; [by repeat split|]. split; [by repeat split|].
  unfold plausible, readings_in_range. simpl. intros H.
  repeat (apply andb_prop in H as [H ?]).
  destruct Rn as [Rn1 Rn2]; [done|].
  rewrite Rr, Rc, Rd, Rs, Rl, Rn1, Rn2 by done. reflexivity.
Qed.

Lemma C5_readers_total_witness :
  ∃ m, collectMetrics config_all_enabled source_quiet = Ok m
    ∧ readings_in_range m = true.
Proof.
  destruct (C5_readers_total_zero_on_failure config_all_enabled source_quiet)
    as (m & Hm & _ & _ & Hrange).
  exists m. split; [exact Hm|]. apply Hrange. reflexivity.
Defined.

(** C7: with network monitoring on and both samples answered, each rate is
    ((second counter - first counter) * 8) / 1024 / 1024; for 1,000,000 and
    2,048,000 received bytes the Rx rate is 8,384,000 / 1,048,576, which is
    between 7.99 and 8 and is not 8.384. *)
Theorem C7_network_rate_Mbps (cfg : Config) (s1 s2 : NetworkStats)
    (more1 more2 : list NetworkStats) :
  network_monitor cfg = true →
  checkNetworkUsage cfg (Ok (s1 :: more1)) (Ok (s2 :: more2))
  = Ok (div (div (mul (sub (rx_bytes s2) (rx_bytes s1)) (of_Z 8)) (of_Z 1024))
          (of_Z 1024),
        div (div (mul (sub (tx_bytes s2) (tx_bytes s1)) (of_Z 8)) (of_Z 1024))
          (of_Z 1024))
  ∧ (rx_bytes s1 = of_Z 1000000 → rx_bytes s2 = of_Z 2048000 →
     ∃ rxRate tx,
       checkNetworkUsage cfg (Ok (s1 :: more1)) (Ok (s2 :: more2))
       = Ok (Fin rxRate, tx)
       ∧ rxRate == 8384000 # 1048576
       ∧ (799 # 100 <= rxRate)%Q ∧ (rxRate < 8)%Q
       ∧ ¬ rxRate == 8384 # 1000).
Proof.
  intros Hon. unfold checkNetworkUsage. rewrite Hon. simpl.
  split; [reflexivity|].
  intros -> ->. eexists _, _. split; [reflexivity|].
  repeat split; vm_compute; congruence.
Qed.

Lemma C7_network_rate_witness :
  ∃ rxRate tx,
    checkNetworkUsage config_all_enabled (net_si_networkStats1 source_quiet)
      (net_si_networkStats2 source_quiet) = Ok (Fin rxRate, tx)
    ∧ rxRate == 8384000 # 1048576.
Proof.
  destruct (C7_network_rate_Mbps config_all_enabled
              {| rx_bytes := of_Z 1000000; tx_bytes := of_Z 500 |}
              {| rx_bytes := of_Z 2048000; tx_bytes := of_Z 900 |} [] []
              eq_refl) as [_ H].
  destruct (H eq_refl eq_refl) as (rx & tx & E & Hrx & _).
  exists rx, tx. split; [exact E | exact Hrx].
Defined.

Lemma collectMetrics_total (cfg : Config) (src : Source) :
  ∃ m, collectMetrics cfg src = Ok m.
Proof.
  destruct (checkRamUsage_spec (ram_si_mem src)) as (r & Er & _).
  destruct (checkCpuUsage_spec cfg (cpu_si_currentLoad src)) as (c & Ec & _).
  destruct (checkDiskUsage_spec cfg (disk_si_fsSize src)) as (d & Ed & _).
  destruct (checkSwapUsage_spec cfg (swap_si_mem src)) as (s & Es & _).
  destruct (checkLoadAverage_spec cfg (load_os_loadavg src) (load_os_cpus src))
    as (l & El & _).
  destruct (checkNetworkUsage_spec cfg (net_si_networkStats1 src)
              (net_si_networkStats2 src)) as (n & En & _).
  eexists. unfold collectMetrics. rewrite Er, Ec, Ed, Es, El, En. reflexivity.
Qed.

Lemma collectMetrics_disabled (cfg : Config) (src : Source) (m : Metrics) :
  collectMetrics cfg src = Ok m →
  (cpu_monitor cfg = false → cpu m = zero)
  ∧ (disk_monitor cfg = false → disk m = zero)
  ∧ (swap_monitor cfg = false → swap m = zero)
  ∧ (load_monitor cfg = false → load m = zero)
  ∧ (network_monitor cfg = false → network m = (zero, zero)).
Proof.
  destruct (checkRamUsage_spec (ram_si_mem src)) as (r & Er & _).
  destruct (checkCpuUsage_spec cfg (cpu_si_currentLoad src)) as (c & Ec & Dc & _).
  destruct (checkDiskUsage_spec cfg (disk_si_fsSize src)) as (d & Ed & Dd & _).
  destruct (checkSwapUsage_spec cfg (swap_si_mem src)) as (s & Es & Ds & _).
  destruct (checkLoadAverage_spec cfg (load_os_loadavg src) (load_os_cpus src))
    as (l & El & Dl & _).
  destruct (checkNetworkUsage_spec cfg (net_si_networkStats1 src)
              (net_si_networkStats2 src)) as (n & En & Dn & _).
  unfold collectMetrics. rewrite Er, Ec, Ed, Es, El, En.
  intros [= <-]. simpl. by repeat split.
Qed.

(** ** Running computations *)

Lemma bind_run {A B : Type} (m : M A) (k : A → M B) (st st1 : gmap string Z)
    (a : A) (ev1 : list Event) :
  m st = Some (Ok a, st1, ev1) →
  (m ≫= k) st
  = match k a st1 with
    | None => None
    | Some (r, st2, ev2) => Some (r, st2, ev1 ++ ev2)
    end.
Proof. intros H. unfold mbind, M_bind, Comp.bind. by rewrite H. Qed.

Lemma bind_run_ok {A B : Type} (m : M A) (k : A → M B)
    (st st1 st2 : gmap string Z) (a : A) (r : result B) (ev1 ev2 : list Event) :
  m st = Some (Ok a, st1, ev1) →
  k a st1 = Some (r, st2, ev2) →
  (m ≫= k) st = Some (r, st2, ev1 ++ ev2).
Proof. intros H1 H2. by rewrite (bind_run _ _ _ _ _ _ H1), H2. Qed.

(** ** The notifier *)

Lemma alertKey_values :
  alertKey RAM = "ram" ∧ alertKey CPU = "cpu" ∧ alertKey Disk = "disk"
  ∧ alertKey Swap = "swap" ∧ alertKey Load = "load"
  ∧ alertKey Network = "network".
Proof. repeat split. Qed.

Lemma storeAlert_run (app : App) (cfg : Config) (env : DispatchEnv)
    (t : AlertType) (v : UsageValue) (message : string) (sent : bool)
    (st : gmap string Z) :
  ∃ b, Notifier.storeAlert app cfg env t v message sent st
       = Some (Ok b, st,
               if db app && database_enabled cfg
               then [EvDbStoreAlert
                       {| alert_timestamp := storeAlert_timestamp env;
                          alert_hostname := storeAlert_hostname env;
                          alert_type := t; alert_value := v;
                          alert_message := message;
                          sentSuccessfully := sent |}]
               else []).
Proof.
  unfold Notifier.storeAlert.
  destruct (db app), (database_enabled cfg); simpl; try (by exists false).
  unfold Comp.try_catch, mbind, M_bind, Comp.bind, Comp.emit, Comp.lift; simpl.
  destruct (db_storeAlert env); simpl; by eexists.
Qed.

Ltac run_monad :=
  unfold Comp.try_catch, mbind, M_bind, Comp.bind, Comp.emit, Comp.lift,
    write_key, mret, M_ret, Comp.ret.

Lemma attempt_accepted (app : App) (cfg : Config) (env : DispatchEnv)
    (t : AlertType) (v : UsageValue) (message : string)
    (retry : nat) (success : bool) (st : gmap string Z) (u : unit) :
  bot_sendMessage env retry = Ok u →
  attempt app cfg env t v message (retry, success) st
  = Some (Ok (retry, true), <[alertKey t := date_now env]> st,
          EvSendMessage message
          :: counted app cfg t ++ stored app cfg env t v message true).
Proof.
  intros Hsend. unfold attempt, counted, stored, Notifier.storeAlert, alertKey.
  run_monad. rewrite Hsend.
  destruct (prometheus app && prometheus_enabled cfg);
  destruct (db app), (database_enabled cfg); simpl; try reflexivity;
  destruct (db_storeAlert env); reflexivity.
Qed.

Lemma attempt_refused (app : App) (cfg : Config) (env : DispatchEnv)
    (t : AlertType) (v : UsageValue) (message : string)
    (retry : nat) (success : bool) (st : gmap string Z) (e : string) :
  bot_sendMessage env retry = Throw e →
  attempt app cfg env t v message (retry, success) st
  = Some (Ok (S retry, success), st, [EvSendMessage message; EvSleep 2000]).
Proof.
  intros Hsend. unfold attempt. run_monad. by rewrite Hsend.
Qed.

Lemma retry_loop_run (n : nat) (app : App) (cfg : Config) (env : DispatchEnv)
    (t : AlertType) (v : UsageValue) (message : string) (st : gmap string Z) :
  Comp.while (4 + n)
    (λ '(retry, success), (retry <? maxRetries)%nat && negb success)
    (attempt app cfg env t v message) (O, false) st
  = Some (match first_success (bot_sendMessage env) with
          | Some k =>
              (Ok (k, true), <[alertKey t := date_now env]> st,
               retries k message ++ EvSendMessage message
               :: counted app cfg t ++ stored app cfg env t v message true)
          | None => (Ok (3%nat, false), st, retries 3 message)
          end).
Proof.
  unfold first_success.
  destruct (bot_sendMessage env 0%nat) eqn:E0;
  [|destruct (bot_sendMessage env 1%nat) eqn:E1;
  [|destruct (bot_sendMessage env 2%nat) eqn:E2]];
  cbn [Comp.while Nat.add Nat.ltb Nat.leb maxRetries andb negb];
  unfold Comp.bind;
  repeat first
    [ erewrite attempt_accepted by eassumption
    | erewrite attempt_refused by eassumption
    | progress cbn [Comp.while Nat.add Nat.ltb Nat.leb maxRetries andb negb Comp.ret] ];
  cbn; rewrite ?app_nil_r; try reflexivity.
Qed.

Lemma ensure_key_run (key : string) (st : gmap string Z) :
  ensure_key key st = Some (Ok tt, ensured key st, []).
Proof.
  unfold ensure_key, ensured. by destruct (st !! key) as [[| |]|].
Qed.

Lemma lastSentAt_ensured (key key' : string) (st : gmap string Z) :
  lastSentAt (ensured key st) key' = lastSentAt st key'.
Proof.
  unfold lastSentAt, ensured.
  destruct (st !! key) as [[|p|p]|] eqn:E; try reflexivity.
  - by rewrite insert_id.
  - destruct (decide (key = key')) as [<-|Hne].
    + by rewrite lookup_insert_eq, E.
    + by rewrite lookup_insert_ne.
Qed.

Lemma ensured_present (key : string) (st : gmap string Z) :
  is_Some (st !! key) → ensured key st = st.
Proof.
  unfold ensured. intros [z Hz]. rewrite Hz.
  destruct z; try reflexivity. by apply insert_id.
Qed.

Lemma sendTelegramAlert_run (n : nat) (app : App) (cfg : Config)
    (env : DispatchEnv) (t : AlertType) (v : UsageValue) (st : gmap string Z) :
  sendTelegramAlert (4 + n) app cfg env t v st
  = Some (dispatch_outcome app cfg env t v st).
Proof.
  unfold sendTelegramAlert, dispatch_outcome. fold (alertKey t).
  erewrite bind_run by reflexivity.
  erewrite bind_run by apply ensure_key_run.
  erewrite bind_run by reflexivity.
  fold (lastSentAt (ensured (alertKey t) st) (alertKey t)).
  rewrite lastSentAt_ensured.
  destruct (_ <? _); [reflexivity|].
  unfold Comp.try_catch.
  destruct (formatAlert env) as [message|e]; [|reflexivity].
  erewrite bind_run by reflexivity.
  unfold mbind at 1, M_bind at 1, Comp.bind at 1. rewrite retry_loop_run.
  destruct (first_success (bot_sendMessage env)) as [k|]; simpl.
  - by rewrite app_nil_r.
  - unfold stored.
    destruct (storeAlert_run app cfg env t v message false (ensured (alertKey t) st))
      as [b Hb].
    destruct (db app && database_enabled cfg).
    + erewrite bind_run; [|erewrite bind_run by apply Hb; reflexivity].
      simpl. by rewrite ?app_nil_r.
    + simpl. by rewrite ?app_nil_r.
Qed.

Lemma enough_fuel (fuel : nat) :
  (maxRetries < fuel)%nat → ∃ n, fuel = (4 + n)%nat.
Proof. unfold maxRetries. intros H. exists (fuel - 4)%nat. lia. Qed.


Lemma first_success_none (send : nat → result unit) :
  (∀ k, (k < maxRetries)%nat → ∃ e, send k = Throw e) →
  first_success send = None.
Proof.
  unfold maxRetries, first_success. intros Hfail.
  destruct (Hfail 0%nat) as [e0 ->]; [lia|].
  destruct (Hfail 1%nat) as [e1 ->]; [lia|].
  destruct (Hfail 2%nat) as [e2 ->]; [lia|]. reflexivity.
Qed.

Lemma first_success_bound (send : nat → result unit) (k : nat) :
  first_success send = Some k → (k < maxRetries)%nat.
Proof.
  unfold maxRetries, first_success.
  destruct (send 0%nat), (send 1%nat), (send 2%nat); intros [= <-]; lia.
Qed.

Lemma lastSentAt_insert (key key' : string) (now : Z) (st : gmap string Z) :
  lastSentAt (<[key := now]> st) key'
  = if decide (key = key') then now else lastSentAt st key'.
Proof.
  unfold lastSentAt. rewrite lookup_insert. by destruct (decide (key = key')).
Qed.

Lemma retries_S (k : nat) (message : string) :
  retries (S k) message
  = EvSendMessage message :: EvSleep 2000 :: retries k message.
Proof. reflexivity. Qed.


Lemma attempts_retries (k : nat) (message : string) :
  attempts (retries k message) = k.
Proof.
  induction k as [|k IH]; [reflexivity|].
  rewrite retries_S. unfold attempts in *. simpl. by rewrite IH.
Qed.


Lemma attempts_accepted (app : App) (cfg : Config) (env : DispatchEnv)
    (t : AlertType) (v : UsageValue) (message : string) (k : nat) :
  attempts (EvDispatch t v :: retries k message ++ EvSendMessage message
            :: counted app cfg t ++ stored app cfg env t v message true)
  = S k.
Proof.
  unfold attempts. simpl. rewrite List.filter_app, length_app.
  fold (attempts (retries k message)). rewrite attempts_retries.
  unfold counted, stored.
  destruct (prometheus app && prometheus_enabled cfg),
    (db app && database_enabled cfg); simpl; lia.
Qed.

Lemma attempts_exhausted (app : App) (cfg : Config) (env : DispatchEnv)
    (t : AlertType) (v : UsageValue) (message : string) :
  attempts (EvDispatch t v :: retries 3 message
            ++ stored app cfg env t v message false) = 3%nat.
Proof. unfold stored. by destruct (db app && database_enabled cfg). Qed.


Lemma rateLimited_retries (k : nat) (message : string) :
  rateLimited (retries k message) = false.
Proof.
  induction k as [|k IH]; [reflexivity|]. rewrite retries_S. exact IH.
Qed.

Lemma dispatched_retries (k : nat) (message : string) :
  dispatched (retries k message) = [].
Proof.
  induction k as [|k IH]; [reflexivity|]. rewrite retries_S. exact IH.
Qed.

Lemma rateLimited_app (l1 l2 : list Event) :
  rateLimited (l1 ++ l2) = rateLimited l1 || rateLimited l2.
Proof. apply existsb_app. Qed.

Lemma dispatched_app (l1 l2 : list Event) :
  dispatched (l1 ++ l2) = dispatched l1 ++ dispatched l2.
Proof. apply flat_map_app. Qed.

(** The shape of every dispatch: it returns a boolean, it is entered once,
    and it leaves through the rate limiter exactly when the time since the
    last send is below ten check intervals. *)
Lemma dispatch_outcome_shape (app : App) (cfg : Config) (env : DispatchEnv)
    (t : AlertType) (v : UsageValue) (st : gmap string Z) :
  ∃ b st' evs,
    dispatch_outcome app cfg env t v st = (Ok b, st', evs)
    ∧ rateLimited evs
      = (date_now env - lastSentAt st (alertKey t)
         <? monitoring_checkInterval cfg * 10)
    ∧ dispatched evs = [t].
Proof.
  unfold dispatch_outcome.
  destruct (_ <? _); [by eexists _, _, _|].
  destruct (formatAlert env) as [message|e]; [|by eexists _, _, _].
  destruct (first_success (bot_sendMessage env)) as [k|];
    eexists _, _, _; (split; [reflexivity|]).
  - change (EvDispatch t v :: ?l) with ([EvDispatch t v] ++ l).
    rewrite !rateLimited_app, !dispatched_app.
    rewrite rateLimited_retries, dispatched_retries.
    unfold counted, stored.
    by destruct (prometheus app && prometheus_enabled cfg),
         (db app && database_enabled cfg).
  - change (EvDispatch t v :: ?l) with ([EvDispatch t v] ++ l).
    rewrite !rateLimited_app, !dispatched_app.
    rewrite rateLimited_retries, dispatched_retries.
    unfold stored. by destruct (db app && database_enabled cfg).
Qed.

Lemma kindKey_alertKey (t : AlertType) : kindKey t = alertKey t.
Proof. by destruct t. Qed.

Lemma kindKey_inj (t t' : AlertType) : kindKey t = kindKey t' → t = t'.
Proof. by destruct t, t'. Qed.

Lemma lastSentAt_ensured_ne (key key' : string) (now : Z) (st : gmap string Z) :
  key ≠ key' →
  lastSentAt (<[key := now]> (ensured key st)) key' = lastSentAt st key'.
Proof.
  intros Hne. rewrite lastSentAt_insert, decide_False by done.
  apply lastSentAt_ensured.
Qed.

(** C2: a dispatch passes the rate limiter exactly when the time since the
    last successful send of its kind is at least ten check intervals, that
    time being the entry of lastAlertTimes under the name of the kind (ram,
    cpu, disk, swap, load, network): a dispatch that returns true puts its
    start time there, a dispatch that returns false leaves the time there
    as it was, and no dispatch changes the time of another kind.  A
    rate-limited dispatch returns false without a delivery attempt and a
    dispatch that passes with a formatted message makes one; with a check
    interval of 60, after a dispatch that was sent, a dispatch of the same
    kind less than 600 seconds later is rate-limited, makes no delivery
    attempt and returns false. *)
Theorem C2_rate_limiter (fuel : nat) (app : App) (cfg : Config)
    (env : DispatchEnv) (t : AlertType) (v : UsageValue) (st : gmap string Z) :
  (maxRetries < fuel)%nat →
  ∃ b st' evs,
    sendTelegramAlert fuel app cfg env t v st = Some (Ok b, st', evs)
    ∧ (rateLimited evs = false
       ↔ monitoring_checkInterval cfg * 10
         ≤ date_now env - lastSentAt st (kindKey t))
    ∧ (rateLimited evs = true → b = false ∧ attempts evs = 0%nat)
    ∧ (rateLimited evs = false → (∃ message, formatAlert env = Ok message) →
       (1 ≤ attempts evs)%nat)
    ∧ lastSentAt st' (kindKey t)
      = (if b then date_now env else lastSentAt st (kindKey t))
    ∧ (∀ other, other ≠ t →
                lastSentAt st' (kindKey other) = lastSentAt st (kindKey other))
    ∧ (monitoring_checkInterval cfg = 60 → b = true →
       ∀ (fuel2 : nat) (env2 : DispatchEnv) (v2 : UsageValue),
         (maxRetries < fuel2)%nat →
         date_now env2 - date_now env < 600 →
         ∃ st2 evs2,
           sendTelegramAlert fuel2 app cfg env2 t v2 st'
           = Some (Ok false, st2, evs2)
           ∧ rateLimited evs2 = true ∧ attempts evs2 = 0%nat).
Proof.
  intros [n ->]%enough_fuel. rewrite sendTelegramAlert_run.
  destruct (dispatch_outcome_shape app cfg env t v st)
    as (b & st' & evs & Hout & Hlimited & _).
  rewrite Hout. exists b, st', evs. split; [reflexivity|].
  rewrite Hlimited, kindKey_alertKey. split; [apply Z.ltb_ge|].
  assert (Hother : ∀ other, other ≠ t → alertKey t ≠ kindKey other).
  { intros other Hne Heq. rewrite <- kindKey_alertKey in Heq.
    apply kindKey_inj in Heq. congruence. }
  revert Hout. unfold dispatch_outcome.
  destruct (_ <? _) eqn:Hlim.
  { intros [= <- <- <-]. repeat split; try done.
    - apply lastSentAt_ensured.
    - intros other _. apply lastSentAt_ensured. }
  apply Z.ltb_ge in Hlim.
  destruct (formatAlert env) as [message|e].
  2:{ intros [= <- <- <-]. repeat split; try done.
      - by intros _ [message ?].
      - apply lastSentAt_ensured.
      - intros other _. apply lastSentAt_ensured. }
  destruct (first_success (bot_sendMessage env)) as [k|] eqn:Hk;
    intros [= <- <- <-].
  - rewrite attempts_accepted. split; [done|]. split; [lia|].
    split; [by rewrite lastSentAt_insert, decide_True|].
    split.
    { intros other Hne. apply lastSentAt_ensured_ne. by apply Hother. }
    intros H60 _ fuel2 env2 v2 [n2 ->]%enough_fuel Hclose.
    rewrite sendTelegramAlert_run. unfold dispatch_outcome.
    rewrite lastSentAt_insert, decide_True by done.
    rewrite H60.
    destruct (_ <? _) eqn:Hlim2; [|apply Z.ltb_ge in Hlim2; lia].
    by eexists _, _.
  - split; [done|]. split.
    { intros _ _. unfold stored, attempts.
      destruct (db app && database_enabled cfg); simpl; lia. }
    split; [apply lastSentAt_ensured|].
    split; [|done]. intros other _. apply lastSentAt_ensured.
Qed.

Lemma C2_rate_limiter_witness :
  ∃ st' evs,
    sendTelegramAlert 4 app_full config_all_enabled (dispatch_at 1000000 0)
      RAM (Percent (of_Z 85)) lastAlertTimes_init = Some (Ok true, st', evs)
    ∧ (∃ st2 evs2,
         sendTelegramAlert 4 app_full config_all_enabled (dispatch_at 1000599 0)
           RAM (Percent (of_Z 86)) st' = Some (Ok false, st2, evs2)
         ∧ attempts evs2 = 0%nat)
    ∧ ∃ b3 st3 evs3,
        sendTelegramAlert 4 app_full config_all_enabled (dispatch_at 1000001 0)
          CPU (Percent (of_Z 95)) st' = Some (Ok b3, st3, evs3)
        ∧ rateLimited evs3 = false.
Proof.
  destruct (C2_rate_limiter 4 app_full config_all_enabled (dispatch_at 1000000 0)
              RAM (Percent (of_Z 85)) lastAlertTimes_init (le_n 4))
    as (b & st' & evs & Hrun & _ & _ & _ & _ & Hkept & Hnext).
  assert (Hb : b = true).
  { vm_compute in Hrun. by injection Hrun as <- _ _. }
  subst b. exists st', evs. split; [exact Hrun|]. split.
  - destruct (Hnext eq_refl eq_refl 4%nat (dispatch_at 1000599 0)
                (Percent (of_Z 86)) (le_n 4) eq_refl)
      as (st2 & evs2 & Hrun2 & _ & Hnone).
    exists st2, evs2. split; [exact Hrun2 | exact Hnone].
  - destruct (C2_rate_limiter 4 app_full config_all_enabled
                (dispatch_at 1000001 0) CPU (Percent (of_Z 95)) st' (le_n 4))
      as (b3 & st3 & evs3 & Hrun3 & Hpass & _).
    exists b3, st3, evs3. split; [exact Hrun3|].
    apply Hpass. rewrite (Hkept CPU) by discriminate. vm_compute. discriminate.
Defined.

(** C3: when a dispatch passes the rate limiter and all three delivery
    attempts fail, it returns false, exactly one alert record, marked as not
    sent, is handed to the persistence collaborator (none when persistence
    is absent or disabled), no entry of lastAlertTimes changes its value,
    and a later dispatch of the same kind passes the rate limiter again. *)
Theorem C3_exhausted_retries (fuel : nat) (app : App) (cfg : Config)
    (env : DispatchEnv) (t : AlertType) (v : UsageValue) (st : gmap string Z)
    (message : string) :
  (maxRetries < fuel)%nat →
  monitoring_checkInterval cfg * 10 ≤ date_now env - lastSentAt st (alertKey t) →
  formatAlert env = Ok message →
  (∀ k, (k < maxRetries)%nat → ∃ e, bot_sendMessage env k = Throw e) →
  ∃ st' evs,
    sendTelegramAlert fuel app cfg env t v st = Some (Ok false, st', evs)
    ∧ attempts evs = 3%nat
    ∧ alertRecords evs
      = (if db app && database_enabled cfg
         then [{| alert_timestamp := storeAlert_timestamp env;
                  alert_hostname := storeAlert_hostname env;
                  alert_type := t; alert_value := v;
                  alert_message := message;
                  sentSuccessfully := false |}]
         else [])
    ∧ (∀ key, lastSentAt st' key = lastSentAt st key)
    ∧ (is_Some (st !! alertKey t) → st' = st)
    ∧ (∀ (fuel2 : nat) (env2 : DispatchEnv) (v2 : UsageValue),
         (maxRetries < fuel2)%nat →
         date_now env ≤ date_now env2 →
         ∃ b st2 evs2,
           sendTelegramAlert fuel2 app cfg env2 t v2 st' = Some (Ok b, st2, evs2)
           ∧ rateLimited evs2 = false).
Proof.
  intros [n ->]%enough_fuel Hpass Hfmt Hfail.
  rewrite sendTelegramAlert_run. unfold dispatch_outcome.
  rewrite Hfmt, (first_success_none _ Hfail).
  destruct (_ <? _) eqn:Hlim; [apply Z.ltb_lt in Hlim; lia|].
  eexists _, _. split; [reflexivity|].
  split; [apply attempts_exhausted|].
  split; [unfold stored; by destruct (db app && database_enabled cfg)|].
  split; [intros key; apply lastSentAt_ensured|].
  split; [apply ensured_present|].
  intros fuel2 env2 v2 Hfuel2 Hlater.
  apply enough_fuel in Hfuel2 as [n2 ->]. rewrite sendTelegramAlert_run.
  destruct (dispatch_outcome_shape app cfg env2 t v2 (ensured (alertKey t) st))
    as (b & st2 & evs2 & -> & Hlimited & _).
  exists b, st2, evs2. split; [reflexivity|].
  rewrite Hlimited, lastSentAt_ensured. apply Z.ltb_ge. lia.
Qed.

Lemma C3_exhausted_retries_witness :
  ∃ st' evs,
    sendTelegramAlert 4 app_full config_all_enabled (dispatch_at 1000000 7)
      Disk (Percent (of_Z 96)) lastAlertTimes_init = Some (Ok false, st', evs)
    ∧ attempts evs = 3%nat
    ∧ length (alertRecords evs) = 1%nat
    ∧ st' = lastAlertTimes_init.
Proof.
  assert (Hfail : ∀ k, (k < maxRetries)%nat →
            ∃ e, bot_sendMessage (dispatch_at 1000000 7) k = Throw e).
  { intros k Hk. unfold maxRetries in Hk.
    destruct k as [|[|[|k]]]; [by eexists..|lia]. }
  destruct (C3_exhausted_retries 4 app_full config_all_enabled
              (dispatch_at 1000000 7) Disk (Percent (of_Z 96))
              lastAlertTimes_init "alert" (le_n 4)
              ltac:(vm_compute; discriminate) eq_refl Hfail)
    as (st' & evs & Hrun & Hatt & Hrec & _ & Hsame & _).
  exists st', evs. split; [exact Hrun|]. split; [exact Hatt|].
  split; [by rewrite Hrec|].
  apply Hsame. by eexists.
Defined.




(** ** The sinks *)

Lemma storeMetrics_run (app : App) (cfg : Config) (env : SinkEnv)
    (m : Metrics) (st : gmap string Z) :
  ∃ b, storeMetrics app cfg env m st
       = Some (Ok b, st,
               if db app && database_enabled cfg
               then [EvDbStoreMetrics (metricRecord_of env m)] else []).
Proof.
  unfold storeMetrics, metricRecord_of.
  destruct (db app), (database_enabled cfg); simpl; try (by exists false).
  destruct (network m) as [rx tx]. run_monad. simpl.
  destruct (db_storeMetrics env); simpl; by eexists.
Qed.

Lemma updatePrometheusMetrics_run (app : App) (cfg : Config) (env : SinkEnv)
    (m : Metrics) (st : gmap string Z) :
  ∃ b, updatePrometheusMetrics app cfg env m st
       = Some (Ok b, st,
               if prometheus app && prometheus_enabled cfg
               then calls_until_throw (gauge_set env) (gauge_writes m) else []).
Proof.
  unfold updatePrometheusMetrics, gauge_writes, set.
  destruct (prometheus app), (prometheus_enabled cfg); simpl;
    try (by exists false).
  run_monad.
  destruct (gauge_set env g_ramUsage); [|by eexists].
  destruct (gauge_set env g_cpuUsage); [|by eexists].
  destruct (gauge_set env g_diskUsage); [|by eexists].
  destruct (gauge_set env g_swapUsage); [|by eexists].
  destruct (gauge_set env g_loadAverage); [|by eexists].
  destruct (gauge_set env g_networkRx); [|by eexists].
  destruct (gauge_set env g_networkTx); by eexists.
Qed.

Lemma bind_lift {A B : Type} (a : A) (k : A → M B) (st : gmap string Z) :
  (Comp.lift (Ok a) ≫= k) st = k a st.
Proof.
  unfold mbind, M_bind, Comp.bind, Comp.lift.
  by destruct (k a st) as [[[r s] e]|].
Qed.

Lemma updateStatusFile_run (cfg : Config) (env : SinkEnv) (m : Metrics)
    (st : gmap string Z) :
  updateStatusFile cfg env m st = Some (Ok tt, st, status_trace cfg env m).
Proof.
  unfold updateStatusFile, status_trace, Comp.try_catch.
  destruct (statusContent cfg env m) as [content|e].
  - rewrite bind_lift. run_monad. by destruct (fs_writeFileSync env) as [[]|].
  - reflexivity.
Qed.

(** ** The scheduled task *)

Lemma bind_throw {A B : Type} (m : M A) (k : A → M B) (st st1 : gmap string Z)
    (e : string) (ev1 : list Event) :
  m st = Some (Throw e, st1, ev1) →
  (m ≫= k) st = Some (Throw e, st1, ev1).
Proof. intros H. unfold mbind, M_bind, Comp.bind. by rewrite H. Qed.

Lemma alert_events_app (l1 l2 : list Event) :
  alert_events (l1 ++ l2) = alert_events l1 ++ alert_events l2.
Proof. apply List.filter_app. Qed.

Lemma alert_events_retries (k : nat) (message : string) :
  alert_events (retries k message) = retries k message.
Proof.
  induction k as [|k IH]; [reflexivity|].
  rewrite retries_S. unfold alert_events in *. simpl. by rewrite IH.
Qed.

Lemma dispatch_outcome_alerts (app : App) (cfg : Config) (env : DispatchEnv)
    (t : AlertType) (v : UsageValue) (st : gmap string Z) :
  alert_events (dispatch_outcome app cfg env t v st).2
  = (dispatch_outcome app cfg env t v st).2.
Proof.
  unfold dispatch_outcome.
  destruct (_ <? _); [reflexivity|].
  destruct (formatAlert env) as [message|e]; [|reflexivity].
  destruct (first_success (bot_sendMessage env)) as [k|]; simpl.
  - change (EvDispatch t v :: ?l) with ([EvDispatch t v] ++ l).
    rewrite !alert_events_app, alert_events_retries.
    unfold counted, stored.
    by destruct (prometheus app && prometheus_enabled cfg),
         (db app && database_enabled cfg).
  - unfold stored. by destruct (db app && database_enabled cfg).
Qed.

Lemma alert_if_step (n : nat) (app : App) (cfg : Config) (env : TickEnv)
    (m : Metrics) (t : AlertType) (v : UsageValue) (st : gmap string Z) :
  ∃ st' evs,
    alert_if (breach cfg m t) (4 + n) app cfg env t v st = Some (Ok tt, st', evs)
    ∧ check_step app cfg env m t st st' evs.
Proof.
  unfold alert_if, check_step. destruct (breach cfg m t).
  - destruct (dispatch_outcome_shape app cfg (dispatch env t) t v st)
      as (b & st' & evs & Hout & _).
    exists st', evs. split.
    + erewrite bind_run by (rewrite sendTelegramAlert_run, Hout; reflexivity).
      simpl. by rewrite app_nil_r.
    + right. split; [done|]. by exists v, b.
  - exists st, []. split; [done|]. by left.
Qed.

Lemma check_chain_app (app : App) (cfg : Config) (env : TickEnv) (m : Metrics)
    (ts1 ts2 : list AlertType) (st st1 st2 : gmap string Z)
    (e1 e2 : list Event) :
  check_chain app cfg env m ts1 st st1 e1 →
  check_chain app cfg env m ts2 st1 st2 e2 →
  check_chain app cfg env m (ts1 ++ ts2) st st2 (e1 ++ e2).
Proof.
  induction 1 as [st|t ts st sa sb ea eb Hstep _ IH]; [done|].
  intros Hrest. rewrite <- app_assoc, <- app_comm_cons.
  econstructor; [exact Hstep|]. by apply IH.
Qed.

Lemma check_chain_dispatched (app : App) (cfg : Config) (env : TickEnv)
    (m : Metrics) (ts : list AlertType) (st st' : gmap string Z)
    (evs : list Event) :
  check_chain app cfg env m ts st st' evs →
  dispatched evs = List.filter (breach cfg m) ts
  ∧ alert_events evs = evs.
Proof.
  induction 1 as [st|t ts st st1 st2 e1 e2 Hstep _ [IH1 IH2]]; [done|].
  rewrite dispatched_app, alert_events_app, IH1, IH2. cbn [List.filter].
  destruct Hstep as [(-> & _ & ->)|(-> & v & b & Hout)]; [done|].
  pose proof (dispatch_outcome_alerts app cfg (dispatch env t) t v st) as Ha.
  destruct (dispatch_outcome_shape app cfg (dispatch env t) t v st)
    as (b' & st'' & evs' & Hout' & _ & Hd).
  rewrite Hout in Hout', Ha. injection Hout' as <- <- <-.
  cbn [snd] in Ha. by rewrite Hd, Ha.
Qed.

Lemma filter_kinds (f : AlertType → bool) :
  List.filter f kinds
  = (if f RAM then [RAM] else []) ++ (if f CPU then [CPU] else [])
    ++ (if f Disk then [Disk] else []) ++ (if f Swap then [Swap] else [])
    ++ (if f Load then [Load] else []) ++ (if f Network then [Network] else []).
Proof.
  unfold kinds. simpl.
  by destruct (f RAM), (f CPU), (f Disk), (f Swap), (f Load), (f Network).
Qed.

Lemma reached_kinds (cfg : Config) (m : Metrics) (env : TickEnv) :
  (breach cfg m Load = false ∨ is_throw (alert_os_cpus env) = false →
   reached cfg m env = kinds)
  ∧ (breach cfg m Load = true → is_throw (alert_os_cpus env) = true →
     reached cfg m env = [RAM; CPU; Disk; Swap]).
Proof.
  unfold reached. split.
  - intros [-> | ->]; [done|]. by rewrite andb_false_r.
  - by intros -> ->.
Qed.

(** The threshold checks end normally or with the error of [os.cpus()];
    either way they are the checks, kind by kind, of the kinds reached. *)
Lemma checkThresholds_chain (n : nat) (app : App) (cfg : Config) (env : TickEnv)
    (m : Metrics) (st : gmap string Z) :
  ∃ r st' evs,
    checkThresholds (4 + n) app cfg env m st = Some (r, st', evs)
    ∧ check_chain app cfg env m (reached cfg m env) st st' evs
    ∧ (r = Ok tt ↔ reached cfg m env = kinds).
Proof.
  destruct (alert_if_step n app cfg env m RAM (Percent (ram m)) st)
    as (s1 & e1 & H1 & C1).
  destruct (alert_if_step n app cfg env m CPU (Percent (cpu m)) s1)
    as (s2 & e2 & H2 & C2).
  destruct (alert_if_step n app cfg env m Disk (Percent (disk m)) s2)
    as (s3 & e3 & H3 & C3).
  destruct (alert_if_step n app cfg env m Swap (Percent (swap m)) s3)
    as (s4 & e4 & H4 & C4).
  assert (Hfront : check_chain app cfg env m [RAM; CPU; Disk; Swap] st s4
                     (e1 ++ e2 ++ e3 ++ e4 ++ [])).
  { repeat (econstructor; [eassumption|]). constructor. }
  assert (Hnet : ∀ s5, ∃ s6 e6,
            (if network_monitor cfg then
               let '(rxRate, txRate) := network m in
               alert_if (geb rxRate (network_threshold cfg)
                         || geb txRate (network_threshold cfg))
                 (4 + n) app cfg env Network (NetValue rxRate txRate)
             else mret tt) s5 = Some (Ok tt, s6, e6)
            ∧ check_step app cfg env m Network s5 s6 e6).
  { intros s5.
    destruct (alert_if_step n app cfg env m Network
                (NetValue (fst (network m)) (snd (network m))) s5)
      as (s6 & e6 & H6 & C6).
    exists s6, e6. split; [|exact C6].
    simpl in H6. destruct (network m) as [rx tx]. simpl in H6.
    destruct (network_monitor cfg); [exact H6|].
    simpl in H6. by injection H6 as <- <-. }
  destruct (reached_kinds cfg m env) as [Hall Hcut].
  unfold checkThresholds.
  change (load_monitor cfg && geb (load m) (load_threshold cfg))
    with (breach cfg m Load).
  destruct (breach cfg m Load) eqn:Hload.
  - destruct (alert_os_cpus env) as [cpuCount|e] eqn:Hcpus.
    + destruct (dispatch_outcome_shape app cfg (dispatch env Load) Load
                  (LoadValue (load m) cpuCount) s4)
        as (b & s5 & e5 & Hout & _).
      destruct (Hnet s5) as (s6 & e6 & H6 & C6).
      rewrite Hall by (by right).
      exists (Ok tt), s6, ((e1 ++ e2 ++ e3 ++ e4 ++ []) ++ e5 ++ e6 ++ []).
      split; [|split; [|done]].
      * rewrite app_nil_r, <- !app_assoc, app_nil_r.
        repeat (eapply bind_run_ok; [eassumption|]).
        eapply bind_run_ok; [|exact H6].
        rewrite bind_lift.
        erewrite bind_run by (rewrite sendTelegramAlert_run, Hout; reflexivity).
        simpl. by rewrite app_nil_r.
      * apply (check_chain_app _ _ _ _ [RAM; CPU; Disk; Swap] [Load; Network]
                 _ _ _ _ _ Hfront).
        econstructor; [|econstructor; [exact C6|constructor]].
        right. split; [done|]. by eexists _, _.
    + rewrite Hcut by done.
      exists (Throw e), s4, (e1 ++ e2 ++ e3 ++ e4 ++ []).
      split; [|split; [exact Hfront|]].
      * rewrite app_nil_r.
        eapply bind_run_ok; [eassumption|].
        eapply bind_run_ok; [eassumption|].
        eapply bind_run_ok; [eassumption|].
        rewrite <- (app_nil_r e4).
        eapply bind_run_ok; [eassumption|].
        apply bind_throw. apply bind_throw. reflexivity.
      * split; [discriminate|]. unfold kinds. discriminate.
  - destruct (Hnet s4) as (s6 & e6 & H6 & C6).
    rewrite Hall by (by left).
    exists (Ok tt), s6, ((e1 ++ e2 ++ e3 ++ e4 ++ []) ++ [] ++ e6 ++ []).
    split; [|split; [|done]].
    + rewrite !app_nil_r, <- !app_assoc. cbn [List.app].
      repeat (eapply bind_run_ok; [eassumption|]).
      change e6 with ([] ++ e6).
      eapply bind_run_ok; [reflexivity|exact H6].
    + apply (check_chain_app _ _ _ _ [RAM; CPU; Disk; Swap] [Load; Network]
               _ _ _ _ _ Hfront).
      econstructor; [|econstructor; [exact C6|constructor]].
      by left.
Qed.

Lemma dispatched_sink_trace (app : App) (cfg : Config) (env : SinkEnv)
    (m : Metrics) :
  dispatched (sink_trace app cfg env m) = []
  ∧ alert_events (sink_trace app cfg env m) = [].
Proof.
  assert (Hg : ∀ w, dispatched (calls_until_throw (gauge_set env) w) = []
                  ∧ alert_events (calls_until_throw (gauge_set env) w) = []).
  { induction w as [|[g x] w [IH1 IH2]]; [done|]. simpl.
    destruct (gauge_set env g); by split. }
  unfold sink_trace, status_trace.
  rewrite !dispatched_app, !alert_events_app.
  destruct (Hg (gauge_writes m)) as [Hg1 Hg2].
  destruct (db app && database_enabled cfg),
    (prometheus app && prometheus_enabled cfg),
    (statusContent cfg env m);
    rewrite ?Hg1, ?Hg2; by split.
Qed.

Lemma dispatched_reader_waits (cfg : Config) (src : Source) :
  dispatched (reader_waits cfg src) = []
  ∧ alert_events (reader_waits cfg src) = reader_waits cfg src.
Proof.
  unfold reader_waits, checkNetworkUsage_waits.
  destruct (network_monitor cfg); [|done].
  by destruct (net_si_networkStats1 src).
Qed.

(** A tick always ends normally; its trace is the waits of the readers, the
    calls of the sinks and the trace of the threshold checks. *)
Lemma tick_run (n : nat) (app : App) (cfg : Config) (env : TickEnv)
    (st : gmap string Z) :
  ∃ m r st' alerts,
    collectMetrics cfg (source env) = Ok m
    ∧ checkThresholds (4 + n) app cfg env m st = Some (r, st', alerts)
    ∧ check_chain app cfg env m (reached cfg m env) st st' alerts
    ∧ runMonitoring_tick (4 + n) app cfg env st
      = Some (Ok tt, st',
              reader_waits cfg (source env)
              ++ sink_trace app cfg (sinks env) m ++ alerts).
Proof.
  destruct (collectMetrics_total cfg (source env)) as (m & Hm).
  destruct (checkThresholds_chain n app cfg env m st)
    as (r & st' & alerts & Hc & Hchain & _).
  exists m, r, st', alerts. repeat (split; [done|]).
  assert (Hbody :
    (metrics ← awaitMetrics cfg (source env);
     (if database_enabled cfg
      then storeMetrics app cfg (sinks env) metrics;; mret tt else mret tt);;
     (if prometheus_enabled cfg
      then updatePrometheusMetrics app cfg (sinks env) metrics;; mret tt
      else mret tt);;
     updateStatusFile cfg (sinks env) metrics;;
     checkThresholds (4 + n) app cfg env metrics) st
    = Some (r, st',
            reader_waits cfg (source env)
            ++ sink_trace app cfg (sinks env) m ++ alerts)).
  { destruct (storeMetrics_run app cfg (sinks env) m st) as [b1 H1].
    destruct (updatePrometheusMetrics_run app cfg (sinks env) m st) as [b2 H2].
    eapply bind_run_ok.
    { unfold awaitMetrics. fold (reader_waits cfg (source env)).
      rewrite Hm.
      rewrite <- (app_nil_r (reader_waits cfg (source env))) at 2.
      eapply bind_run_ok; reflexivity. }
    unfold sink_trace. rewrite <- !app_assoc.
    eapply bind_run_ok.
    { destruct (database_enabled cfg).
      - erewrite bind_run by apply H1. simpl. by rewrite app_nil_r.
      - by rewrite andb_false_r. }
    eapply bind_run_ok.
    { destruct (prometheus_enabled cfg).
      - erewrite bind_run by apply H2. simpl. by rewrite app_nil_r.
      - by rewrite andb_false_r. }
    eapply bind_run_ok; [apply updateStatusFile_run|exact Hc]. }
  unfold runMonitoring_tick, Comp.try_catch. rewrite Hbody.
  destruct r as [[]|e]; [done|]. cbn. by rewrite app_nil_r.
Qed.

(** The kinds dispatched in a tick and what is left of its trace without
    the calls of the sinks. *)
Lemma tick_dispatched (cfg : Config) (app : App) (env : TickEnv) (m : Metrics)
    (st st' : gmap string Z) (alerts : list Event) :
  check_chain app cfg env m (reached cfg m env) st st' alerts →
  dispatched (reader_waits cfg (source env)
              ++ sink_trace app cfg (sinks env) m ++ alerts)
  = List.filter (breach cfg m) (reached cfg m env)
  ∧ alert_events (reader_waits cfg (source env)
                  ++ sink_trace app cfg (sinks env) m ++ alerts)
    = reader_waits cfg (source env) ++ alerts.
Proof.
  intros [Hd Ha]%check_chain_dispatched.
  rewrite !dispatched_app, !alert_events_app.
  destruct (dispatched_sink_trace app cfg (sinks env) m) as [-> ->].
  destruct (dispatched_reader_waits cfg (source env)) as [-> ->].
  by rewrite Hd, Ha.
Qed.

Lemma filter_reached (cfg : Config) (m : Metrics) (env : TickEnv)
    (t : AlertType) :
  In t (List.filter (breach cfg m) (reached cfg m env))
  ↔ breach cfg m t = true ∧ In t (reached cfg m env).
Proof. rewrite List.filter_In. tauto. Qed.

(** C1 (as stated, refuted): with swap monitoring on, a swap threshold of 0
    and a swap reading of 0, Swap is monitored and its reading is at least
    its threshold, yet no Swap dispatch is attempted. *)
Lemma C1_counterexample_swap_zero :
  ∃ m st' evs,
    collectMetrics config_all_enabled (source tick_quiet) = Ok m
    ∧ runMonitoring_tick 4 app_full config_all_enabled tick_quiet
        lastAlertTimes_init = Some (Ok tt, st', evs)
    ∧ breach_as_stated config_all_enabled m Swap = true
    ∧ ¬ In Swap (dispatched evs)
    ∧ dispatched evs ≠ List.filter (breach_as_stated config_all_enabled m) kinds.
Proof.
  eexists _, _, _. split; [reflexivity|]. split; [vm_compute; reflexivity|].
  split; [reflexivity|]. split.
  - vm_compute. intros [H|[H|[]]]; discriminate.
  - vm_compute. discriminate.
Qed.

(** C1 (amended): in every tick the kinds for which a dispatch is attempted,
    in the order of the attempts, are the kinds of the fixed order RAM, CPU,
    Disk, Swap, Load, Network that are monitored with a reading at least
    their threshold (RAM always monitored against the global threshold,
    Network when either rate meets the shared threshold), where Swap
    moreover needs a reading above 0, and where a Load that qualifies needs
    the core count of os.cpus() for the text of its alert: when that call
    throws, the tick ends there, so that of the kinds that qualify only
    those among RAM, CPU, Disk and Swap are dispatched. *)
Theorem C1_dispatch_on_breach_in_order (fuel : nat) (app : App) (cfg : Config)
    (env : TickEnv) (st : gmap string Z) :
  (maxRetries < fuel)%nat →
  ∃ m st' evs,
    collectMetrics cfg (source env) = Ok m
    ∧ runMonitoring_tick fuel app cfg env st = Some (Ok tt, st', evs)
    ∧ dispatched evs = List.filter (breach cfg m) (reached cfg m env)
    ∧ (breach cfg m Load = false ∨ is_throw (alert_os_cpus env) = false →
       dispatched evs = List.filter (breach cfg m) kinds
       ∧ ∀ t, In t (dispatched evs) ↔ breach cfg m t = true)
    ∧ (breach cfg m Load = true → is_throw (alert_os_cpus env) = true →
       dispatched evs = List.filter (breach cfg m) [RAM; CPU; Disk; Swap]
       ∧ ∀ t, In t (dispatched evs)
              ↔ breach cfg m t = true ∧ t ≠ Load ∧ t ≠ Network).
Proof.
  intros [n ->]%enough_fuel.
  destruct (tick_run n app cfg env st)
    as (m & r & st' & alerts & Hm & _ & Hchain & Hrun).
  exists m, st', (reader_waits cfg (source env)
                  ++ sink_trace app cfg (sinks env) m ++ alerts).
  split; [exact Hm|]. split; [exact Hrun|].
  destruct (tick_dispatched cfg app env m st st' alerts Hchain) as [Hall _].
  split; [exact Hall|].
  destruct (reached_kinds cfg m env) as [Hfull Hcut].
  split.
  - intros Hcase. rewrite Hall, (Hfull Hcase). split; [done|].
    intros t. rewrite List.filter_In. unfold kinds. simpl.
    split; [tauto|]. intros Hb. split; [|exact Hb]. destruct t; tauto.
  - intros Hload Hthrow. rewrite Hall, (Hcut Hload Hthrow). split; [done|].
    intros t. rewrite List.filter_In. simpl. split.
    + intros [[<-|[<-|[<-|[<-|[]]]]] Hb]; by repeat split.
    + intros (Hb & Hl & Hn). split; [|exact Hb]. destruct t; tauto.
Qed.

Lemma C1_dispatch_witness :
  (∃ st' evs,
     runMonitoring_tick 4 app_full config_all_enabled tick_quiet
       lastAlertTimes_init = Some (Ok tt, st', evs)
     ∧ dispatched evs = [RAM; Network])
  ∧ ∃ m st' evs,
      collectMetrics config_all_enabled (source tick_cpus_lost) = Ok m
      ∧ runMonitoring_tick 4 app_full config_all_enabled tick_cpus_lost
          lastAlertTimes_init = Some (Ok tt, st', evs)
      ∧ breach config_all_enabled m Load = true
      ∧ breach config_all_enabled m Network = true
      ∧ dispatched evs = [RAM].
Proof.
  split.
  - destruct (C1_dispatch_on_breach_in_order 4 app_full config_all_enabled
                tick_quiet lastAlertTimes_init (le_n 4))
      as (m & st' & evs & Hm & Hrun & _ & Hfull & _).
    exists st', evs. split; [exact Hrun|].
    rewrite (proj1 (Hfull (or_intror eq_refl))).
    vm_compute in Hm. injection Hm as <-. reflexivity.
  - destruct (C1_dispatch_on_breach_in_order 4 app_full config_all_enabled
                tick_cpus_lost lastAlertTimes_init (le_n 4))
      as (m & st' & evs & Hm & Hrun & _ & _ & Hcut).
    exists m, st', evs. split; [exact Hm|]. split; [exact Hrun|].
    vm_compute in Hm. injection Hm as <-.
    split; [reflexivity|]. split; [reflexivity|].
    rewrite (proj1 (Hcut eq_refl eq_refl)). reflexivity.
Defined.

(** C9: in every tick a Swap dispatch is attempted only when the swap
    reading is above 0; with a swap reading of 0 there is none, whatever the
    swap threshold, also a threshold of 0 with swap monitoring on. *)
Theorem C9_swap_needs_positive_reading (fuel : nat) (app : App) (cfg : Config)
    (env : TickEnv) (st : gmap string Z) :
  (maxRetries < fuel)%nat →
  ∃ m st' evs,
    collectMetrics cfg (source env) = Ok m
    ∧ runMonitoring_tick fuel app cfg env st = Some (Ok tt, st', evs)
    ∧ (In Swap (dispatched evs) → gtb (swap m) zero = true)
    ∧ (same_number (swap m) zero → ¬ In Swap (dispatched evs)).
Proof.
  intros [n ->]%enough_fuel.
  destruct (tick_run n app cfg env st)
    as (m & r & st' & alerts & Hm & _ & Hchain & Hrun).
  exists m, st', (reader_waits cfg (source env)
                  ++ sink_trace app cfg (sinks env) m ++ alerts).
  split; [exact Hm|]. split; [exact Hrun|].
  rewrite (proj1 (tick_dispatched cfg app env m st st' alerts Hchain)).
  assert (Hpos : In Swap (List.filter (breach cfg m) (reached cfg m env)) →
                 gtb (swap m) zero = true).
  { rewrite List.filter_In. simpl. intros [_ H]. by apply andb_prop in H as [_ H]. }
  split; [exact Hpos|].
  intros Hzero Hin. apply Hpos in Hin.
  destruct (swap m) as [q| |]; simpl in *; try done.
  apply negb_true_iff in Hin.
  assert (Qle_bool q 0 = true); [|congruence].
  apply Qle_bool_iff. rewrite Hzero. apply Qle_refl.
Qed.

Lemma C9_swap_witness :
  ∃ m st' evs,
    collectMetrics config_all_enabled (source tick_quiet) = Ok m
    ∧ swap_monitor config_all_enabled = true
    ∧ swap_threshold config_all_enabled = of_Z 0
    ∧ runMonitoring_tick 4 app_full config_all_enabled tick_quiet
        lastAlertTimes_init = Some (Ok tt, st', evs)
    ∧ ¬ In Swap (dispatched evs).
Proof.
  destruct (C9_swap_needs_positive_reading 4 app_full config_all_enabled
              tick_quiet lastAlertTimes_init (le_n 4))
    as (m & st' & evs & Hm & Hrun & _ & Hzero).
  exists m, st', evs. split; [exact Hm|]. split; [reflexivity|].
  split; [reflexivity|]. split; [exact Hrun|].
  apply Hzero. vm_compute in Hm. injection Hm as <-. reflexivity.
Defined.

Lemma checkThresholds_same_dispatch (fuel : nat) (app : App) (cfg : Config)
    (env : TickEnv) (outcomes : SinkEnv) (m : Metrics) :
  checkThresholds fuel app cfg (with_sinks outcomes env) m
  = checkThresholds fuel app cfg env m.
Proof. reflexivity. Qed.

Lemma status_writes_app (l1 l2 : list Event) :
  status_writes (l1 ++ l2) = status_writes l1 ++ status_writes l2.
Proof. apply flat_map_app. Qed.

Lemma status_writes_alerts (evs : list Event) :
  alert_events evs = evs → status_writes evs = [].
Proof.
  induction evs as [|e evs IH]; [done|].
  unfold alert_events. simpl. destruct e; simpl; intros H.
  1-6: injection H as H; by apply IH.
  all: exfalso;
    assert (Hlen : (length (List.filter (λ e, negb (is_sink_event e)) evs)
                    ≤ length evs)%nat) by apply List.filter_length_le;
    rewrite H in Hlen; simpl in Hlen; lia.
Qed.

Lemma sink_trace_calls (app : App) (cfg : Config) (env : SinkEnv) (m : Metrics) :
  (db app = true → database_enabled cfg = true →
   In (EvDbStoreMetrics (metricRecord_of env m)) (sink_trace app cfg env m))
  ∧ (prometheus app = true → prometheus_enabled cfg = true →
     ∃ x, In (EvGaugeSet g_ramUsage x) (sink_trace app cfg env m))
  ∧ status_writes (sink_trace app cfg env m)
    = match statusContent cfg env m with
      | Ok content => [content]
      | Throw _ => []
      end.
Proof.
  unfold sink_trace. repeat split.
  - intros -> ->. apply in_or_app. left. by left.
  - intros -> ->. eexists. apply in_or_app. right. apply in_or_app. left.
    by left.
  - assert (Hg : ∀ w, status_writes (calls_until_throw (gauge_set env) w) = []).
    { induction w as [|[g x] w IH]; [done|]. simpl.
      by destruct (gauge_set env g). }
    rewrite !status_writes_app. unfold status_trace.
    destruct (db app && database_enabled cfg),
      (prometheus app && prometheus_enabled cfg), (statusContent cfg env m);
      by rewrite ?Hg.
Qed.

(** C6: whatever the outcomes of the three sinks of a tick, failures in any
    combination, the tick ends normally, each sink that is switched on is
    entered (the metric record is handed to the database, the first gauge
    is written, and the status file is written once the text for it is
    built, which only the os.cpus() of its own Load line can prevent), and
    the threshold checks and notifications that follow, with the state they
    leave, are the same. *)
Theorem C6_sinks_failure_isolated (fuel : nat) (app : App) (cfg : Config)
    (env : TickEnv) (st : gmap string Z) :
  (maxRetries < fuel)%nat →
  ∃ m st' alerts,
    collectMetrics cfg (source env) = Ok m
    ∧ dispatched alerts = List.filter (breach cfg m) (reached cfg m env)
    ∧ ∀ outcomes : SinkEnv,
        ∃ evs,
          runMonitoring_tick fuel app cfg (with_sinks outcomes env) st
          = Some (Ok tt, st', evs)
          ∧ alert_events evs = alerts
          ∧ (db app = true → database_enabled cfg = true →
             In (EvDbStoreMetrics (metricRecord_of outcomes m)) evs)
          ∧ (prometheus app = true → prometheus_enabled cfg = true →
             ∃ x, In (EvGaugeSet g_ramUsage x) evs)
          ∧ status_writes evs
            = match statusContent cfg outcomes m with
              | Ok content => [content]
              | Throw _ => []
              end.
Proof.
  intros [n ->]%enough_fuel.
  destruct (tick_run n app cfg env st)
    as (m & r & st' & alerts & Hm & Hc & Hchain & _).
  destruct (check_chain_dispatched _ _ _ _ _ _ _ _ Hchain) as [Hd Ha].
  destruct (dispatched_reader_waits cfg (source env)) as [Hwd Hwa].
  exists m, st', (reader_waits cfg (source env) ++ alerts).
  split; [exact Hm|].
  split; [by rewrite dispatched_app, Hwd|].
  intros outcomes.
  destruct (tick_run n app cfg (with_sinks outcomes env) st)
    as (m' & r' & st2 & alerts2 & Hm' & Hc' & Hchain' & Hrun).
  cbn [with_sinks source sinks] in Hm', Hrun.
  rewrite Hm in Hm'. injection Hm' as <-.
  rewrite checkThresholds_same_dispatch, Hc in Hc'.
  injection Hc' as <- <- <-.
  eexists. split; [exact Hrun|].
  split.
  { rewrite !alert_events_app, Hwa, Ha.
    by rewrite (proj2 (dispatched_sink_trace _ _ _ _)). }
  destruct (sink_trace_calls app cfg outcomes m) as (Hdb & Hgauge & Hfile).
  split; [|split].
  - intros H1 H2. apply in_or_app. right. apply in_or_app. left. auto.
  - intros H1 H2. destruct (Hgauge H1 H2) as [x Hx]. exists x.
    apply in_or_app. right. apply in_or_app. by left.
  - rewrite !status_writes_app, Hfile, (status_writes_alerts alerts Ha),
      (status_writes_alerts _ Hwa).
    by rewrite app_nil_r.
Qed.

Lemma C6_sinks_witness :
  ∃ st' evs_fine evs_broken evs_down,
    runMonitoring_tick 4 app_full config_all_enabled tick_quiet
      lastAlertTimes_init = Some (Ok tt, st', evs_fine)
    ∧ runMonitoring_tick 4 app_full config_all_enabled
        (with_sinks sinks_broken tick_quiet) lastAlertTimes_init
      = Some (Ok tt, st', evs_broken)
    ∧ runMonitoring_tick 4 app_full config_all_enabled
        (with_sinks sinks_cpus_down tick_quiet) lastAlertTimes_init
      = Some (Ok tt, st', evs_down)
    ∧ alert_events evs_broken = alert_events evs_fine
    ∧ alert_events evs_down = alert_events evs_fine
    ∧ status_writes evs_broken = status_writes evs_fine
    ∧ length (status_writes evs_broken) = 1%nat
    ∧ status_writes evs_down = [].
Proof.
  destruct (C6_sinks_failure_isolated 4 app_full config_all_enabled tick_quiet
              lastAlertTimes_init (le_n 4))
    as (m & st' & alerts & Hm & _ & Hall).
  destruct (Hall sinks_fine) as (evs1 & Hrun1 & Ha1 & _ & _ & Hs1).
  destruct (Hall sinks_broken) as (evs2 & Hrun2 & Ha2 & _ & _ & Hs2).
  destruct (Hall sinks_cpus_down) as (evs3 & Hrun3 & Ha3 & _ & _ & Hs3).
  exists st', evs1, evs2, evs3.
  split; [exact Hrun1|]. split; [exact Hrun2|]. split; [exact Hrun3|].
  split; [by rewrite Ha1, Ha2|]. split; [by rewrite Ha1, Ha3|].
  vm_compute in Hm. injection Hm as <-.
  rewrite Hs1, Hs2, Hs3. by repeat split.
Defined.

Lemma gauge_events_app (l1 l2 : list Event) :
  gauge_events (l1 ++ l2) = gauge_events l1 ++ gauge_events l2.
Proof. apply flat_map_app. Qed.

Lemma gauge_events_alerts (evs : list Event) :
  alert_events evs = evs → gauge_events evs = [].
Proof.
  induction evs as [|e evs IH]; [done|].
  unfold alert_events. simpl. destruct e; simpl; intros H.
  1-6: injection H as H; by apply IH.
  all: exfalso;
    assert (Hlen : (length (List.filter (λ e, negb (is_sink_event e)) evs)
                    ≤ length evs)%nat) by apply List.filter_length_le;
    rewrite H in Hlen; simpl in Hlen; lia.
Qed.

Lemma same_number_refl (a : num) : same_number a a.
Proof. destruct a as [q| |]; simpl; [apply Qeq_refl|done|done]. Qed.

Lemma or0_shown (a : num) : same_number (or0 a) (shown a).
Proof.
  destruct a as [q|s|]; unfold or0; simpl.
  - unfold Qzero. destruct (Qeq_bool q 0) eqn:E; simpl.
    + apply Qeq_bool_iff in E. by symmetry.
    + apply Qeq_refl.
  - done.
  - apply Qeq_refl.
Qed.

Lemma gauge_writes_as_stated (m : Metrics) :
  Forall2 same_write (gauge_writes m) (gauges_as_stated m)
  ∧ map fst (gauge_writes m) = map fst (gauges_as_stated m).
Proof.
  split; [|reflexivity].
  unfold gauge_writes, gauges_as_stated, same_write.
  repeat constructor; simpl; try apply or0_shown; apply same_number_refl.
Qed.

Lemma calls_made (outcome : Gauge → result unit) (writes : list (Gauge * num)) :
  gauge_events (calls_until_throw outcome writes)
  = take (writes_made outcome (map fst writes)) writes.
Proof.
  induction writes as [|[g x] w IH]; [reflexivity|].
  simpl. destruct (outcome g); simpl; [by rewrite IH|done].
Qed.

Lemma writes_made_all (outcome : Gauge → result unit) (gauges : list Gauge) :
  (∀ g, ∃ u, outcome g = Ok u) →
  writes_made outcome gauges = length gauges.
Proof.
  intros Hok. induction gauges as [|g gs IH]; [reflexivity|].
  simpl. destruct (Hok g) as [u ->]. by rewrite IH.
Qed.

(** C10 (as stated, refuted): with the registry switched on and refusing
    the writes, a tick writes the RAM gauge and no other: the gauge of the
    CPU, whose monitoring is off, is left untouched. *)
Lemma C10_counterexample_write_refused :
  ∃ st' evs,
    runMonitoring_tick 4 app_full config_cpu_off
      (with_sinks sinks_broken tick_quiet) lastAlertTimes_init
    = Some (Ok tt, st', evs)
    ∧ gauge_events evs = [(g_ramUsage, of_Z 85)]
    ∧ ¬ In g_cpuUsage (map fst (gauge_events evs)).
Proof.
  eexists _, _. split; [vm_compute; reflexivity|].
  split; [reflexivity|]. simpl. intros [H|[]]. discriminate.
Qed.

(** C10 (amended): in every tick with the registry present and switched
    on, the gauges are written in the order RAM, CPU, Disk, Swap, Load,
    then the two network rates, each with the reading of the tick, 0
    standing in for a reading that is absent (not a number), up to and
    including the first write the registry refuses; when it refuses none,
    all of them are written, and the gauge of a resource whose monitoring
    is off is written 0. *)
Theorem C10_gauges_written_every_tick (fuel : nat) (app : App) (cfg : Config)
    (env : TickEnv) (st : gmap string Z) :
  (maxRetries < fuel)%nat →
  prometheus app = true →
  prometheus_enabled cfg = true →
  ∃ m st' evs,
    collectMetrics cfg (source env) = Ok m
    ∧ runMonitoring_tick fuel app cfg env st = Some (Ok tt, st', evs)
    ∧ Forall2 same_write (gauge_events evs)
        (take (writes_made (gauge_set (sinks env))
                 (map fst (gauges_as_stated m)))
           (gauges_as_stated m))
    ∧ ((∀ g, ∃ u, gauge_set (sinks env) g = Ok u) →
       Forall2 same_write (gauge_events evs) (gauges_as_stated m))
    ∧ (cpu_monitor cfg = false → shown (cpu m) = zero)
    ∧ (disk_monitor cfg = false → shown (disk m) = zero)
    ∧ (swap_monitor cfg = false → shown (swap m) = zero)
    ∧ (load_monitor cfg = false → shown (load m) = zero).
Proof.
  intros [n ->]%enough_fuel Hpresent Hon.
  destruct (tick_run n app cfg env st)
    as (m & r & st' & alerts & Hm & _ & Hchain & Hrun).
  exists m, st', (reader_waits cfg (source env)
                  ++ sink_trace app cfg (sinks env) m ++ alerts).
  split; [exact Hm|]. split; [exact Hrun|].
  destruct (check_chain_dispatched _ _ _ _ _ _ _ _ Hchain) as [_ Ha].
  destruct (dispatched_reader_waits cfg (source env)) as [_ Hwa].
  destruct (gauge_writes_as_stated m) as [Hsame Hfst].
  assert (Hmade :
    gauge_events (reader_waits cfg (source env)
                  ++ sink_trace app cfg (sinks env) m ++ alerts)
    = take (writes_made (gauge_set (sinks env)) (map fst (gauges_as_stated m)))
        (gauge_writes m)).
  { rewrite !gauge_events_app, (gauge_events_alerts alerts Ha),
      (gauge_events_alerts _ Hwa), app_nil_r.
    unfold sink_trace, status_trace. rewrite Hpresent, Hon. simpl andb. cbv iota.
    rewrite !gauge_events_app, calls_made, Hfst.
    destruct (db app && database_enabled cfg),
      (statusContent cfg (sinks env) m); simpl; by rewrite app_nil_r. }
  split; [rewrite Hmade; by apply Forall2_take|].
  split.
  { intros Haccept. rewrite Hmade, (writes_made_all _ _ Haccept).
    rewrite <- Hfst, length_map, firstn_all. exact Hsame. }
  destruct (collectMetrics_disabled cfg (source env) m Hm)
    as (Hc & Hd & Hs & Hl & _).
  repeat split; intros H; [rewrite Hc|rewrite Hd|rewrite Hs|rewrite Hl]; done.
Qed.

Lemma C10_gauges_witness :
  ∃ st' evs,
    runMonitoring_tick 4 app_full config_cpu_off tick_no_memory
      lastAlertTimes_init = Some (Ok tt, st', evs)
    ∧ Forall2 same_write (gauge_events evs)
        [(g_ramUsage, zero); (g_cpuUsage, zero); (g_diskUsage, of_Z 41);
         (g_swapUsage, zero); (g_loadAverage, of_Z 13);
         (g_networkRx, Fin (8384000 # 1048576));
         (g_networkTx, Fin (3200 # 1048576))].
Proof.
  destruct (C10_gauges_written_every_tick 4 app_full config_cpu_off
              tick_no_memory lastAlertTimes_init (le_n 4) eq_refl eq_refl)
    as (m & st' & evs & Hm & Hrun & _ & Hgauges & _).
  exists st', evs. split; [exact Hrun|].
  vm_compute in Hm. injection Hm as <-.
  exact (Hgauges (λ g, ex_intro _ tt eq_refl)).
Defined.

(** ** The SQLite adapter *)

Lemma ltb_leb (s1 s2 : string) :
  String.ltb s1 s2 = true → String.leb s1 s2 = true.
Proof. unfold String.ltb, String.leb. by destruct (String.compare s1 s2). Qed.

Lemma ltb_false_leb (s1 s2 : string) :
  String.ltb s1 s2 = false → String.leb s2 s1 = true.
Proof.
  unfold String.ltb, String.leb. rewrite (String.compare_antisym s1 s2).
  by destruct (String.compare s2 s1).
Qed.

Section Ordering.

Context {Row : Type} (ts : Row → string).

Lemma place_In (r x : Z * Row) (l : list (Z * Row)) :
  In x (Sqlite.place ts r l) ↔ x = r ∨ In x l.
Proof.
  induction l as [|r' l IH]; simpl.
  - intuition.
  - destruct (String.ltb _ _); simpl; [intuition|]. rewrite IH. intuition.
Qed.

Lemma place_length (r : Z * Row) (l : list (Z * Row)) :
  length (Sqlite.place ts r l) = S (length l).
Proof.
  induction l as [|r' l IH]; simpl; [done|].
  destruct (String.ltb _ _); simpl; by rewrite ?IH.
Qed.

Lemma place_newest_first (r : Z * Row) (l : list (Z * Row)) :
  newest_first ts l → newest_first ts (Sqlite.place ts r l).
Proof.
  unfold newest_first. induction l as [|r' l IH]; simpl; intros Hs.
  - repeat constructor.
  - destruct (String.ltb (ts r'.2) (ts r.2)) eqn:E.
    + constructor; [exact Hs|]. constructor. by apply ltb_leb.
    + apply ltb_false_leb in E.
      apply Sorted_inv in Hs as [Hs Hhd].
      constructor; [by apply IH|].
      destruct l as [|r'' l]; simpl.
      * by constructor.
      * apply HdRel_inv in Hhd.
        destruct (String.ltb (ts r''.2) (ts r.2)); by constructor.
Qed.

Lemma order_by_snoc (l : list (Z * Row)) (r : Z * Row) :
  Sqlite.order_by_timestamp_desc ts (l ++ [r])
  = Sqlite.place ts r (Sqlite.order_by_timestamp_desc ts l).
Proof. unfold Sqlite.order_by_timestamp_desc. by rewrite fold_left_app. Qed.

Lemma order_by_facts (l : list (Z * Row)) :
  newest_first ts (Sqlite.order_by_timestamp_desc ts l)
  ∧ length (Sqlite.order_by_timestamp_desc ts l) = length l
  ∧ ∀ x, In x (Sqlite.order_by_timestamp_desc ts l) ↔ In x l.
Proof.
  induction l as [|r l IH] using rev_ind.
  - repeat split; try constructor; done.
  - destruct IH as (Hs & Hl & Hin). rewrite order_by_snoc.
    split; [by apply place_newest_first|].
    split; [rewrite place_length, length_app, Hl; simpl; lia|].
    intros x. rewrite place_In, Hin, in_app_iff. simpl. intuition.
Qed.

Lemma take_newest_first (n : nat) (l : list (Z * Row)) :
  newest_first ts l → newest_first ts (take n l).
Proof.
  unfold newest_first. revert l. induction n as [|n IH]; intros l Hs.
  - constructor.
  - destruct l as [|r l]; [constructor|]. simpl.
    apply Sorted_inv in Hs as [Hs Hhd].
    constructor; [by apply IH|].
    destruct l as [|r' l]; [destruct n; constructor|].
    apply HdRel_inv in Hhd. destruct n; by constructor.
Qed.

Lemma select_recent_nat (limit : nat) (t : Sqlite.Table Row) :
  Sqlite.select_recent ts (Z.of_nat limit) t
  = take limit (Sqlite.order_by_timestamp_desc ts (Sqlite.rows t)).
Proof.
  unfold Sqlite.select_recent.
  rewrite (proj2 (Z.ltb_ge _ _)) by lia. by rewrite Nat2Z.id.
Qed.

Lemma select_recent_facts (limit : nat) (t : Sqlite.Table Row) :
  (length (Sqlite.select_recent ts (Z.of_nat limit) t) ≤ limit)%nat
  ∧ length (Sqlite.select_recent ts (Z.of_nat limit) t)
    = Nat.min limit (length (Sqlite.rows t))
  ∧ newest_first ts (Sqlite.select_recent ts (Z.of_nat limit) t)
  ∧ ∀ x, In x (Sqlite.select_recent ts (Z.of_nat limit) t) →
         In x (Sqlite.rows t).
Proof.
  rewrite select_recent_nat.
  destruct (order_by_facts (Sqlite.rows t)) as (Hs & Hl & Hin).
  rewrite length_take, Hl.
  split; [lia|]. split; [done|].
  split; [by apply take_newest_first|].
  intros x Hx. apply Hin.
  rewrite <- (take_drop limit (Sqlite.order_by_timestamp_desc ts (Sqlite.rows t))).
  apply in_or_app. by left.
Qed.

Lemma place_newest (r : Z * Row) (l : list (Z * Row)) :
  Forall (λ x, String.ltb (ts x.2) (ts r.2) = true) l →
  Sqlite.place ts r l = r :: l.
Proof.
  destruct l as [|r' l]; [done|]. simpl.
  intros [H _]%Forall_cons. by rewrite H.
Qed.

Lemma select_appended (r : Row) (t : Sqlite.Table Row) :
  Forall (λ x, String.ltb (ts x.2) (ts r) = true) (Sqlite.rows t) →
  Sqlite.select_recent ts 1 (Sqlite.insert_row r t).1
  = [((Sqlite.insert_row r t).2, r)].
Proof.
  intros Hall. unfold Sqlite.select_recent, Sqlite.insert_row. simpl.
  rewrite order_by_snoc, place_newest; [done|].
  destruct (order_by_facts (Sqlite.rows t)) as (_ & _ & Hin).
  rewrite List.Forall_forall in Hall |- *.
  intros x Hx. apply Hall. by apply Hin.
Qed.

End Ordering.

(** C8 (as stated, refuted): in a store that already holds a row stamped
    12:00:00, a record stamped 10:00:00 is appended, and the most recent
    metric read back is the row of 12:00:00, not the record appended. *)
Lemma C8_counterexample_later_row_first :
  let appended := record_at "2024-05-01 10:00:00" in
  let '(d, id) := Sqlite.appendMetric appended db_ahead in
  Sqlite.getRecentMetrics 1 d = [(1, record_at "2024-05-01 12:00:00")]
  ∧ Sqlite.getRecentMetrics 1 d ≠ [(id, appended)].
Proof. vm_compute. split; [reflexivity|discriminate]. Qed.

(** C8 (amended): in a store whose metric rows all carry a timestamp
    strictly before that of the record, the record appended by storeMetrics
    is what getRecentMetrics(1) returns, with every field as appended and
    the identifier the store assigned; and for every store and limit n,
    getRecentMetrics(n) and getRecentAlerts(n) return rows of the table, at
    most n of them (n, or all when there are fewer), newest first by
    timestamp. *)
Theorem C8_round_trip_newest_first (d : Sqlite.Database) (r : MetricRecord) :
  Forall (λ x, String.ltb (timestamp x.2) (timestamp r) = true)
    (Sqlite.rows (Sqlite.metrics d)) →
  Sqlite.getRecentMetrics 1 (Sqlite.appendMetric r d).1
  = [((Sqlite.appendMetric r d).2, r)]
  ∧ ∀ (any : Sqlite.Database) (n : nat),
      ((length (Sqlite.getRecentMetrics (Z.of_nat n) any) ≤ n)%nat
       ∧ length (Sqlite.getRecentMetrics (Z.of_nat n) any)
         = Nat.min n (length (Sqlite.rows (Sqlite.metrics any)))
       ∧ newest_first timestamp (Sqlite.getRecentMetrics (Z.of_nat n) any)
       ∧ ∀ x, In x (Sqlite.getRecentMetrics (Z.of_nat n) any) →
              In x (Sqlite.rows (Sqlite.metrics any)))
      ∧ ((length (Sqlite.getRecentAlerts (Z.of_nat n) any) ≤ n)%nat
         ∧ length (Sqlite.getRecentAlerts (Z.of_nat n) any)
           = Nat.min n (length (Sqlite.rows (Sqlite.alerts any)))
         ∧ newest_first Sqlite.row_timestamp
             (Sqlite.getRecentAlerts (Z.of_nat n) any)
         ∧ ∀ x, In x (Sqlite.getRecentAlerts (Z.of_nat n) any) →
                In x (Sqlite.rows (Sqlite.alerts any))).
Proof.
  intros Hall. split.
  - pose proof (select_appended timestamp r (Sqlite.metrics d) Hall) as H.
    unfold Sqlite.getRecentMetrics, Sqlite.appendMetric, Sqlite.storeMetrics.
    destruct r. simpl in *. exact H.
  - intros any n. split; apply select_recent_facts.
Qed.

Lemma C8_round_trip_witness :
  Sqlite.getRecentMetrics 1
    (Sqlite.appendMetric (record_at "2024-05-01 10:00:00") db_behind).1
  = [(3, record_at "2024-05-01 10:00:00")].
Proof.
  apply (C8_round_trip_newest_first db_behind (record_at "2024-05-01 10:00:00")).
  repeat constructor.
Defined.

(** * Further properties *)

(** ** The notifier, one dispatch *)

Lemma alertKey_inj (t t' : AlertType) : alertKey t = alertKey t' → t = t'.
Proof. destruct t, t'; (reflexivity || discriminate). Qed.

Lemma lookup_ensured_ne (key key' : string) (st : gmap string Z) :
  key ≠ key' → ensured key st !! key' = st !! key'.
Proof.
  intros Hne. unfold ensured.
  destruct (st !! key) as [[| |]|]; try reflexivity; by rewrite lookup_insert_ne.
Qed.

Lemma dispatch_outcome_cases (app : App) (cfg : Config) (env : DispatchEnv)
    (t : AlertType) (v : UsageValue) (st : gmap string Z) :
  let now := date_now env in
  let limit := monitoring_checkInterval cfg * 10 in
  let last := lastSentAt st (alertKey t) in
  (now - last < limit
   ∧ dispatch_outcome app cfg env t v st
     = (Ok false, ensured (alertKey t) st,
        [EvDispatch t v; EvRateLimited t (now - last)]))
  ∨ (limit ≤ now - last ∧ (∃ e, formatAlert env = Throw e)
     ∧ dispatch_outcome app cfg env t v st
       = (Ok false, ensured (alertKey t) st, [EvDispatch t v]))
  ∨ (limit ≤ now - last
     ∧ ∃ message, formatAlert env = Ok message
       ∧ ((∃ k, first_success (bot_sendMessage env) = Some k
                ∧ dispatch_outcome app cfg env t v st
                  = (Ok true, <[alertKey t := now]> (ensured (alertKey t) st),
                     EvDispatch t v :: retries k message
                     ++ EvSendMessage message
                     :: counted app cfg t ++ stored app cfg env t v message true))
          ∨ (first_success (bot_sendMessage env) = None
             ∧ dispatch_outcome app cfg env t v st
               = (Ok false, ensured (alertKey t) st,
                  EvDispatch t v :: retries 3 message
                  ++ stored app cfg env t v message false)))).
Proof.
  simpl. unfold dispatch_outcome.
  destruct (_ <? _) eqn:Hlim.
  { left. apply Z.ltb_lt in Hlim. by split. }
  apply Z.ltb_ge in Hlim. right.
  destruct (formatAlert env) as [message|e].
  2:{ left. split; [done|]. split; [by eexists|done]. }
  right. split; [done|]. exists message. split; [done|].
  destruct (first_success (bot_sendMessage env)) as [k|].
  - left. by exists k.
  - by right.
Qed.

(** X1: a dispatch for one alert type leaves the lastAlertTimes entry of
    every other key as it was: the rate limiter keeps the kinds apart. *)
Theorem X1_dispatch_touches_one_key (fuel : nat) (app : App) (cfg : Config)
    (env : DispatchEnv) (t : AlertType) (v : UsageValue) (st : gmap string Z) :
  (maxRetries < fuel)%nat →
  ∃ b st' evs,
    sendTelegramAlert fuel app cfg env t v st = Some (Ok b, st', evs)
    ∧ (∀ key, key ≠ alertKey t → st' !! key = st !! key)
    ∧ (∀ t', t' ≠ t → st' !! alertKey t' = st !! alertKey t').
Proof.
  intros [n ->]%enough_fuel. rewrite sendTelegramAlert_run.
  assert (Hkeys : ∀ b st' evs,
            dispatch_outcome app cfg env t v st = (Ok b, st', evs) →
            ∀ key, key ≠ alertKey t → st' !! key = st !! key).
  { intros b st' evs Hout key Hne.
    destruct (dispatch_outcome_cases app cfg env t v st)
      as [[_ H]|[(_ & _ & H)|(_ & m & _ & [(k & _ & H)|[_ H]])]];
      rewrite H in Hout; injection Hout as <- <- <-;
      rewrite ?lookup_insert_ne by done; by apply lookup_ensured_ne. }
  destruct (dispatch_outcome_shape app cfg env t v st)
    as (b & st' & evs & Hout & _).
  exists b, st', evs. rewrite Hout. split; [done|].
  split; [by eapply Hkeys|].
  intros t' Hne. eapply Hkeys; [done|].
  intros Heq. by apply alertKey_inj in Heq.
Qed.

Lemma X1_dispatch_touches_one_key_witness :
  ∃ st' evs,
    sendTelegramAlert 4 app_full config_all_enabled (dispatch_at 1000000 0)
      RAM (Percent (of_Z 85)) lastAlertTimes_init = Some (Ok true, st', evs)
    ∧ st' !! "cpu" = Some 0.
Proof.
  destruct (X1_dispatch_touches_one_key 4 app_full config_all_enabled
              (dispatch_at 1000000 0) RAM (Percent (of_Z 85))
              lastAlertTimes_init (le_n 4))
    as (b & st' & evs & Hrun & _ & Hother).
  assert (Hb : b = true).
  { vm_compute in Hrun. by injection Hrun as <- _ _. }
  subst b. exists st', evs. split; [exact Hrun|].
  etrans; [exact (Hother CPU ltac:(discriminate))|reflexivity].
Defined.




Lemma sleeps_app (l1 l2 : list Event) :
  sleeps (l1 ++ l2) = sleeps l1 ++ sleeps l2.
Proof. apply flat_map_app. Qed.

Lemma retries_quiet (k : nat) (message : string) :
  counterIncs (retries k message) = []
  ∧ alertRecords (retries k message) = []
  ∧ sleeps (retries k message) = replicate k 2000.
Proof.
  induction k as [|k (IH1 & IH2 & IH3)]; [done|]. rewrite retries_S.
  repeat split; simpl; [exact IH1|exact IH2|by rewrite <- IH3].
Qed.



(** X3: when [formatAlert] throws, the dispatch returns false without any
    delivery attempt, without a wait, without an alert record and without a
    change to the values of lastAlertTimes: the alert is dropped. *)
Theorem X3_format_failure_drops_alert (fuel : nat) (app : App) (cfg : Config)
    (env : DispatchEnv) (t : AlertType) (v : UsageValue) (st : gmap string Z)
    (e : string) :
  (maxRetries < fuel)%nat →
  monitoring_checkInterval cfg * 10 ≤ date_now env - lastSentAt st (alertKey t) →
  formatAlert env = Throw e →
  ∃ st',
    sendTelegramAlert fuel app cfg env t v st
    = Some (Ok false, st', [EvDispatch t v])
    ∧ (∀ key, lastSentAt st' key = lastSentAt st key)
    ∧ (is_Some (st !! alertKey t) → st' = st).
Proof.
  intros [n ->]%enough_fuel Hpass Hfmt. rewrite sendTelegramAlert_run.
  unfold dispatch_outcome. rewrite Hfmt.
  destruct (_ <? _) eqn:Hlim; [apply Z.ltb_lt in Hlim; lia|].
  eexists. split; [reflexivity|].
  split; [intros key; apply lastSentAt_ensured|apply ensured_present].
Qed.

Lemma X3_format_failure_witness :
  ∃ st',
    sendTelegramAlert 4 app_full config_all_enabled
      {| date_now := 1000000; formatAlert := Throw "Invalid count value: -3";
         bot_sendMessage := λ _, Ok tt;
         storeAlert_timestamp := "2024-05-01 10:00:00";
         storeAlert_hostname := "host-1"; db_storeAlert := Ok 1 |}
      RAM (Percent (of_Z 85)) lastAlertTimes_init
    = Some (Ok false, st', [EvDispatch RAM (Percent (of_Z 85))])
    ∧ st' = lastAlertTimes_init.
Proof.
  destruct (X3_format_failure_drops_alert 4 app_full config_all_enabled
              {| date_now := 1000000; formatAlert := Throw "Invalid count value: -3";
                 bot_sendMessage := λ _, Ok tt;
                 storeAlert_timestamp := "2024-05-01 10:00:00";
                 storeAlert_hostname := "host-1"; db_storeAlert := Ok 1 |}
              RAM (Percent (of_Z 85)) lastAlertTimes_init
              "Invalid count value: -3" (le_n 4)
              ltac:(vm_compute; discriminate) eq_refl)
    as (st' & Hrun & _ & Hsame).
  exists st'. split; [exact Hrun|]. apply Hsame. by eexists.
Defined.

(** X4: the outcome of [db.storeAlert] does not show in a dispatch: with the
    database call failing or not, the returned boolean, lastAlertTimes and
    the calls made are the same. *)
Theorem X4_storeAlert_outcome_invisible (fuel : nat) (app : App) (cfg : Config)
    (env : DispatchEnv) (t : AlertType) (v : UsageValue) (st : gmap string Z)
    (outcome : result Z) :
  (maxRetries < fuel)%nat →
  sendTelegramAlert fuel app cfg (with_db_storeAlert outcome env) t v st
  = sendTelegramAlert fuel app cfg env t v st.
Proof.
  intros [n ->]%enough_fuel. by rewrite !sendTelegramAlert_run.
Qed.

Lemma X4_storeAlert_outcome_witness :
  sendTelegramAlert 4 app_full config_all_enabled
    (with_db_storeAlert (Throw "SQLITE_BUSY") (dispatch_at 1000000 0))
    RAM (Percent (of_Z 85)) lastAlertTimes_init
  = sendTelegramAlert 4 app_full config_all_enabled (dispatch_at 1000000 0)
      RAM (Percent (of_Z 85)) lastAlertTimes_init.
Proof.
  apply (X4_storeAlert_outcome_invisible 4 app_full config_all_enabled
           (dispatch_at 1000000 0) RAM (Percent (of_Z 85)) lastAlertTimes_init
           (Throw "SQLITE_BUSY") (le_n 4)).
Defined.

(** ** The notifier, dispatch after dispatch *)

Lemma dispatch_step (n : nat) (app : App) (cfg : Config) (env : DispatchEnv)
    (t : AlertType) (v : UsageValue) (st : gmap string Z) :
  ∃ b st' evs,
    sendTelegramAlert (4 + n) app cfg env t v st = Some (Ok b, st', evs)
    ∧ (b = true →
       monitoring_checkInterval cfg * 10
         ≤ date_now env - lastSentAt st (alertKey t)
       ∧ lastSentAt st' (alertKey t) = date_now env)
    ∧ (b = false → lastSentAt st' (alertKey t) = lastSentAt st (alertKey t)).
Proof.
  rewrite sendTelegramAlert_run.
  destruct (dispatch_outcome_cases app cfg env t v st)
    as [[Hlim ->]|[(Hlim & _ & ->)|(Hlim & m & _ & [(k & _ & ->)|[_ ->]])]];
    eexists _, _, _; (split; [reflexivity|]); split; try done;
    intros _; rewrite ?lastSentAt_insert, ?decide_True by done;
    rewrite ?lastSentAt_ensured; done.
Qed.

(** Every send of a run is at least ten intervals after the last send
    before the run, when no call of the run starts before that send. *)
Lemma sends_after_last (n : nat) (app : App) (cfg : Config) (t : AlertType)
    (v : UsageValue) (calls : list DispatchEnv) (st : gmap string Z) :
  StronglySorted Z.le (map date_now calls) →
  Forall (λ env, lastSentAt st (alertKey t) ≤ date_now env) calls →
  ∃ outcomes st',
    sendTelegramAlert_each (4 + n) app cfg t v calls st = Some (outcomes, st')
    ∧ Forall (λ o, o.2 = true →
                   monitoring_checkInterval cfg * 10
                   ≤ o.1 - lastSentAt st (alertKey t)) outcomes.
Proof.
  revert st. induction calls as [|env calls IH]; intros st Hsorted Hafter.
  { by eexists _, _. }
  simpl in Hsorted. apply StronglySorted_inv in Hsorted as [Hsorted Hhd].
  apply Forall_cons in Hafter as [Hnow Hafter].
  destruct (dispatch_step n app cfg env t v st) as (b & st1 & evs & Hrun & Ht & Hf).
  cbn [sendTelegramAlert_each]. rewrite Hrun.
  destruct (IH st1) as (outcomes & st2 & Hrest & Hall); [done| |].
  { destruct b.
    - destruct Ht as [_ ->]; [done|].
      rewrite Forall_map in Hhd. exact Hhd.
    - rewrite Hf by done. exact Hafter. }
  rewrite Hrest. eexists _, _. split; [reflexivity|].
  constructor.
  - simpl. intros ->. by destruct Ht.
  - eapply Forall_impl; [exact Hall|]. simpl. intros o Ho Hsent.
    specialize (Ho Hsent). destruct b.
    + destruct Ht as [_ Hlast]; [done|]. rewrite Hlast in Ho. lia.
    + rewrite Hf in Ho by done. exact Ho.
Qed.

(** X5: when the calls of sendTelegramAlert for one alert type do not
    overlap, each call having returned before the next one starts, and
    their start times do not decrease, two calls that both return true are
    at least ten check intervals apart, whatever the other calls of the run
    did.  (Calls that overlap are not covered: the limiter reads the entry
    at the start of a call and writes it after the send.) *)
Theorem X5_sends_ten_intervals_apart (fuel : nat) (app : App) (cfg : Config)
    (t : AlertType) (v : UsageValue) (calls : list DispatchEnv)
    (st : gmap string Z) :
  (maxRetries < fuel)%nat →
  StronglySorted Z.le (map date_now calls) →
  ∃ outcomes st',
    sendTelegramAlert_each fuel app cfg t v calls st = Some (outcomes, st')
    ∧ map fst outcomes = map date_now calls
    ∧ ForallOrdPairs
        (λ earlier later,
           earlier.2 = true → later.2 = true →
           monitoring_checkInterval cfg * 10 ≤ later.1 - earlier.1)
        outcomes.
Proof.
  intros [n ->]%enough_fuel. revert st.
  induction calls as [|env calls IH]; intros st Hsorted.
  { eexists _, _. split; [reflexivity|]. split; [done|constructor]. }
  simpl in Hsorted. apply StronglySorted_inv in Hsorted as [Hsorted Hhd].
  destruct (dispatch_step n app cfg env t v st) as (b & st1 & evs & Hrun & Ht & _).
  destruct (IH st1 Hsorted) as (outcomes & st2 & Hrest & Htimes & Hpairs).
  cbn [sendTelegramAlert_each]. rewrite Hrun, Hrest. eexists _, _. split; [reflexivity|].
  split; [simpl; by rewrite Htimes|].
  constructor; [|exact Hpairs].
  destruct b; [|by apply Forall_forall].
  destruct Ht as [_ Hlast]; [done|].
  destruct (sends_after_last n app cfg t v calls st1 Hsorted)
    as (outcomes' & st2' & Hrest' & Hall).
  { rewrite Hlast. rewrite Forall_map in Hhd. exact Hhd. }
  rewrite Hrest in Hrest'. injection Hrest' as <- <-.
  eapply Forall_impl; [exact Hall|]. simpl. intros o Ho _ Hsent.
  rewrite Hlast in Ho. by apply Ho.
Qed.

Lemma X5_sends_ten_intervals_apart_witness :
  ∃ st',
    sendTelegramAlert_each 4 app_full config_all_enabled RAM
      (Percent (of_Z 85))
      [dispatch_at 1000000 0; dispatch_at 1000060 0; dispatch_at 1000599 0;
       dispatch_at 1000600 7; dispatch_at 1000660 0]
      lastAlertTimes_init
    = Some ([(1000000, true); (1000060, false); (1000599, false);
             (1000600, false); (1000660, true)], st').
Proof.
  destruct (X5_sends_ten_intervals_apart 4 app_full config_all_enabled RAM
              (Percent (of_Z 85))
              [dispatch_at 1000000 0; dispatch_at 1000060 0;
               dispatch_at 1000599 0; dispatch_at 1000600 7;
               dispatch_at 1000660 0]
              lastAlertTimes_init (le_n 4))
    as (outcomes & st' & Hrun & _ & _).
  { simpl. repeat constructor; lia. }
  exists st'. rewrite Hrun. f_equal.
  vm_compute in Hrun. injection Hrun as <- _. reflexivity.
Defined.

(** ** The scheduled task, kind by kind *)

Lemma dispatch_outcome_bounds (app : App) (cfg : Config) (env : DispatchEnv)
    (t : AlertType) (v : UsageValue) (st st' : gmap string Z) (b : bool)
    (evs : list Event) :
  dispatch_outcome app cfg env t v st = (Ok b, st', evs) →
  (attempts evs ≤ 3)%nat
  ∧ (length (sleeps evs) ≤ attempts evs)%nat
  ∧ Forall (λ ms, ms = 2000) (sleeps evs).
Proof.
  intros Hout.
  destruct (dispatch_outcome_cases app cfg env t v st)
    as [[_ H]|[(_ & _ & H)|(_ & m & _ & [(k & Hk & H)|[_ H]])]];
    rewrite H in Hout; pose proof (f_equal snd Hout) as Hev;
    cbn [snd] in Hev; subst evs; clear Hout H.
  - unfold attempts, sleeps. simpl. repeat split; try lia. constructor.
  - unfold attempts, sleeps. simpl. repeat split; try lia. constructor.
  - rewrite attempts_accepted.
    apply first_success_bound in Hk. unfold maxRetries in Hk.
    change (EvDispatch t v :: ?l) with ([EvDispatch t v] ++ l).
    change (EvSendMessage m :: ?l) with ([EvSendMessage m] ++ l).
    rewrite !sleeps_app. destruct (retries_quiet k m) as (_ & _ & ->).
    assert (Hrest : sleeps (counted app cfg t)
                    ++ sleeps (stored app cfg env t v m true) = []).
    { unfold counted, stored.
      by destruct (prometheus app && prometheus_enabled cfg),
           (db app && database_enabled cfg). }
    simpl. rewrite Hrest, app_nil_r, length_replicate.
    split; [lia|]. split; [lia|]. by apply Forall_replicate.
  - rewrite attempts_exhausted.
    change (EvDispatch t v :: ?l) with ([EvDispatch t v] ++ l).
    rewrite !sleeps_app. destruct (retries_quiet 3 m) as (_ & _ & ->).
    assert (Hrest : sleeps (stored app cfg env t v m false) = []).
    { unfold stored. by destruct (db app && database_enabled cfg). }
    rewrite Hrest. simpl. repeat split; try lia. by repeat constructor.
Qed.

Lemma attempts_app (l1 l2 : list Event) :
  attempts (l1 ++ l2) = (attempts l1 + attempts l2)%nat.
Proof. unfold attempts. by rewrite List.filter_app, length_app. Qed.

Lemma sink_trace_quiet (app : App) (cfg : Config) (env : SinkEnv) (m : Metrics) :
  attempts (sink_trace app cfg env m) = 0%nat
  ∧ sleeps (sink_trace app cfg env m) = [].
Proof.
  assert (Hg : ∀ w, attempts (calls_until_throw (gauge_set env) w) = 0%nat
                  ∧ sleeps (calls_until_throw (gauge_set env) w) = []).
  { induction w as [|[g x] w [IH1 IH2]]; [done|]. simpl.
    destruct (gauge_set env g); by split. }
  unfold sink_trace, status_trace. rewrite !attempts_app, !sleeps_app.
  destruct (Hg (gauge_writes m)) as [Hg1 Hg2].
  destruct (db app && database_enabled cfg),
    (prometheus app && prometheus_enabled cfg),
    (statusContent cfg env m);
    rewrite ?Hg1, ?Hg2; by split.
Qed.

Lemma reader_waits_quiet (cfg : Config) (src : Source) :
  attempts (reader_waits cfg src) = 0%nat
  ∧ sleeps (reader_waits cfg src)
    = if network_monitor cfg && negb (is_throw (net_si_networkStats1 src))
      then [1000] else [].
Proof.
  unfold reader_waits, checkNetworkUsage_waits.
  destruct (network_monitor cfg); [|done].
  by destruct (net_si_networkStats1 src).
Qed.

Lemma reached_NoDup (cfg : Config) (m : Metrics) (env : TickEnv) :
  List.NoDup (reached cfg m env) ∧ (length (reached cfg m env) ≤ 6)%nat.
Proof.
  unfold reached, kinds. destruct (_ && _); simpl; (split; [|lia]);
    repeat constructor; simpl; intuition discriminate.
Qed.

Lemma check_chain_bounds (app : App) (cfg : Config) (env : TickEnv)
    (m : Metrics) (ts : list AlertType) (st st' : gmap string Z)
    (evs : list Event) :
  check_chain app cfg env m ts st st' evs →
  (attempts evs ≤ 3 * length (dispatched evs))%nat
  ∧ (length (sleeps evs) ≤ attempts evs)%nat
  ∧ Forall (λ ms, ms = 2000) (sleeps evs).
Proof.
  induction 1 as [st|t ts st st1 st2 e1 e2 Hstep _ (IH1 & IH2 & IH3)].
  { unfold attempts, sleeps. simpl. repeat split; try lia. constructor. }
  rewrite attempts_app, dispatched_app, sleeps_app, !length_app.
  destruct Hstep as [(_ & -> & ->)|(_ & v & b & Hout)].
  { simpl. repeat split; try lia. exact IH3. }
  destruct (dispatch_outcome_bounds _ _ _ _ _ _ _ _ _ Hout) as (B1 & B2 & B3).
  destruct (dispatch_outcome_shape app cfg (dispatch env t) t v st)
    as (b' & st'' & evs' & Hout' & _ & Hd).
  rewrite Hout in Hout'. injection Hout' as <- <- <-. rewrite Hd. simpl.
  split; [lia|]. split; [lia|]. by apply Forall_app.
Qed.

(** X6: a tick dispatches every kind at most once, hence makes at most six
    dispatches and at most three delivery attempts per dispatch (eighteen in
    all).  Its waits are the one second of the network reader, at the head
    of the tick and only when network monitoring is on and the first sample
    was answered, and after it waits of 2000 ms, of which there are no more
    than delivery attempts. *)
Theorem X6_tick_effort_is_bounded (fuel : nat) (app : App) (cfg : Config)
    (env : TickEnv) (st : gmap string Z) :
  (maxRetries < fuel)%nat →
  ∃ st' evs retryWaits,
    runMonitoring_tick fuel app cfg env st = Some (Ok tt, st', evs)
    ∧ List.NoDup (dispatched evs)
    ∧ (length (dispatched evs) ≤ 6)%nat
    ∧ (attempts evs ≤ 3 * length (dispatched evs))%nat
    ∧ (attempts evs ≤ 18)%nat
    ∧ sleeps evs
      = (if network_monitor cfg
            && negb (is_throw (net_si_networkStats1 (source env)))
         then [1000] else [])
        ++ retryWaits
    ∧ Forall (λ ms, ms = 2000) retryWaits
    ∧ (length retryWaits ≤ attempts evs)%nat.
Proof.
  intros [n ->]%enough_fuel.
  destruct (tick_run n app cfg env st)
    as (m & r & st' & alerts & Hm & _ & Hchain & Hrun).
  exists st', (reader_waits cfg (source env)
               ++ sink_trace app cfg (sinks env) m ++ alerts),
    (sleeps alerts).
  split; [exact Hrun|].
  destruct (check_chain_bounds _ _ _ _ _ _ _ _ Hchain) as (B1 & B2 & B3).
  destruct (sink_trace_quiet app cfg (sinks env) m) as [Q1 Q2].
  destruct (reader_waits_quiet cfg (source env)) as [W1 W2].
  destruct (tick_dispatched cfg app env m st st' alerts Hchain) as [Hall _].
  destruct (check_chain_dispatched _ _ _ _ _ _ _ _ Hchain) as [Hd _].
  destruct (reached_NoDup cfg m env) as [Hnodup Hsix].
  rewrite Hall, !attempts_app, !sleeps_app, Q1, Q2, W1, W2. simpl.
  assert (Hlen : (length (List.filter (breach cfg m) (reached cfg m env))
                  ≤ 6)%nat).
  { etrans; [apply List.filter_length_le|exact Hsix]. }
  rewrite Hd in B1.
  repeat split; try done; try lia.
  by apply List.NoDup_filter.
Qed.

Lemma X6_tick_effort_witness :
  ∃ st' evs,
    runMonitoring_tick 4 app_full config_all_enabled tick_quiet
      lastAlertTimes_init = Some (Ok tt, st', evs)
    ∧ (attempts evs ≤ 18)%nat
    ∧ sleeps evs = [1000].
Proof.
  destruct (X6_tick_effort_is_bounded 4 app_full config_all_enabled tick_quiet
              lastAlertTimes_init (le_n 4))
    as (st' & evs & waits & Hrun & _ & _ & _ & Hatt & Hsleeps & _).
  exists st', evs. split; [exact Hrun|]. split; [exact Hatt|].
  vm_compute in Hrun. injection Hrun as <- <-. reflexivity.
Defined.

Lemma check_step_state (app : App) (cfg : Config) (env : TickEnv)
    (m : Metrics) (t : AlertType) (st st' : gmap string Z) (evs : list Event) :
  check_step app cfg env m t st st' evs →
  (∀ key, key ≠ alertKey t → st' !! key = st !! key)
  ∧ (breach cfg m t = false → st' = st)
  ∧ (lastSentAt st' (alertKey t) = lastSentAt st (alertKey t)
     ∨ (breach cfg m t = true
        ∧ lastSentAt st' (alertKey t) = date_now (dispatch env t)))
  ∧ (∀ key, is_Some (st !! key) → is_Some (st' !! key))
  ∧ (is_Some (st' !! alertKey t) ∨ st' = st).
Proof.
  intros [(Hno & -> & ->)|(Hyes & v & b & Hout)].
  { repeat split; try done; first [by left|by right]. }
  split.
  { intros key Hne.
    destruct (dispatch_outcome_cases app cfg (dispatch env t) t v st)
      as [[_ H]|[(_ & _ & H)|(_ & msg & _ & [(k & _ & H)|[_ H]])]];
      rewrite H in Hout; injection Hout as <- <- <-;
      rewrite ?lookup_insert_ne by done; by apply lookup_ensured_ne. }
  split; [congruence|].
  assert (Hens : ∀ key, is_Some (st !! key) →
                        is_Some (ensured (alertKey t) st !! key)).
  { intros key Hkey. destruct (decide (alertKey t = key)) as [<-|Hne].
    - by rewrite ensured_present.
    - by rewrite lookup_ensured_ne. }
  assert (Hkey : is_Some (ensured (alertKey t) st !! alertKey t)).
  { unfold ensured. destruct (st !! alertKey t) as [[| |]|] eqn:E;
      rewrite ?lookup_insert_eq, ?E; by eexists. }
  destruct (dispatch_outcome_cases app cfg (dispatch env t) t v st)
    as [[_ H]|[(_ & _ & H)|(_ & msg & _ & [(k & _ & H)|[_ H]])]];
    rewrite H in Hout; injection Hout as <- <- <-.
  1,2,4: split; [left; apply lastSentAt_ensured|]; split; [exact Hens|by left].
  split; [right; split; [done|]; by rewrite lastSentAt_insert, decide_True|].
  split.
  - intros key Hsome. rewrite lookup_insert.
    destruct (decide (alertKey t = key)); [by eexists|by apply Hens].
  - left. rewrite lookup_insert_eq. by eexists.
Qed.

Lemma check_chain_state (app : App) (cfg : Config) (env : TickEnv)
    (m : Metrics) (ts : list AlertType) (st st' : gmap string Z)
    (evs : list Event) :
  check_chain app cfg env m ts st st' evs →
  (∀ key, (∀ t, In t ts → breach cfg m t = true → key ≠ alertKey t) →
          st' !! key = st !! key)
  ∧ (∀ key, lastSentAt st' key = lastSentAt st key
            ∨ ∃ t, In t ts ∧ breach cfg m t = true ∧ key = alertKey t
                   ∧ lastSentAt st' key = date_now (dispatch env t))
  ∧ (∀ key, is_Some (st !! key) → is_Some (st' !! key))
  ∧ (∀ key, is_Some (st' !! key) →
            is_Some (st !! key) ∨ ∃ t, In t ts ∧ key = alertKey t).
Proof.
  induction 1 as [st|t ts st st1 st2 e1 e2 Hstep _ (IH1 & IH2 & IH3 & IH4)].
  { repeat split; try done; intros; by left. }
  destruct (check_step_state _ _ _ _ _ _ _ _ Hstep)
    as (S1 & S2 & S3 & S4 & S5).
  split; [|split; [|split]].
  - intros key Hkey. rewrite IH1 by (intros; apply Hkey; [by right|done]).
    destruct (breach cfg m t) eqn:Hb.
    + apply S1. apply Hkey; [by left|done].
    + by rewrite S2.
  - intros key. destruct (IH2 key) as [Hsame|(t' & Hin & Hb & -> & Hnow)].
    2:{ right. exists t'. repeat split; try done. by right. }
    rewrite Hsame. destruct (decide (key = alertKey t)) as [->|Hne].
    + destruct S3 as [Hs|[Hb Hnow]]; [by left|].
      right. exists t. repeat split; try done. by left.
    + left. unfold lastSentAt. by rewrite S1.
  - intros key Hsome. by apply IH3, S4.
  - intros key Hsome. destruct (IH4 key Hsome) as [H1|(t' & Hin & ->)].
    2:{ right. exists t'. split; [by right|done]. }
    destruct (decide (key = alertKey t)) as [->|Hne].
    + right. exists t. split; [by left|done].
    + left. by rewrite <- S1.
Qed.

(** X7: what a tick does to lastAlertTimes: the entry of a kind that is not
    in breach is untouched; the time recorded for any key either stays or
    becomes the start time of this tick's dispatch of that kind, which is in
    breach; no key is removed and the only keys that can appear are the six
    keys of the kinds, so a map with the six keys keeps exactly its keys. *)
Theorem X7_tick_changes_only_breached_kinds (fuel : nat) (app : App)
    (cfg : Config) (env : TickEnv) (st : gmap string Z) :
  (maxRetries < fuel)%nat →
  ∃ m st' evs,
    collectMetrics cfg (source env) = Ok m
    ∧ runMonitoring_tick fuel app cfg env st = Some (Ok tt, st', evs)
    ∧ (∀ t, breach cfg m t = false → st' !! alertKey t = st !! alertKey t)
    ∧ (∀ key, lastSentAt st' key = lastSentAt st key
              ∨ ∃ t, breach cfg m t = true ∧ key = alertKey t
                     ∧ lastSentAt st' key = date_now (dispatch env t))
    ∧ (∀ key, is_Some (st !! key) → is_Some (st' !! key))
    ∧ ((∀ t, is_Some (st !! alertKey t)) → dom st' = dom st).
Proof.
  intros [n ->]%enough_fuel.
  destruct (tick_run n app cfg env st)
    as (m & r & st' & alerts & Hm & _ & Hchain & Hrun).
  exists m, st', (reader_waits cfg (source env)
                  ++ sink_trace app cfg (sinks env) m ++ alerts).
  split; [exact Hm|]. split; [exact Hrun|].
  destruct (check_chain_state _ _ _ _ _ _ _ _ Hchain) as (C1 & C2 & C3 & C4).
  split; [|split; [|split]].
  - intros t Hno. apply C1. intros t' _ Hyes Heq.
    apply alertKey_inj in Heq. congruence.
  - intros key. destruct (C2 key) as [H|(t & _ & Hb & Hk & Hn)]; [by left|].
    right. by exists t.
  - exact C3.
  - intros Hall. apply set_eq. intros key. rewrite !elem_of_dom. split.
    + intros Hsome. destruct (C4 key Hsome) as [H|(t & _ & ->)]; [done|apply Hall].
    + apply C3.
Qed.

Lemma X7_tick_changes_witness :
  ∃ st' evs,
    runMonitoring_tick 4 app_full config_all_enabled tick_quiet
      lastAlertTimes_init = Some (Ok tt, st', evs)
    ∧ st' !! "cpu" = Some 0
    ∧ dom st' = dom lastAlertTimes_init.
Proof.
  destruct (X7_tick_changes_only_breached_kinds 4 app_full config_all_enabled
              tick_quiet lastAlertTimes_init (le_n 4))
    as (m & st' & evs & Hm & Hrun & Hquiet & _ & _ & Hdom).
  exists st', evs. split; [exact Hrun|]. split.
  - etrans; [apply (Hquiet CPU)|reflexivity].
    vm_compute in Hm. injection Hm as <-. reflexivity.
  - apply Hdom. intros []; by eexists.
Defined.

Lemma collectMetrics_all_throw (cfg : Config) (src : Source) :
  all_throw src → collectMetrics cfg src = Ok all_zero.
Proof.
  intros ([e1 H1] & [e2 H2] & [e3 H3] & [e4 H4] & [e5 H5] & [e6 H6]).
  destruct (checkRamUsage_spec (ram_si_mem src)) as (r & Er & Fr & _).
  destruct (checkCpuUsage_spec cfg (cpu_si_currentLoad src))
    as (c & Ec & _ & Fc & _).
  destruct (checkDiskUsage_spec cfg (disk_si_fsSize src))
    as (d & Ed & _ & Fd & _).
  destruct (checkSwapUsage_spec cfg (swap_si_mem src)) as (s & Es & _ & Fs & _).
  destruct (checkLoadAverage_spec cfg (load_os_loadavg src) (load_os_cpus src))
    as (l & El & _ & Fl & _).
  destruct (checkNetworkUsage_spec cfg (net_si_networkStats1 src)
              (net_si_networkStats2 src)) as (nw & En & _ & Fn & _).
  unfold collectMetrics. rewrite Er, Ec, Ed, Es, El, En.
  rewrite (Fr _ H1), (Fc _ H2), (Fd _ H3), (Fs _ H4),
    (Fl e5 (or_introl H5)), (Fn e6 (or_introl H6)).
  reflexivity.
Qed.

Lemma check_chain_quiet (app : App) (cfg : Config) (env : TickEnv)
    (m : Metrics) (ts : list AlertType) (st st' : gmap string Z)
    (evs : list Event) :
  check_chain app cfg env m ts st st' evs →
  (∀ t, In t ts → breach cfg m t = false) →
  st' = st ∧ evs = [].
Proof.
  induction 1 as [st|t ts st st1 st2 e1 e2 Hstep _ IH]; [done|].
  intros Hno.
  destruct Hstep as [(_ & -> & ->)|(Hyes & _)].
  - apply IH. intros t' Hin. apply Hno. by right.
  - rewrite Hno in Hyes; [discriminate|by left].
Qed.

Lemma reader_waits_down (cfg : Config) (src : Source) :
  all_throw src → reader_waits cfg src = [].
Proof.
  intros (_ & _ & _ & _ & _ & [e He]).
  unfold reader_waits, checkNetworkUsage_waits. rewrite He.
  by destruct (network_monitor cfg).
Qed.

(** X8: when every call of the metric source throws, the tick still ends
    normally and without a wait: the all-zero snapshot is handed to the
    database and to the gauges, and the status file is written unless load
    monitoring is on and the os.cpus() of its Load line throws as well;
    with no threshold at or below 0 the tick attempts no dispatch at all
    and leaves lastAlertTimes as it was: a metric source that is down
    raises no alert. *)
Theorem X8_source_down_raises_no_alert (fuel : nat) (app : App) (cfg : Config)
    (env : TickEnv) (st : gmap string Z) :
  (maxRetries < fuel)%nat →
  all_throw (source env) →
  thresholds_above_zero cfg = true →
  collectMetrics cfg (source env) = Ok all_zero
  ∧ runMonitoring_tick fuel app cfg env st
    = Some (Ok tt, st, sink_trace app cfg (sinks env) all_zero)
  ∧ dispatched (sink_trace app cfg (sinks env) all_zero) = []
  ∧ sleeps (sink_trace app cfg (sinks env) all_zero) = []
  ∧ (load_monitor cfg = true →
     is_throw (status_os_cpus (sinks env)) = true →
     status_writes (sink_trace app cfg (sinks env) all_zero) = [])
  ∧ (load_monitor cfg = false ∨ is_throw (status_os_cpus (sinks env)) = false →
     length (status_writes (sink_trace app cfg (sinks env) all_zero)) = 1%nat).
Proof.
  intros [n ->]%enough_fuel Hdown Hthr.
  pose proof (collectMetrics_all_throw cfg _ Hdown) as Hzero.
  destruct (tick_run n app cfg env st)
    as (m & r & st' & alerts & Hm & _ & Hchain & Hrun).
  rewrite Hzero in Hm. injection Hm as <-.
  split; [done|].
  destruct (check_chain_quiet _ _ _ _ _ _ _ _ Hchain) as [-> ->].
  { unfold thresholds_above_zero in Hthr.
    repeat (apply andb_prop in Hthr as [Hthr ?]).
    intros t _. destruct t; simpl;
      rewrite ?andb_false_r; try done;
      repeat match goal with
             | H : negb _ = true |- _ => apply negb_true_iff in H
             end; simpl in *; by rewrite ?H, ?H0, ?H1, ?H2, ?Hthr, ?andb_false_r. }
  rewrite (reader_waits_down cfg _ Hdown), app_nil_r in Hrun.
  split; [exact Hrun|].
  split; [apply dispatched_sink_trace|].
  split; [apply sink_trace_quiet|].
  rewrite (proj2 (proj2 (sink_trace_calls app cfg (sinks env) all_zero))).
  unfold statusContent. split.
  - intros -> Hthrow. by destruct (status_os_cpus (sinks env)).
  - intros [-> | Hok]; [done|].
    destruct (load_monitor cfg); [|done].
    by destruct (status_os_cpus (sinks env)).
Qed.

Lemma X8_source_down_witness :
  runMonitoring_tick 4 app_full config_cpu_off
    {| source := source_down; sinks := sinks_cpus_down;
       alert_os_cpus := Throw "ENOSYS";
       dispatch := λ _, dispatch_at 1000000 0 |} lastAlertTimes_init
  = Some (Ok tt, lastAlertTimes_init,
          sink_trace app_full config_cpu_off sinks_cpus_down all_zero)
  ∧ status_writes (sink_trace app_full config_cpu_off sinks_cpus_down all_zero)
    = [].
Proof.
  destruct (X8_source_down_raises_no_alert 4 app_full config_cpu_off
              {| source := source_down; sinks := sinks_cpus_down;
                 alert_os_cpus := Throw "ENOSYS";
                 dispatch := λ _, dispatch_at 1000000 0 |}
              lastAlertTimes_init (le_n 4))
    as (_ & Hrun & _ & _ & Hnone & _).
  - repeat split; by eexists.
  - reflexivity.
  - split; [exact Hrun|]. by apply Hnone.
Defined.

(** ** The SQLite adapter, once more *)

Lemma leb_lt_or_eq (a b : string) :
  String.leb a b = true ↔ a = b ∨ OrderedTypeEx.String_as_OT.lt a b.
Proof.
  unfold String.leb.
  destruct (String.compare a b) eqn:E.
  - apply OrderedTypeEx.String_as_OT.cmp_eq in E. intuition.
  - apply OrderedTypeEx.String_as_OT.cmp_lt in E. intuition.
  - split; [discriminate|]. intros [->|Hlt].
    + assert (String.compare b b = Eq)
        by (by apply OrderedTypeEx.String_as_OT.cmp_eq).
      congruence.
    + apply OrderedTypeEx.String_as_OT.cmp_lt in Hlt.
      unfold OrderedTypeEx.String_as_OT.cmp in Hlt. congruence.
Qed.

Lemma leb_trans (a b c : string) :
  String.leb a b = true → String.leb b c = true → String.leb a c = true.
Proof.
  rewrite !leb_lt_or_eq. intros [->|H1] [->|H2]; auto.
  right. eapply OrderedTypeEx.String_as_OT.lt_trans; eauto.
Qed.

Lemma place_perm {Row : Type} (ts : Row → string) (r : Z * Row)
    (l : list (Z * Row)) :
  Sqlite.place ts r l ≡ₚ r :: l.
Proof.
  induction l as [|r' l IH]; [done|]. cbn [Sqlite.place].
  destruct (String.ltb _ _); [done|]. rewrite IH. apply Permutation_swap.
Qed.

Lemma order_by_perm {Row : Type} (ts : Row → string) (l : list (Z * Row)) :
  Sqlite.order_by_timestamp_desc ts l ≡ₚ l.
Proof.
  induction l as [|r l IH] using rev_ind; [done|].
  rewrite order_by_snoc, place_perm, IH. apply Permutation_cons_append.
Qed.

Lemma newest_first_front {Row : Type} (ts : Row → string)
    (l1 l2 : list (Z * Row)) :
  newest_first ts (l1 ++ l2) →
  newest_first ts l1
  ∧ ∀ x y, In x l1 → In y l2 → String.leb (ts y.2) (ts x.2) = true.
Proof.
  unfold newest_first. intros Hs.
  apply Sorted_StronglySorted in Hs.
  2:{ intros a b c Hab Hbc. eapply leb_trans; eauto. }
  induction l1 as [|a l1 IH]; cbn [List.app] in Hs.
  - split; [constructor|]. by intros x y [].
  - apply StronglySorted_inv in Hs as [Hrest Hall].
    destruct (IH Hrest) as [Hfront Hcross]. split.
    + constructor; [exact Hfront|].
      destruct l1 as [|b l1]; constructor.
      apply Forall_inv in Hall. exact Hall.
    + intros x y [<-|Hx] Hy; [|by apply Hcross].
      rewrite List.Forall_forall in Hall. apply Hall.
      apply in_or_app. by right.
Qed.

Lemma select_recent_newest {Row : Type} (ts : Row → string) (limit : Z)
    (t : Sqlite.Table Row) :
  newest_rows ts limit (Sqlite.rows t) (Sqlite.select_recent ts limit t).
Proof.
  unfold Sqlite.select_recent, newest_rows.
  destruct (order_by_facts ts (Sqlite.rows t)) as (Hs & Hl & _).
  pose proof (order_by_perm ts (Sqlite.rows t)) as Hperm.
  set (l := Sqlite.order_by_timestamp_desc ts (Sqlite.rows t)) in *.
  destruct (limit <? 0) eqn:Hneg.
  - exists []. rewrite app_nil_r. split; [by symmetry|].
    split; [exact Hs|]. split; [by intros x y _ []|]. by rewrite Hl.
  - apply Z.ltb_ge in Hneg. exists (drop (Z.to_nat limit) l).
    rewrite take_drop. split; [by symmetry|].
    rewrite <- (take_drop (Z.to_nat limit) l) in Hs.
    apply newest_first_front in Hs as [Hfront Hcross].
    split; [exact Hfront|]. split; [exact Hcross|].
    rewrite length_take, Hl. lia.
Qed.

(** X9: getRecentMetrics(n) and getRecentAlerts(n) return the n newest rows
    of their table, newest first: all rows when there are fewer than n or n
    is negative, otherwise exactly n of them, each row of the table at most
    once, and no row that is left out carries a later timestamp than a row
    returned. *)
Theorem X9_recent_rows_are_the_newest (d : Sqlite.Database) (n : Z) :
  newest_rows timestamp n (Sqlite.rows (Sqlite.metrics d))
    (Sqlite.getRecentMetrics n d)
  ∧ newest_rows Sqlite.row_timestamp n (Sqlite.rows (Sqlite.alerts d))
      (Sqlite.getRecentAlerts n d).
Proof. split; apply select_recent_newest. Qed.

Lemma X9_recent_rows_witness :
  Sqlite.getRecentMetrics 1 db_behind = [(2, record_at "2024-05-01 09:59:00")]
  ∧ newest_rows timestamp 1 (Sqlite.rows (Sqlite.metrics db_behind))
      [(2, record_at "2024-05-01 09:59:00")].
Proof.
  split; [reflexivity|].
  exact (proj1 (X9_recent_rows_are_the_newest db_behind 1)).
Defined.

(** ** Further properties: the host record and the top consumers *)

(** *** The uptime text *)

(** ** Host identity *)

Lemma Qfloor_unique (q : Q) (z : Z) :
  (inject_Z z <= q)%Q → (q < inject_Z (z + 1))%Q → Qfloor q = z.
Proof.
  intros Hle Hlt.
  pose proof (Qfloor_le q) as H1. pose proof (Qlt_floor q) as H2.
  assert (Ha : (inject_Z (Qfloor q) < inject_Z (z + 1))%Q)
    by (eapply Qle_lt_trans; eauto).
  assert (Hb : (inject_Z z < inject_Z (Qfloor q + 1))%Q)
    by (eapply Qle_lt_trans; eauto).
  rewrite <- Zlt_Qlt in Ha, Hb. lia.
Qed.

Lemma Qfloor_div (q : Q) (n : Z) :
  0 < n → Qfloor (q / inject_Z n) = Qfloor q / n.
Proof.
  intros Hn.
  assert (Hpos : (0 < inject_Z n)%Q) by (change 0%Q with (inject_Z 0); by rewrite <- Zlt_Qlt).
  apply Qfloor_unique.
  - apply Qle_shift_div_l; [done|].
    rewrite <- inject_Z_mult.
    eapply Qle_trans; [|apply Qfloor_le].
    rewrite <- Zle_Qle. rewrite Z.mul_comm. apply Z.mul_div_le. lia.
  - apply Qlt_shift_div_r; [done|].
    rewrite <- inject_Z_mult.
    eapply Qlt_le_trans; [apply Qlt_floor|].
    rewrite <- Zle_Qle.
    pose proof (Z.mul_succ_div_gt (Qfloor q) n Hn). lia.
Qed.

Lemma Qfloor_minus (q : Q) (z : Z) :
  Qfloor (q - inject_Z z) = Qfloor q - z.
Proof.
  apply Qfloor_unique.
  - unfold Z.sub. rewrite inject_Z_plus, inject_Z_opp.
    apply Qplus_le_l. apply Qfloor_le.
  - replace (Qfloor q - z + 1) with ((Qfloor q + 1) + - z) by lia.
    rewrite inject_Z_plus, inject_Z_opp.
    apply Qplus_lt_l. apply Qlt_floor.
Qed.

Lemma rem_nonneg (u : Q) (n : Z) :
  (0 <= u)%Q → 0 < n →
  (SystemUtils.rem u (inject_Z n) == u - inject_Z (n * (Qfloor u / n)))%Q.
Proof.
  intros Hu Hn. unfold SystemUtils.rem.
  assert (Hpos : (0 < inject_Z n)%Q) by (change 0%Q with (inject_Z 0); by rewrite <- Zlt_Qlt).
  assert (Hq : Qle_bool 0 (u / inject_Z n) = true).
  { apply Qle_bool_iff. apply Qle_shift_div_l; [done|]. by rewrite Qmult_0_l. }
  rewrite Hq, Qfloor_div by done. by rewrite inject_Z_mult.
Qed.

Lemma uptime_parts (u : Q) :
  (0 <= u)%Q →
  SystemUtils.uptimeDays u = Qfloor u / 86400
  ∧ SystemUtils.uptimeHours u = (Qfloor u mod 86400) / 3600
  ∧ SystemUtils.uptimeMinutes u = (Qfloor u mod 3600) / 60.
Proof.
  intros Hu. unfold SystemUtils.uptimeDays, SystemUtils.uptimeHours,
    SystemUtils.uptimeMinutes.
  split; [apply (Qfloor_div u 86400); lia|].
  split.
  - rewrite (Qfloor_comp _ ((u - inject_Z (86400 * (Qfloor u / 86400)))
                            / inject_Z 3600)).
    + rewrite Qfloor_div, Qfloor_minus by lia. f_equal.
      rewrite Z.mod_eq by lia. reflexivity.
    + apply Qdiv_comp; [|reflexivity]. apply (rem_nonneg u 86400); [done|lia].
  - rewrite (Qfloor_comp _ ((u - inject_Z (3600 * (Qfloor u / 3600)))
                            / inject_Z 60)).
    + rewrite Qfloor_div, Qfloor_minus by lia. f_equal.
      rewrite Z.mod_eq by lia. reflexivity.
    + apply Qdiv_comp; [|reflexivity]. apply (rem_nonneg u 3600); [done|lia].
Qed.

(** X10: for an uptime of at least 0 seconds, the hours shown are below 24,
    the minutes below 60, and days, hours and minutes together are the
    uptime to the minute (the uptime is at least that long and less than a
    minute longer); below one hour the text is the minutes alone, below one
    day hours and minutes, and from one day on all three, a zero in the
    middle included. *)
Theorem X10_uptime_to_the_minute (fmt : JsString.NumberFormat) (u : Q) :
  (0 <= u)%Q →
  let d := SystemUtils.uptimeDays u in
  let h := SystemUtils.uptimeHours u in
  let m := SystemUtils.uptimeMinutes u in
  0 ≤ d ∧ 0 ≤ h < 24 ∧ 0 ≤ m < 60
  ∧ (inject_Z (86400 * d + 3600 * h + 60 * m) <= u)%Q
  ∧ (u < inject_Z (86400 * d + 3600 * h + 60 * m + 60))%Q
  ∧ ((u < 3600)%Q →
     SystemUtils.uptime_text fmt u
     = JsString.ToString fmt (of_Z m) ++ JsString.lit "m")
  ∧ ((3600 <= u)%Q → (u < 86400)%Q →
     SystemUtils.uptime_text fmt u
     = JsString.ToString fmt (of_Z h) ++ JsString.lit "h "
       ++ JsString.ToString fmt (of_Z m) ++ JsString.lit "m")
  ∧ ((86400 <= u)%Q →
     SystemUtils.uptime_text fmt u
     = JsString.ToString fmt (of_Z d) ++ JsString.lit "d "
       ++ JsString.ToString fmt (of_Z h) ++ JsString.lit "h "
       ++ JsString.ToString fmt (of_Z m) ++ JsString.lit "m").
Proof.
  intros Hu. simpl. unfold SystemUtils.uptime_text.
  destruct (uptime_parts u Hu) as (-> & -> & ->).
  set (s := Qfloor u).
  assert (Hs : 0 ≤ s).
  { apply Qfloor_resp_le in Hu. exact Hu. }
  assert (Hlow : (inject_Z s <= u)%Q) by apply Qfloor_le.
  assert (Hhigh : (u < inject_Z (s + 1))%Q) by apply Qlt_floor.
  assert (Hmod : s mod 3600 = (s mod 86400) mod 3600).
  { symmetry. apply Z.mod_mod_divide. exists 24. reflexivity. }
  assert (Hparts : 86400 * (s / 86400) + 3600 * (s mod 86400 / 3600)
                   + 60 * (s mod 3600 / 60) ≤ s
                   ∧ s < 86400 * (s / 86400) + 3600 * (s mod 86400 / 3600)
                         + 60 * (s mod 3600 / 60) + 60).
  { rewrite Hmod. Z.div_mod_to_equations. lia. }
  split; [Z.div_mod_to_equations; lia|].
  split; [Z.div_mod_to_equations; lia|].
  split; [Z.div_mod_to_equations; lia|].
  split.
  { eapply Qle_trans; [|exact Hlow]. rewrite <- Zle_Qle. lia. }
  split.
  { eapply Qlt_le_trans; [exact Hhigh|]. rewrite <- Zle_Qle. lia. }
  assert (Hbelow : ∀ n : Z, (u < inject_Z n)%Q → s < n).
  { intros n Hn. rewrite Zlt_Qlt. eapply Qle_lt_trans; eauto. }
  assert (Habove : ∀ n : Z, (inject_Z n <= u)%Q → n ≤ s).
  { intros n Hn. apply Qfloor_resp_le in Hn. by rewrite Qfloor_Z in Hn. }
  split; [|split].
  - intros Hlt. apply (Hbelow 3600) in Hlt.
    assert (s / 86400 = 0) as -> by (Z.div_mod_to_equations; lia).
    assert (s mod 86400 / 3600 = 0) as -> by (Z.div_mod_to_equations; lia).
    reflexivity.
  - intros Hge Hlt. apply (Habove 3600) in Hge. apply (Hbelow 86400) in Hlt.
    assert (s / 86400 = 0) as -> by (Z.div_mod_to_equations; lia).
    assert ((0 <? s mod 86400 / 3600) = true) as ->
      by (apply Z.ltb_lt; Z.div_mod_to_equations; lia).
    reflexivity.
  - intros Hge. apply (Habove 86400) in Hge.
    assert ((0 <? s / 86400) = true) as ->
      by (apply Z.ltb_lt; Z.div_mod_to_equations; lia).
    reflexivity.
Qed.

Lemma X10_uptime_witness :
  SystemUtils.uptime_text decimal_format 90300 = JsString.lit "1d 1h 5m".
Proof.
  destruct (X10_uptime_to_the_minute decimal_format 90300)
    as (_ & _ & _ & _ & _ & _ & _ & Hdays).
  - discriminate.
  - rewrite Hdays; [reflexivity|]. discriminate.
Defined.

(** *** The address and the fallback record of getSystemInfo *)

Lemma last_default {A : Type} (l : list A) (d d' : A) :
  l ≠ [] → List.last l d = List.last l d'.
Proof.
  induction l as [|a [|b l] IH]; [done|done|].
  intros _. change (List.last (b :: l) d = List.last (b :: l) d').
  by apply IH.
Qed.

Lemma last_cons_default {A : Type} (a : A) (l : list A) (d : A) :
  List.last (a :: l) d = List.last l a.
Proof.
  destruct l as [|b l]; [done|].
  change (List.last (b :: l) d = List.last (b :: l) a).
  by apply last_default.
Qed.

Lemma last_app_default {A : Type} (l1 l2 : list A) (d : A) :
  List.last (l1 ++ l2) d = List.last l2 (List.last l1 d).
Proof.
  revert d. induction l1 as [|a l1 IH]; intros d; [done|].
  rewrite <- app_comm_cons, !last_cons_default. apply IH.
Qed.

Lemma pick_one_array (l : list SystemUtils.Iface) (ipAddress : list N) :
  fold_left
    (λ ipAddress iface,
       if JsString.eqb (SystemUtils.family iface) (JsString.lit "IPv4")
          && negb (SystemUtils.internal iface)
       then SystemUtils.address iface else ipAddress)
    l ipAddress
  = List.last (map SystemUtils.address (List.filter external l)) ipAddress.
Proof.
  revert ipAddress. induction l as [|x l IH]; intros ipAddress; [done|].
  cbn [fold_left List.filter]. rewrite IH. unfold external at 2.
  destruct (_ && _); [|done].
  cbn [map]. by rewrite last_cons_default.
Qed.

Lemma pick_arrays (nis : list (list N * list SystemUtils.Iface))
    (ipAddress : list N) :
  fold_left
    (λ ipAddress entry,
       fold_left
         (λ ipAddress iface,
            if JsString.eqb (SystemUtils.family iface) (JsString.lit "IPv4")
               && negb (SystemUtils.internal iface)
            then SystemUtils.address iface else ipAddress)
         entry.2 ipAddress)
    nis ipAddress
  = List.last (map SystemUtils.address (List.filter external (all_ifaces nis)))
      ipAddress.
Proof.
  revert ipAddress. induction nis as [|[ifName l] nis IH]; intros ipAddress;
    [done|].
  cbn [fold_left]. rewrite IH, pick_one_array. unfold all_ifaces.
  cbn [map concat snd].
  by rewrite List.filter_app, map_app, last_app_default.
Qed.

Lemma getSystemInfo_cases (fmt : JsString.NumberFormat) (diskPath : list N)
    (env : SystemUtils.HostEnv) :
  if answers env
  then ∃ osInfo memInfo cpuLoad diskInfo fsSize,
      SystemUtils.si_osInfo env = Ok osInfo
      ∧ SystemUtils.si_mem env = Ok memInfo
      ∧ SystemUtils.si_currentLoad env = Ok cpuLoad
      ∧ SystemUtils.si_fsSize env = Ok fsSize
      ∧ SystemUtils.diskInfo_for diskPath fsSize = Ok diskInfo
      ∧ SystemUtils.getSystemInfo fmt diskPath env
        = Ok {| SystemUtils.hostname := SystemUtils.os_hostname env;
                SystemUtils.ip :=
                  SystemUtils.pick_ip (SystemUtils.os_networkInterfaces env);
                SystemUtils.os :=
                  SystemUtils.distro osInfo ++ JsString.lit " "
                  ++ SystemUtils.release osInfo;
                SystemUtils.kernel := SystemUtils.kernel_version osInfo;
                SystemUtils.uptime :=
                  SystemUtils.uptime_text fmt (SystemUtils.os_uptime env);
                SystemUtils.ramUsage :=
                  Math_round (mul (div (used memInfo) (total memInfo))
                                (of_Z 100));
                SystemUtils.totalRam :=
                  JsString.toFixed fmt (div (total memInfo) SystemUtils.GiB) 1
                  ++ JsString.lit "Gi";
                SystemUtils.cpuUsage := Math_round (currentLoad cpuLoad);
                SystemUtils.diskUsage :=
                  Math_round (SystemUtils.fs_use diskInfo);
                SystemUtils.totalDisk :=
                  JsString.toFixed fmt
                    (div (SystemUtils.fs_size diskInfo) SystemUtils.GiB) 1
                  ++ JsString.lit "G" |}
  else SystemUtils.getSystemInfo fmt diskPath env
       = Ok (SystemUtils.unknown_host (SystemUtils.os_hostname env)).
Proof.
  unfold answers, SystemUtils.getSystemInfo.
  destruct (SystemUtils.si_osInfo env) as [osInfo|e]; [|done].
  destruct (SystemUtils.si_mem env) as [memInfo|e]; [|done].
  destruct (SystemUtils.si_cpu env) as [cpuInfo|e]; [|done].
  destruct (SystemUtils.si_currentLoad env) as [cpuLoad|e]; [|done].
  destruct (SystemUtils.si_fsSize env) as [[|fs fsSize]|e]; [done| |done].
  assert (∃ diskInfo,
            SystemUtils.diskInfo_for diskPath (fs :: fsSize) = Ok diskInfo)
    as [diskInfo Hdisk].
  { unfold SystemUtils.diskInfo_for.
    destruct (List.find _ _); eauto. }
  exists osInfo, memInfo, cpuLoad, diskInfo, (fs :: fsSize).
  repeat split; try done.
  cbn. unfold mbind, result_bind. cbn. rewrite Hdisk. reflexivity.
Qed.

(** X11: the address in the record of getSystemInfo is that of the last
    external IPv4 entry of os.networkInterfaces(), in the order the
    interfaces and their entries are visited, when every awaited call of
    getSystemInfo answers; it is 127.0.0.1 when there is no such entry,
    and also, whatever the entries, when one of the awaited calls fails. *)
Theorem X11_last_external_address_wins (fmt : JsString.NumberFormat)
    (diskPath : list N) (env : SystemUtils.HostEnv) :
  ∃ info,
    SystemUtils.getSystemInfo fmt diskPath env = Ok info
    ∧ SystemUtils.ip info
      = if answers env
        then List.last
               (map SystemUtils.address
                  (List.filter external
                     (all_ifaces (SystemUtils.os_networkInterfaces env))))
               (JsString.lit "127.0.0.1")
        else JsString.lit "127.0.0.1".
Proof.
  pose proof (getSystemInfo_cases fmt diskPath env) as Hcases.
  destruct (answers env).
  - destruct Hcases as (osInfo & memInfo & cpuLoad & diskInfo & fsSize
                        & _ & _ & _ & _ & _ & ->).
    eexists. split; [reflexivity|]. apply pick_arrays.
  - rewrite Hcases. eexists. split; reflexivity.
Qed.

Lemma X11_last_external_address_witness :
  (∃ info,
     SystemUtils.getSystemInfo decimal_format (JsString.lit "/") host_sample
     = Ok info
     ∧ SystemUtils.ip info = JsString.lit "192.168.1.7")
  ∧ ∃ info,
      SystemUtils.getSystemInfo decimal_format (JsString.lit "/") host_mem_down
      = Ok info
      ∧ SystemUtils.ip info = JsString.lit "127.0.0.1".
Proof.
  split.
  - destruct (X11_last_external_address_wins decimal_format (JsString.lit "/")
                host_sample) as (info & Hinfo & Hip).
    exists info. split; [exact Hinfo|]. rewrite Hip. reflexivity.
  - destruct (X11_last_external_address_wins decimal_format (JsString.lit "/")
                host_mem_down) as (info & Hinfo & Hip).
    exists info. split; [exact Hinfo|]. rewrite Hip. reflexivity.
Defined.

(** X12: getSystemInfo always returns a record, and its hostname is
    os.hostname().  The record is all or nothing: when one of the awaited
    calls fails, or si.fsSize() lists no file system, every other field is
    the placeholder of the catch branch, the address 127.0.0.1 included even
    though an external address was found before the failure; otherwise the
    address and the uptime are the ones computed, and the RAM and CPU
    figures are what checkRamUsage and a monitoring checkCpuUsage return for
    the same samples. *)
Theorem X12_system_info_all_or_nothing (fmt : JsString.NumberFormat)
    (diskPath : list N) (env : SystemUtils.HostEnv) (cfg : Config) :
  ∃ info,
    SystemUtils.getSystemInfo fmt diskPath env = Ok info
    ∧ SystemUtils.hostname info = SystemUtils.os_hostname env
    ∧ (answers env = false →
       info = SystemUtils.unknown_host (SystemUtils.os_hostname env))
    ∧ (answers env = true →
       SystemUtils.ip info
       = SystemUtils.pick_ip (SystemUtils.os_networkInterfaces env)
       ∧ SystemUtils.uptime info
         = SystemUtils.uptime_text fmt (SystemUtils.os_uptime env)
       ∧ checkRamUsage (SystemUtils.si_mem env)
         = Ok (SystemUtils.ramUsage info)
       ∧ (cpu_monitor cfg = true →
          checkCpuUsage cfg (SystemUtils.si_currentLoad env)
          = Ok (SystemUtils.cpuUsage info))).
Proof.
  pose proof (getSystemInfo_cases fmt diskPath env) as Hcases.
  destruct (answers env).
  - destruct Hcases as (osInfo & memInfo & cpuLoad & diskInfo & fsSize
                        & Hos & Hmem & Hload & Hfs & Hdisk & ->).
    eexists. split; [reflexivity|]. split; [reflexivity|].
    split; [done|]. intros _. cbn.
    split; [reflexivity|]. split; [reflexivity|].
    split.
    + rewrite Hmem. reflexivity.
    + intros Hmon. unfold checkCpuUsage. rewrite Hmon, Hload. reflexivity.
  - rewrite Hcases. eexists. split; [reflexivity|]. split; [reflexivity|].
    split; [done|]. done.
Qed.

Lemma X12_system_info_witness :
  SystemUtils.getSystemInfo decimal_format (JsString.lit "/") host_mem_down
  = Ok (SystemUtils.unknown_host (JsString.lit "web-01"))
  ∧ SystemUtils.pick_ip (SystemUtils.os_networkInterfaces host_mem_down)
    = JsString.lit "192.168.1.7".
Proof.
  destruct (X12_system_info_all_or_nothing decimal_format (JsString.lit "/")
              host_mem_down config_all_enabled)
    as (info & Hinfo & _ & Hdown & _).
  rewrite Hinfo, (Hdown eq_refl). split; reflexivity.
Defined.

(** *** Top consumers *)

Lemma sort_in_perm (key : SystemUtils.Process → Q) (proc : SystemUtils.Process)
    (sorted : list SystemUtils.Process) :
  SystemUtils.sort_in key proc sorted ≡ₚ proc :: sorted.
Proof.
  induction sorted as [|first rest IH]; [done|].
  cbn [SystemUtils.sort_in]. destruct (Qle_bool _ _); [|done].
  rewrite IH. apply Permutation_swap.
Qed.

Lemma sort_in_sorted (key : SystemUtils.Process → Q) (proc : SystemUtils.Process)
    (sorted : list SystemUtils.Process) :
  StronglySorted (λ a b, (key b <= key a)%Q) sorted →
  StronglySorted (λ a b, (key b <= key a)%Q) (SystemUtils.sort_in key proc sorted).
Proof.
  induction 1 as [|first rest Hrest IH Hall].
  - repeat constructor.
  - cbn [SystemUtils.sort_in].
    destruct (Qle_bool (key proc) (key first)) eqn:Hle.
    + apply Qle_bool_iff in Hle. constructor; [done|].
      rewrite (sort_in_perm key proc rest). by constructor.
    + assert (Hlt : (key first <= key proc)%Q).
      { apply Qnot_lt_le. intros Hlt. apply Qlt_le_weak in Hlt.
        apply Qle_bool_iff in Hlt. congruence. }
      constructor; [by constructor|].
      constructor; [done|].
      eapply Forall_impl; [exact Hall|].
      intros q Hq. cbn in Hq. eapply Qle_trans; [exact Hq|exact Hlt].
Qed.

Lemma sort_desc_facts (key : SystemUtils.Process → Q)
    (l : list SystemUtils.Process) :
  SystemUtils.sort_desc key l ≡ₚ l
  ∧ StronglySorted (λ a b, (key b <= key a)%Q) (SystemUtils.sort_desc key l).
Proof.
  unfold SystemUtils.sort_desc.
  assert (Hgen : ∀ acc,
            StronglySorted (λ a b, (key b <= key a)%Q) acc →
            fold_left (λ sorted proc, SystemUtils.sort_in key proc sorted) l acc
            ≡ₚ acc ++ l
            ∧ StronglySorted (λ a b, (key b <= key a)%Q)
                (fold_left (λ sorted proc, SystemUtils.sort_in key proc sorted)
                   l acc)).
  { induction l as [|p l IH]; intros acc Hacc.
    - cbn. by rewrite app_nil_r.
    - cbn [fold_left].
      destruct (IH (SystemUtils.sort_in key p acc)) as [Hperm Hsorted];
        [by apply sort_in_sorted|].
      split; [|done].
      rewrite Hperm, sort_in_perm. cbn. apply Permutation_middle. }
  destruct (Hgen []) as [Hperm Hsorted]; [constructor|]. done.
Qed.

Lemma slice0_take {A : Type} (count : Z) (arr : list A) :
  ∃ n : nat,
    SystemUtils.slice0 count arr = take n arr
    ∧ Z.of_nat (length (take n arr))
      = if count <? 0 then Z.max 0 (Z.of_nat (length arr) + count)
        else Z.min count (Z.of_nat (length arr)).
Proof.
  unfold SystemUtils.slice0. destruct (count <? 0) eqn:Hneg.
  - eexists. split; [reflexivity|]. rewrite length_take. apply Z.ltb_lt in Hneg. lia.
  - eexists. split; [reflexivity|]. rewrite length_take. apply Z.ltb_ge in Hneg. lia.
Qed.

Lemma StronglySorted_front {A : Type} (R : A → A → Prop) (l1 l2 : list A) :
  StronglySorted R (l1 ++ l2) →
  StronglySorted R l1 ∧ ∀ x1 x2, x1 ∈ l1 → x2 ∈ l2 → R x1 x2.
Proof.
  induction l1 as [|a l1 IH]; cbn [app]; intros Hsorted.
  - split; [constructor|]. intros x1 x2 Hx1. by apply elem_of_nil in Hx1.
  - apply StronglySorted_inv in Hsorted as [Hrest Hall].
    destruct (IH Hrest) as [Hfront Hcross].
    split.
    + constructor; [done|].
      apply Forall_app in Hall. tauto.
    + intros x1 x2 Hx1 Hx2. apply elem_of_cons in Hx1 as [->|Hx1].
      * apply Forall_app in Hall as [_ Hall].
        rewrite Forall_forall in Hall. by apply Hall.
      * by apply Hcross.
Qed.

Lemma slice0_sort_desc_top (key : SystemUtils.Process → Q) (count : Z)
    (processes : list SystemUtils.Process) :
  top_consumers key count processes
    (SystemUtils.slice0 count (SystemUtils.sort_desc key processes)).
Proof.
  destruct (sort_desc_facts key processes) as [Hperm Hsorted].
  destruct (slice0_take count (SystemUtils.sort_desc key processes))
    as (n & -> & Hlen).
  exists (drop n (SystemUtils.sort_desc key processes)).
  rewrite take_drop. split; [done|].
  rewrite <- (take_drop n (SystemUtils.sort_desc key processes)) in Hsorted.
  apply StronglySorted_front in Hsorted as [Hfront Hcross].
  split; [done|].
  split.
  - intros p q Hp Hq. by apply (Hcross p q).
  - rewrite Hlen. by rewrite (Permutation_length Hperm).
Qed.

(** X13: when si.processes() answers, the RAM (CPU) text of getTopProcesses
    is made of the count processes with the largest memPercent (cpu), the
    largest first: the other processes use no more than any one listed.  A
    count above the number of processes lists them all, and a negative count
    lists all but the last -count of the ranking. *)
Theorem X13_top_lines_are_the_top_consumers (fmt : JsString.NumberFormat)
    (env : SystemUtils.TopEnv) (processes : list SystemUtils.Process)
    (count : Z) :
  SystemUtils.si_processes env = Ok processes →
  (∃ top,
     SystemUtils.getTopProcesses fmt env (JsString.lit "RAM") count
     = Ok (process_lines fmt SystemUtils.memPercent top)
     ∧ top_consumers SystemUtils.memPercent count processes top)
  ∧ (∃ top,
       SystemUtils.getTopProcesses fmt env (JsString.lit "CPU") count
       = Ok (process_lines fmt SystemUtils.cpu_percent top)
       ∧ top_consumers SystemUtils.cpu_percent count processes top).
Proof.
  intros Hproc. split.
  - exists (SystemUtils.slice0 count
              (SystemUtils.sort_desc SystemUtils.memPercent processes)).
    split; [|apply slice0_sort_desc_top].
    unfold SystemUtils.getTopProcesses. rewrite Hproc. reflexivity.
  - exists (SystemUtils.slice0 count
              (SystemUtils.sort_desc SystemUtils.cpu_percent processes)).
    split; [|apply slice0_sort_desc_top].
    unfold SystemUtils.getTopProcesses. rewrite Hproc. reflexivity.
Qed.

Lemma X13_top_lines_witness :
  ∃ top,
    SystemUtils.getTopProcesses decimal_format top_sample (JsString.lit "RAM") 2
    = Ok (process_lines decimal_format SystemUtils.memPercent top)
    ∧ top_consumers SystemUtils.memPercent 2
        [{| SystemUtils.name := JsString.lit "nginx";
            SystemUtils.memPercent := 15 # 10;
            SystemUtils.cpu_percent := 30 # 1 |};
         {| SystemUtils.name := JsString.lit "postgres";
            SystemUtils.memPercent := 221 # 10;
            SystemUtils.cpu_percent := 5 # 1 |};
         {| SystemUtils.name := JsString.lit "node";
            SystemUtils.memPercent := 87 # 10;
            SystemUtils.cpu_percent := 12 # 1 |}] top.
Proof.
  exact (proj1 (X13_top_lines_are_the_top_consumers decimal_format top_sample
                  _ 2 eq_refl)).
Defined.

(** X14: getTopProcesses never throws (exec reporting through its
    callback).  For a resource type other than
    'RAM', 'CPU' and 'Disk' the text is 'Unknown resource type'; when
    si.processes() fails, the RAM and CPU texts are 'Could not get RAM
    (CPU) process information'; and when du fails with an exit code other
    than 1 the Disk text is 'Could not get disk usage information'. *)
Theorem X14_top_processes_never_throws (fmt : JsString.NumberFormat)
    (env : SystemUtils.TopEnv) (resourceType : list N) (count : Z) :
  ∃ text,
    SystemUtils.getTopProcesses fmt env resourceType count = Ok text
    ∧ (resourceType ∉ [JsString.lit "RAM"; JsString.lit "CPU"; JsString.lit "Disk"] →
       text = JsString.lit "Unknown resource type")
    ∧ (resourceType ∈ [JsString.lit "RAM"; JsString.lit "CPU"] →
       is_throw (SystemUtils.si_processes env) = true →
       text = JsString.lit "Could not get " ++ resourceType
              ++ JsString.lit " process information")
    ∧ (resourceType = JsString.lit "Disk" →
       SystemUtils.exec_error env ∉ [None; Some (SystemUtils.ExitCode 1)] →
       text = JsString.lit "Could not get disk usage information").
Proof.
  unfold SystemUtils.getTopProcesses, JsString.eqb.
  destruct (decide (resourceType = JsString.lit "RAM")) as [->|Hram].
  { rewrite bool_decide_eq_true_2 by done.
    destruct (SystemUtils.si_processes env) as [processes|e].
    - eexists. split; [reflexivity|].
      split; [intros Hnot; exfalso; apply Hnot; set_solver|].
      split; [done|]. intros Heq. by apply (f_equal length) in Heq.
    - eexists. split; [reflexivity|].
      split; [intros Hnot; exfalso; apply Hnot; set_solver|].
      split; [done|]. intros Heq. by apply (f_equal length) in Heq. }
  rewrite (bool_decide_eq_false_2 _ Hram).
  destruct (decide (resourceType = JsString.lit "CPU")) as [->|Hcpu].
  { rewrite bool_decide_eq_true_2 by done.
    destruct (SystemUtils.si_processes env) as [processes|e].
    - eexists. split; [reflexivity|].
      split; [intros Hnot; exfalso; apply Hnot; set_solver|].
      split; [done|]. intros Heq. by apply (f_equal length) in Heq.
    - eexists. split; [reflexivity|].
      split; [intros Hnot; exfalso; apply Hnot; set_solver|].
      split; [done|]. intros Heq. by apply (f_equal length) in Heq. }
  rewrite (bool_decide_eq_false_2 _ Hcpu).
  destruct (decide (resourceType = JsString.lit "Disk")) as [->|Hdisk].
  { rewrite bool_decide_eq_true_2 by done.
    assert (Hno : JsString.lit "Disk" ∈ [JsString.lit "RAM"; JsString.lit "CPU"]
                  → False).
    { intros Hin. apply elem_of_cons in Hin as [Heq|Hin]; [done|].
      apply elem_of_cons in Hin as [Heq|Hin]; [done|].
      by apply elem_of_nil in Hin. }
    destruct (SystemUtils.exec_error env) as [[code|]|] eqn:Herr.
    - destruct (decide (code = 1)) as [->|Hcode].
      + eexists. split; [reflexivity|].
        split; [intros Hnot; exfalso; apply Hnot; set_solver|].
        split; [by intros Hin; destruct (Hno Hin)|].
        intros _ Hnot. exfalso. apply Hnot. set_solver.
      + exists (JsString.lit "Could not get disk usage information").
        split; [by destruct code as [|[]|]|].
        split; [intros Hnot; exfalso; apply Hnot; set_solver|].
        split; [by intros Hin; destruct (Hno Hin)|]. done.
    - eexists. split; [reflexivity|].
      split; [intros Hnot; exfalso; apply Hnot; set_solver|].
      split; [by intros Hin; destruct (Hno Hin)|]. done.
    - eexists. split; [reflexivity|].
      split; [intros Hnot; exfalso; apply Hnot; set_solver|].
      split; [by intros Hin; destruct (Hno Hin)|].
      intros _ Hnot. exfalso. apply Hnot. set_solver. }
  rewrite (bool_decide_eq_false_2 _ Hdisk).
  eexists. split; [reflexivity|].
  split; [done|].
  split; [|done].
  intros Hin. apply elem_of_cons in Hin as [Heq|Hin]; [done|].
  apply elem_of_cons in Hin as [Heq|Hin]; [done|].
  by apply elem_of_nil in Hin.
Qed.

Lemma X14_top_processes_witness :
  ∃ text,
    SystemUtils.getTopProcesses decimal_format top_down (JsString.lit "RAM") 3
    = Ok text
    ∧ text = JsString.lit "Could not get RAM process information".
Proof.
  destruct (X14_top_processes_never_throws decimal_format top_down
              (JsString.lit "RAM") 3) as (text & Htext & _ & Hram & _).
  exists text. split; [done|].
  rewrite Hram; [reflexivity| |reflexivity].
  apply elem_of_cons. by left.
Defined.

(** *** The lines of du *)

Lemma split_nonempty (sep : N) (s : list N) : JsString.split sep s ≠ [].
Proof.
  destruct s as [|c rest]; [done|]. cbn [JsString.split].
  destruct (c =? sep)%N; [done|]. by destruct (JsString.split sep rest).
Qed.

Lemma split_no_sep (sep : N) (s : list N) :
  sep ∉ s → JsString.split sep s = [s].
Proof.
  induction s as [|c rest IH]; [done|]. intros Hnot.
  apply not_elem_of_cons in Hnot as [Hne Hrest].
  cbn [JsString.split]. rewrite (proj2 (N.eqb_neq c sep)) by done.
  by rewrite IH.
Qed.

Lemma split_at_sep (sep : N) (a b : list N) :
  sep ∉ a → JsString.split sep (a ++ sep :: b) = a :: JsString.split sep b.
Proof.
  induction a as [|c a IH]; intros Hnot.
  - cbn. by rewrite N.eqb_refl.
  - apply not_elem_of_cons in Hnot as [Hne Hrest].
    cbn [app JsString.split]. rewrite (proj2 (N.eqb_neq c sep)) by done.
    by rewrite IH.
Qed.

Lemma split_length (sep : N) (s : list N) :
  length (JsString.split sep s) = S (count_occ N.eq_dec s sep).
Proof.
  induction s as [|c rest IH]; [done|].
  cbn [JsString.split count_occ].
  destruct (N.eqb_spec c sep) as [->|Hne].
  - destruct (N.eq_dec sep sep); [|done]. cbn. by rewrite IH.
  - destruct (N.eq_dec c sep); [done|].
    destruct (JsString.split sep rest) as [|piece pieces]; [done|].
    exact IH.
Qed.

Lemma pop_split_after_sep (sep : N) (a b : list N) :
  JsString.pop (JsString.split sep (a ++ sep :: b))
  = JsString.pop (JsString.split sep b).
Proof.
  unfold JsString.pop. induction a as [|c a IH].
  - cbn [app JsString.split]. rewrite N.eqb_refl.
    rewrite last_cons_default. apply last_default, split_nonempty.
  - cbn [app JsString.split]. destruct (c =? sep)%N.
    + rewrite last_cons_default, <- IH. apply last_default, split_nonempty.
    + destruct (JsString.split sep (a ++ sep :: b)) as [|piece pieces] eqn:Hsplit.
      { by destruct (split_nonempty sep (a ++ sep :: b)). }
      destruct pieces as [|piece' pieces].
      { pose proof (split_length sep (a ++ sep :: b)) as Hlen.
        rewrite Hsplit, count_occ_app in Hlen. cbn in Hlen.
        destruct (N.eq_dec sep sep); [lia|done]. }
      rewrite <- IH. reflexivity.
Qed.

(** X15: of a line of du that has a size, one tab and a path, the
    breakdown shows the last component of the path only, behind a slash and
    padded to 15 places, and then the size; a line that does not hold exactly
    one tab gives no entry. *)
Theorem X15_du_line_shows_last_component (size dir base : list N) :
  9%N ∉ size → 9%N ∉ dir → 9%N ∉ base → 47%N ∉ base →
  SystemUtils.du_line (size ++ [9%N] ++ dir ++ [47%N] ++ base)
  = JsString.lit "  - /" ++ JsString.padEnd base 15 ++ JsString.lit " " ++ size
  ∧ ∀ line, count_occ N.eq_dec line 9%N ≠ 1%nat → SystemUtils.du_line line = [].
Proof.
  intros Hsize Hdir Hbase Hslash. split.
  - unfold SystemUtils.du_line.
    destruct (size ++ [9%N] ++ dir ++ [47%N] ++ base) as [|c rest] eqn:Hline.
    { by destruct size. }
    rewrite <- Hline. cbn [app].
    rewrite split_at_sep by done.
    rewrite split_no_sep.
    2:{ rewrite elem_of_app, elem_of_cons. intros [?|[?|?]]; done. }
    rewrite pop_split_after_sep, split_no_sep by done.
    reflexivity.
  - intros line Hcount. unfold SystemUtils.du_line.
    destruct line as [|c rest]; [done|].
    pose proof (split_length 9 (c :: rest)) as Hlen.
    remember (count_occ N.eq_dec (c :: rest) 9%N) as tabs.
    destruct (JsString.split 9 (c :: rest)) as [|p1 [|p2 [|p3 ps]]]; try done.
    cbn [length] in Hlen. exfalso. apply Hcount. lia.
Qed.

Lemma X15_du_line_witness :
  SystemUtils.du_line
    (JsString.lit "1.2G" ++ [9%N] ++ JsString.lit "/var" ++ [47%N]
     ++ JsString.lit "log")
  = JsString.lit "  - /log             1.2G".
Proof.
  refine (eq_trans
            (proj1 (X15_du_line_shows_last_component (JsString.lit "1.2G")
                      (JsString.lit "/var") (JsString.lit "log") _ _ _ _)) _).
  - vm_compute. intros H. repeat (apply elem_of_cons in H as [H|H]; [discriminate|]). by apply elem_of_nil in H.
  - vm_compute. intros H. repeat (apply elem_of_cons in H as [H|H]; [discriminate|]). by apply elem_of_nil in H.
  - vm_compute. intros H. repeat (apply elem_of_cons in H as [H|H]; [discriminate|]). by apply elem_of_nil in H.
  - vm_compute. intros H. repeat (apply elem_of_cons in H as [H|H]; [discriminate|]). by apply elem_of_nil in H.
  - reflexivity.
Defined.


(** ** Further properties: the alert text, the connection test and start-up *)

(** *** The box of the alert text *)

Lemma bind_ok_inv {A B : Type} (m : result A) (k : A → result B) (b : B) :
  m ≫= k = Ok b → ∃ a, m = Ok a ∧ k a = Ok b.
Proof. destruct m as [a|e]; [|done]. intros Hk. by exists a. Qed.

(** Splits an equation [x ← m; k = Ok b] into the steps that succeeded. *)
Ltac ok_steps H :=
  repeat (let a := fresh "row" in
          let Ha := fresh "Hrow" in
          apply bind_ok_inv in H as (a & Ha & H)).

Lemma box_row_cases (af : AlertFormatter.AlertFormat) (parts : list (list N)) :
  AlertFormatter.box_row af parts
  = if AlertFormatter.contentWidth af <? Z.of_nat (length (concat parts))
    then Throw "RangeError: Invalid count value"
    else Ok (AlertFormatter.linePrefix af ++ concat parts
             ++ replicate (Z.to_nat (AlertFormatter.contentWidth af
                                     - Z.of_nat (length (concat parts)))) 32%N
             ++ AlertFormatter.lineSuffix af).
Proof.
  unfold AlertFormatter.box_row, JsString.repeat_space.
  destruct (AlertFormatter.contentWidth af <? _) eqn:Hwide.
  - apply Z.ltb_lt in Hwide. rewrite (proj2 (Z.ltb_lt _ _)) by lia. done.
  - apply Z.ltb_ge in Hwide. rewrite (proj2 (Z.ltb_ge _ _)) by lia. done.
Qed.

Lemma box_row_ok (af : AlertFormatter.AlertFormat) (parts : list (list N))
    (row : list N) :
  AlertFormatter.box_row af parts = Ok row →
  Z.of_nat (length (concat parts)) ≤ AlertFormatter.contentWidth af
  ∧ Z.of_nat (length row) = AlertFormatter.width af.
Proof.
  rewrite box_row_cases.
  destruct (AlertFormatter.contentWidth af <? _) eqn:Hwide; [done|].
  apply Z.ltb_ge in Hwide. intros [= <-]. split; [done|].
  rewrite !length_app, length_replicate.
  unfold AlertFormatter.contentWidth in *. lia.
Qed.

Lemma box_rows_ok (af : AlertFormatter.AlertFormat) (lines rows : list (list N)) :
  AlertFormatter.box_rows af lines = Ok rows →
  Forall (box_line_ok af) rows.
Proof.
  revert rows. induction lines as [|line lines IH]; intros rows.
  - intros [= <-]. constructor.
  - cbn [AlertFormatter.box_rows].
    destruct (Nat.eqb _ 0); [apply IH|].
    intros H. ok_steps H. injection H as <-.
    constructor; [|by apply IH].
    left. by eapply box_row_ok.
Qed.

Lemma titleLine_width (af : AlertFormatter.AlertFormat) (title : list N) :
  Z.of_nat (length title) ≤ AlertFormatter.contentWidth af →
  Z.of_nat (length (AlertFormatter.titleLine af title)) = AlertFormatter.width af.
Proof.
  intros Hfits. unfold AlertFormatter.titleLine.
  assert (Hquot : Z.quot (AlertFormatter.contentWidth af + Z.of_nat (length title)) 2
                  ≤ AlertFormatter.contentWidth af).
  { apply Z.quot_le_upper_bound; lia. }
  unfold AlertFormatter.contentWidth in *.
  repeat destruct (JsString.eqb _ _);
    unfold JsString.padEnd, JsString.padStart;
    rewrite ?length_app, ?length_replicate; lia.
Qed.

Lemma getTopProcesses_total (fmt : JsString.NumberFormat)
    (env : SystemUtils.TopEnv) (resourceType : list N) (count : Z) :
  ∃ text, SystemUtils.getTopProcesses fmt env resourceType count = Ok text.
Proof.
  unfold SystemUtils.getTopProcesses.
  destruct (JsString.eqb resourceType (JsString.lit "RAM")).
  { destruct (SystemUtils.si_processes env); eexists; reflexivity. }
  destruct (JsString.eqb resourceType (JsString.lit "CPU")).
  { destruct (SystemUtils.si_processes env); eexists; reflexivity. }
  destruct (JsString.eqb resourceType (JsString.lit "Disk")).
  { destruct (SystemUtils.exec_error env) as [[[|[]|]|]|]; eexists; reflexivity. }
  eexists; reflexivity.
Qed.

Lemma box_lines_shape (fmt : JsString.NumberFormat)
    (af : AlertFormatter.AlertFormat) (mon : AlertFormatter.Monitoring)
    (toISOString : list N) (top : SystemUtils.TopEnv)
    (systemInfo : SystemUtils.SystemInfo) (lines : list (list N)) :
  AlertFormatter.box_lines fmt af mon toISOString top systemInfo = Ok lines →
  ∃ body,
    lines = AlertFormatter.topBorder af
            :: AlertFormatter.titleLine af (AlertFormatter.alertMessageTitle mon)
            :: AlertFormatter.titleBorder af
            :: body ++ [AlertFormatter.bottomBorder af]
    ∧ Forall (box_line_ok af) body
    ∧ (AlertFormatter.includeSystemInfo af = true →
       ∀ label value, (label, value) ∈ info_fields af toISOString systemInfo →
       Z.of_nat (length label) + Z.of_nat (length value)
       ≤ AlertFormatter.contentWidth af).
Proof.
  unfold AlertFormatter.box_lines. intros H.
  apply bind_ok_inv in H as (info & Hinfo & H).
  apply bind_ok_inv in H as (resources & Hresources & H).
  apply bind_ok_inv in H as (processes & Hprocesses & H).
  apply bind_ok_inv in H as (breakdown & Hbreakdown & H).
  injection H as <-.
  exists (info ++ resources ++ processes ++ breakdown).
  split; [by rewrite <- !app_assoc|].
  assert (Hborder : box_line_ok af (AlertFormatter.sectionBorder af)) by by right.
  assert (Hrow : ∀ parts row,
            AlertFormatter.box_row af parts = Ok row → box_line_ok af row).
  { intros parts row Hok. left. by eapply box_row_ok. }
  split.
  - repeat apply Forall_app_2.
    + destruct (AlertFormatter.includeSystemInfo af).
      * ok_steps Hinfo. injection Hinfo as <-.
        repeat (constructor; [by eauto|]). constructor.
      * injection Hinfo as <-. constructor.
    + destruct (AlertFormatter.includeResources af).
      * ok_steps Hresources. injection Hresources as <-.
        repeat (constructor; [by eauto|]). constructor.
      * injection Hresources as <-. constructor.
    + destruct (AlertFormatter.includeTopProcesses af && _).
      * ok_steps Hprocesses. injection Hprocesses as <-.
        constructor; [by eauto|].
        apply Forall_app_2; [by eapply box_rows_ok|].
        by repeat constructor.
      * injection Hprocesses as <-. constructor.
    + destruct (AlertFormatter.includeDiskBreakdown af && _).
      * ok_steps Hbreakdown. injection Hbreakdown as <-.
        constructor; [by eauto|]. by eapply box_rows_ok.
      * injection Hbreakdown as <-. constructor.
  - intros Hon label value Hin. rewrite Hon in Hinfo.
    ok_steps Hinfo.
    repeat match goal with
           | Hok : AlertFormatter.box_row af _ = Ok _ |- _ =>
               apply box_row_ok in Hok as [Hok _];
               cbn [concat] in Hok; rewrite !length_app in Hok;
               cbn [length] in Hok
           end.
    unfold info_fields in Hin.
    repeat (apply elem_of_cons in Hin as [[= -> ->]|Hin];
            [rewrite length_app; lia|]).
    by apply elem_of_nil in Hin.
Qed.

(** X16: a box that formatAlert returns starts with the top border, the
    title line and the title border and ends with the bottom border; every
    line in between is the section border or a row of exactly
    alertFormat.width code units, and so is the title line when the title is
    no longer than the width leaves room for. *)
Theorem X16_box_rows_have_the_width (fmt : JsString.NumberFormat)
    (af : AlertFormatter.AlertFormat) (mon : AlertFormatter.Monitoring)
    (toISOString : list N) (top : SystemUtils.TopEnv)
    (alertType : AlertType) (usageValue : UsageValue)
    (systemInfo : SystemUtils.SystemInfo) (text : list N) :
  AlertFormatter.enabled af = true →
  AlertFormatter.formatAlert fmt af mon toISOString top alertType usageValue
    systemInfo = Ok text →
  ∃ body,
    text = JsString.join AlertFormatter.newline
             (AlertFormatter.topBorder af
              :: AlertFormatter.titleLine af (AlertFormatter.alertMessageTitle mon)
              :: AlertFormatter.titleBorder af
              :: body ++ [AlertFormatter.bottomBorder af])
    ∧ Forall (box_line_ok af) body
    ∧ (Z.of_nat (length (AlertFormatter.alertMessageTitle mon))
       ≤ AlertFormatter.contentWidth af →
       Z.of_nat (length (AlertFormatter.titleLine af
                           (AlertFormatter.alertMessageTitle mon)))
       = AlertFormatter.width af).
Proof.
  intros Hon. unfold AlertFormatter.formatAlert. rewrite Hon. cbn [negb].
  intros H. apply bind_ok_inv in H as (lines & Hlines & H).
  injection H as <-.
  apply box_lines_shape in Hlines as (body & -> & Hbody & _).
  exists body. split; [done|]. split; [done|]. apply titleLine_width.
Qed.

Lemma X16_box_rows_witness :
  ∃ text body,
    AlertFormatter.formatAlert decimal_format box_readme monitoring_readme
      iso_sample top_sample RAM (Percent (of_Z 75)) info_sample = Ok text
    ∧ text = JsString.join AlertFormatter.newline
               (AlertFormatter.topBorder box_readme
                :: AlertFormatter.titleLine box_readme
                     (AlertFormatter.alertMessageTitle monitoring_readme)
                :: AlertFormatter.titleBorder box_readme
                :: body ++ [AlertFormatter.bottomBorder box_readme])
    ∧ Forall (box_line_ok box_readme) body.
Proof.
  destruct (AlertFormatter.formatAlert decimal_format box_readme
              monitoring_readme iso_sample top_sample RAM (Percent (of_Z 75))
              info_sample) as [text|e] eqn:Htext; [|by vm_compute in Htext].
  destruct (X16_box_rows_have_the_width decimal_format box_readme
              monitoring_readme iso_sample top_sample RAM (Percent (of_Z 75))
              info_sample text eq_refl Htext) as (body & Hjoin & Hbody & _).
  by exists text, body.
Defined.

(** X17: with the box format and its system section switched on, formatAlert
    throws as soon as one of the six rows of that section, label and value
    together, is longer than the width leaves room for: a long host name,
    OS name or kernel version is not cut or wrapped, it costs the whole
    text. *)
Theorem X17_long_field_breaks_the_box (fmt : JsString.NumberFormat)
    (af : AlertFormatter.AlertFormat) (mon : AlertFormatter.Monitoring)
    (toISOString : list N) (top : SystemUtils.TopEnv)
    (alertType : AlertType) (usageValue : UsageValue)
    (systemInfo : SystemUtils.SystemInfo) (label value : list N) :
  AlertFormatter.enabled af = true →
  AlertFormatter.includeSystemInfo af = true →
  (label, value) ∈ info_fields af toISOString systemInfo →
  AlertFormatter.contentWidth af
  < Z.of_nat (length label) + Z.of_nat (length value) →
  ∃ error,
    AlertFormatter.formatAlert fmt af mon toISOString top alertType usageValue
      systemInfo = Throw error.
Proof.
  intros Hon Hinfo Hin Hlong. unfold AlertFormatter.formatAlert.
  rewrite Hon. cbn [negb].
  destruct (AlertFormatter.box_lines fmt af mon toISOString top systemInfo)
    as [lines|e] eqn:Hlines; [|by exists e].
  apply box_lines_shape in Hlines as (body & _ & _ & Hfit).
  specialize (Hfit Hinfo label value Hin). lia.
Qed.

Lemma X17_long_field_witness :
  ∃ error,
    AlertFormatter.formatAlert decimal_format box_readme monitoring_readme
      iso_sample top_sample RAM (Percent (of_Z 75)) info_long_name
    = Throw error.
Proof.
  apply (X17_long_field_breaks_the_box decimal_format box_readme
           monitoring_readme iso_sample top_sample RAM (Percent (of_Z 75))
           info_long_name
           (JsString.lit " Hostname:     ")
           (JsString.lit "ip-172-31-12-34.eu-west-1.compute.internal")).
  - reflexivity.
  - reflexivity.
  - apply elem_of_cons. right. apply elem_of_cons. by left.
  - vm_compute. reflexivity.
Defined.

(** X18: with the box format switched off, formatAlert never throws,
    whatever the host, the processes and du answer; the text starts with
    the title and an empty line, and without top processes it does not
    depend on the process list at all. *)
Theorem X18_plain_text_never_throws (fmt : JsString.NumberFormat)
    (af : AlertFormatter.AlertFormat) (mon : AlertFormatter.Monitoring)
    (toISOString : list N) (top : SystemUtils.TopEnv)
    (alertType : AlertType) (usageValue : UsageValue)
    (systemInfo : SystemUtils.SystemInfo) :
  AlertFormatter.enabled af = false →
  ∃ text rest,
    AlertFormatter.formatAlert fmt af mon toISOString top alertType usageValue
      systemInfo = Ok text
    ∧ text = AlertFormatter.alertMessageTitle mon ++ AlertFormatter.newline
             ++ AlertFormatter.newline ++ rest
    ∧ (AlertFormatter.monitoring_includeTopProcesses mon = false →
       ∀ top',
         AlertFormatter.formatAlert fmt af mon toISOString top' alertType
           usageValue systemInfo = Ok text).
Proof.
  intros Hoff. unfold AlertFormatter.formatAlert. rewrite Hoff. cbn [negb].
  unfold AlertFormatter.plain_text.
  destruct (AlertFormatter.monitoring_includeTopProcesses mon).
  - destruct (getTopProcesses_total fmt top (JsString.lit "RAM")
                (AlertFormatter.topProcessesCount mon)) as [ram ->].
    destruct (getTopProcesses_total fmt top (JsString.lit "Disk")
                (AlertFormatter.topProcessesCount mon)) as [disk ->].
    eexists. eexists. split; [reflexivity|]. split; [|done].
    cbn zeta. rewrite <- !app_assoc. reflexivity.
  - eexists. eexists. split; [reflexivity|]. split; [|done].
    reflexivity.
Qed.

Lemma X18_plain_text_witness :
  ∃ text rest,
    AlertFormatter.formatAlert decimal_format plain_readme monitoring_readme
      iso_sample top_down RAM (Percent (of_Z 75)) info_long_name = Ok text
    ∧ text = AlertFormatter.alertMessageTitle monitoring_readme
             ++ AlertFormatter.newline ++ AlertFormatter.newline ++ rest.
Proof.
  destruct (X18_plain_text_never_throws decimal_format plain_readme
              monitoring_readme iso_sample top_down RAM (Percent (of_Z 75))
              info_long_name eq_refl) as (text & rest & Htext & Hstart & _).
  by exists text, rest.
Defined.

(** *** The connection test *)

Lemma getSystemInfo_hostname (fmt : JsString.NumberFormat) (diskPath : list N)
    (env : SystemUtils.HostEnv) :
  ∃ info,
    SystemUtils.getSystemInfo fmt diskPath env = Ok info
    ∧ SystemUtils.hostname info = SystemUtils.os_hostname env.
Proof.
  pose proof (getSystemInfo_cases fmt diskPath env) as Hcases.
  destruct (answers env).
  - destruct Hcases as (osInfo & memInfo & cpuLoad & diskInfo & fsSize
                        & _ & _ & _ & _ & _ & ->).
    eexists. split; reflexivity.
  - rewrite Hcases. eexists. split; reflexivity.
Qed.

(** X19: the connection test returns true exactly when it has a message and
    the one bot.sendMessage succeeds.  In plain format it always sends, so
    its result is that of the send.  In box format a width that leaves less
    than 30 places for the title row, or less than 18 plus the length of
    os.hostname() for the host row, makes the test fail before Telegram is
    contacted. *)
Theorem X19_connection_test_outcome (fmt : JsString.NumberFormat)
    (af : AlertFormatter.AlertFormat) (diskPath : list N)
    (host : SystemUtils.HostEnv) (toISOString : list N) (send : result unit) :
  let outcome :=
    ConnectionTest.testTelegramConnection fmt af diskPath host toISOString send in
  (outcome.1 = true ↔ (∃ message, outcome.2 = Some message) ∧ is_throw send = false)
  ∧ (AlertFormatter.enabled af = false →
     ∃ message, outcome = (negb (is_throw send), Some message))
  ∧ (AlertFormatter.enabled af = true →
     AlertFormatter.contentWidth af < 30
     ∨ AlertFormatter.contentWidth af
       < 18 + Z.of_nat (length (SystemUtils.os_hostname host)) →
     outcome = (false, None)).
Proof.
  cbn zeta. unfold ConnectionTest.testTelegramConnection.
  destruct (getSystemInfo_hostname fmt diskPath host) as (info & -> & Hname).
  change (Ok info ≫= _)
    with (ConnectionTest.test_message af info
            (AlertFormatter.dateStr_of toISOString)).
  split; [|split].
  - destruct (ConnectionTest.test_message af info _) as [message|e].
    + destruct send as [[]|e]; cbn.
      * split; [|done]. intros _. split; [by eexists|done].
      * split; [done|]. by intros [_ ?].
    + cbn. split; [done|]. by intros [[message ?] _].
  - intros Hoff. unfold ConnectionTest.test_message. rewrite Hoff.
    destruct send as [[]|e]; eexists; reflexivity.
  - intros Hon Hnarrow. unfold ConnectionTest.test_message. rewrite Hon.
    rewrite (box_row_cases af [ConnectionTest.test_title]).
    cbn [concat]. rewrite app_nil_r.
    change (Z.of_nat (length ConnectionTest.test_title)) with 30.
    destruct (AlertFormatter.contentWidth af <? 30) eqn:Htitle; [done|].
    apply Z.ltb_ge in Htitle.
    destruct Hnarrow as [Hnarrow|Hnarrow]; [lia|].
    cbn [mbind result_bind Res.bind].
    rewrite (box_row_cases af [ConnectionTest.hostname_label; _]).
    cbn [concat]. rewrite app_nil_r, length_app, Hname.
    change (length ConnectionTest.hostname_label) with 18%nat.
    rewrite (proj2 (Z.ltb_lt _ _)) by lia. reflexivity.
Qed.

Lemma X19_connection_test_witness :
  ConnectionTest.testTelegramConnection decimal_format box_readme
    (JsString.lit "/") host_long_name iso_sample (Ok tt)
  = (false, None).
Proof.
  apply (proj2 (proj2 (X19_connection_test_outcome decimal_format box_readme
                         (JsString.lit "/") host_long_name iso_sample (Ok tt)))).
  - reflexivity.
  - right. vm_compute. reflexivity.
Defined.

(** *** The text of a time stamp *)

Lemma replace_first (from to : N) (a b : list N) :
  from ∉ a →
  JsString.replace from to (a ++ from :: b) = a ++ to :: b.
Proof.
  induction a as [|c a IH]; intros Hnot.
  - cbn. by rewrite N.eqb_refl.
  - apply not_elem_of_cons in Hnot as [Hne Hrest].
    cbn [app JsString.replace].
    rewrite (proj2 (N.eqb_neq c from)) by done. by rewrite IH.
Qed.

(** X20: of an ISO time text, ten places of date, a T, eight places of time
    and whatever follows, the time stamp of the alert texts and of the
    database rows keeps the date and the time to the second, with a blank
    in place of the T. *)
Theorem X20_time_stamp_to_the_second (date time rest : list N) :
  length date = 10%nat → length time = 8%nat → 84%N ∉ date →
  AlertFormatter.dateStr_of (date ++ [84%N] ++ time ++ rest)
  = date ++ [32%N] ++ time.
Proof.
  intros Hdate Htime Hnot. unfold AlertFormatter.dateStr_of, JsString.substring0.
  cbn [app]. rewrite replace_first by done.
  change (date ++ 32%N :: time ++ rest) with (date ++ [32%N] ++ time ++ rest).
  rewrite !app_assoc. rewrite <- (app_assoc date).
  apply take_app_length'. rewrite !length_app. cbn [length]. lia.
Qed.

Lemma X20_time_stamp_witness :
  AlertFormatter.dateStr_of iso_sample = JsString.lit "2024-05-01 09:58:07".
Proof.
  refine (X20_time_stamp_to_the_second (JsString.lit "2024-05-01")
            (JsString.lit "09:58:07") (JsString.lit ".123Z") _ _ _).
  - reflexivity.
  - reflexivity.
  - vm_compute. intros H.
    repeat (apply elem_of_cons in H as [H|H]; [discriminate|]).
    by apply elem_of_nil in H.
Defined.

(** *** Start-up with a database type other than sqlite *)

Lemma module_db_cases (cfg : Config) (dbType : string) (mkdir : result unit) :
  Setup.module_db cfg dbType mkdir
  = Ok (if negb (database_enabled cfg) then Setup.DbNull
        else if String.eqb dbType "sqlite"
             then (if is_throw mkdir then Setup.DbNull else Setup.DbInterface)
             else if String.eqb dbType "mysql" || String.eqb dbType "postgresql"
                  then Setup.DbPromise
                  else Setup.DbNull).
Proof.
  unfold Setup.module_db, Setup.setupDatabase.
  destruct (database_enabled cfg); [|done]. cbn [negb].
  destruct (String.eqb dbType "sqlite"); [by destruct mkdir as [[]|e]|].
  destruct (String.eqb dbType "mysql"); [done|].
  by destruct (String.eqb dbType "postgresql").
Qed.

(** X21: with the database switched on and its type mysql or postgresql,
    the module-level db is the promise that the unawaited set-up call
    returned.  It counts as a database in every test of db, yet has no
    storeMetrics and no storeAlert: the app's storeMetrics and storeAlert
    run into the TypeError, catch it and return false at every call,
    whatever the driver would have answered; lastAlertTimes is left as it
    is. *)
Theorem X21_unawaited_setup_stores_nothing (cfg : Config) (dbType : string)
    (mkdir : result unit) (handle : Setup.DbHandle) (prometheus : bool)
    (driver : result Z) (sinks : SinkEnv) (env : DispatchEnv)
    (metrics : Metrics) (alertType : AlertType) (value : UsageValue)
    (message : string) (sent : bool) (st : gmap string Z) :
  database_enabled cfg = true →
  dbType = "mysql" ∨ dbType = "postgresql" →
  Setup.module_db cfg dbType mkdir = Ok handle →
  handle = Setup.DbPromise
  ∧ db (app_with handle prometheus) = true
  ∧ (∃ evs,
       storeMetrics (app_with handle prometheus) cfg
         (sinks_through handle driver sinks) metrics st
       = Some (Ok false, st, evs))
  ∧ (∃ evs,
       storeAlert (app_with handle prometheus) cfg
         (with_db_storeAlert (Setup.call_method handle driver) env)
         alertType value message sent st
       = Some (Ok false, st, evs)).
Proof.
  intros Hon Htype. rewrite module_db_cases, Hon. cbn [negb].
  assert (Hkind : String.eqb dbType "sqlite" = false
                  ∧ String.eqb dbType "mysql" || String.eqb dbType "postgresql"
                    = true).
  { by destruct Htype as [-> | ->]. }
  destruct Hkind as [-> ->]. intros [= <-].
  split; [done|]. split; [done|].
  split.
  - unfold storeMetrics. cbn [app_with db Setup.truthy negb orb]. rewrite Hon.
    cbn [negb]. destruct (network metrics) as [networkRx networkTx].
    eexists. reflexivity.
  - unfold storeAlert. cbn [app_with db Setup.truthy negb orb]. rewrite Hon.
    cbn [negb]. eexists. reflexivity.
Qed.

Lemma X21_unawaited_setup_witness :
  Setup.module_db config_all_enabled "mysql" (Ok tt) = Ok Setup.DbPromise
  ∧ ∃ evs,
      storeMetrics (app_with Setup.DbPromise true) config_all_enabled
        (sinks_through Setup.DbPromise (Ok 1) sinks_fine) all_zero ∅
      = Some (Ok false, ∅, evs).
Proof.
  split; [reflexivity|].
  exact (proj1 (proj2 (proj2
           (X21_unawaited_setup_stores_nothing config_all_enabled "mysql"
              (Ok tt) Setup.DbPromise true (Ok 1) sinks_fine (dispatch_at 0 0)
              all_zero RAM (Percent zero) "text" true ∅
              eq_refl (or_introl eq_refl) eq_refl)))).
Defined.

(** *** A host name that does not fit the box *)

(** X22: with the box format and its system section switched on and a host
    name too long for the host row (label and name together longer than the
    width leaves room for), no alert leaves the host: every call of
    sendTelegramAlert, for whatever kind and value and whether the rate
    limiter lets it pass or not, returns false without a single call of
    bot.sendMessage and without a change to the values of lastAlertTimes. *)
Theorem X22_long_host_name_silences_alerts (fuel : nat) (app : App)
    (cfg : Config) (fmt : JsString.NumberFormat)
    (af : AlertFormatter.AlertFormat) (mon : AlertFormatter.Monitoring)
    (diskPath : list N) (host : SystemUtils.HostEnv) (toISOString : list N)
    (top : SystemUtils.TopEnv) (message_of : list N → string)
    (env : DispatchEnv) (t : AlertType) (v : UsageValue) (st : gmap string Z) :
  (maxRetries < fuel)%nat →
  AlertFormatter.enabled af = true →
  AlertFormatter.includeSystemInfo af = true →
  AlertFormatter.contentWidth af
  < Z.of_nat (length (AlertFormatter.hostnameEmoji af)) + 15
    + Z.of_nat (length (SystemUtils.os_hostname host)) →
  ∃ st' evs,
    sendTelegramAlert fuel app cfg
      (dispatch_formatted fmt af mon diskPath host toISOString top message_of
         t v env) t v st
    = Some (Ok false, st', evs)
    ∧ attempts evs = 0%nat
    ∧ ∀ key, lastSentAt st' key = lastSentAt st key.
Proof.
  intros [n ->]%enough_fuel Hon Hinfo Hlong. rewrite sendTelegramAlert_run.
  unfold dispatch_outcome.
  destruct (_ <? _).
  { eexists _, _. split; [reflexivity|]. split; [reflexivity|].
    intros key. apply lastSentAt_ensured. }
  assert (Hthrow : ∃ e,
            formatAlert (dispatch_formatted fmt af mon diskPath host toISOString
                           top message_of t v env) = Throw e).
  { cbn [formatAlert dispatch_formatted].
    destruct (getSystemInfo_hostname fmt diskPath host) as (info & -> & Hname).
    change (Ok info ≫= _)
      with (AlertFormatter.formatAlert fmt af mon toISOString top t v info).
    unfold AlertFormatter.formatAlert. rewrite Hon. cbn [negb].
    destruct (AlertFormatter.box_lines fmt af mon toISOString top info)
      as [lines|e] eqn:Hlines; [|by exists e].
    apply box_lines_shape in Hlines as (body & _ & _ & Hfit).
    assert (Hin : (AlertFormatter.hostnameEmoji af
                   ++ JsString.lit " Hostname:     ",
                   SystemUtils.hostname info)
                  ∈ info_fields af toISOString info).
    { unfold info_fields. apply elem_of_cons. right.
      apply elem_of_cons. by left. }
    specialize (Hfit Hinfo _ _ Hin).
    rewrite length_app, Hname in Hfit.
    change (length (JsString.lit " Hostname:     ")) with 15%nat in Hfit.
    lia. }
  destruct Hthrow as [e ->].
  eexists _, _. split; [reflexivity|]. split; [reflexivity|].
  intros key. apply lastSentAt_ensured.
Qed.

Lemma X22_long_host_name_witness :
  ∃ st' evs,
    sendTelegramAlert 4 app_full config_all_enabled
      (dispatch_formatted decimal_format box_readme monitoring_readme
         (JsString.lit "/") host_long_name iso_sample top_sample (λ _, "text")
         RAM (Percent (of_Z 95)) (dispatch_at 1000000 0))
      RAM (Percent (of_Z 95)) lastAlertTimes_init
    = Some (Ok false, st', evs)
    ∧ attempts evs = 0%nat.
Proof.
  destruct (X22_long_host_name_silences_alerts 4 app_full config_all_enabled
              decimal_format box_readme monitoring_readme (JsString.lit "/")
              host_long_name iso_sample top_sample (λ _, "text")
              (dispatch_at 1000000 0) RAM (Percent (of_Z 95))
              lastAlertTimes_init (le_n 4) eq_refl eq_refl)
    as (st' & evs & Hrun & Hnone & _).
  - vm_compute. reflexivity.
  - by exists st', evs.
Defined.

(** *** The title line *)

(** X23: a title that fits is set into a line of the full width with
    blanks only: for the alignment 'center' the blanks on both sides differ
    by at most one, the odd one going to the right; for 'right' all blanks
    stand before the title and for any other alignment behind it. *)
Theorem X23_title_is_padded_by_alignment (af : AlertFormatter.AlertFormat)
    (title : list N) :
  Z.of_nat (length title) ≤ AlertFormatter.contentWidth af →
  ∃ before behind : nat,
    AlertFormatter.titleLine af title
    = AlertFormatter.linePrefix af ++ replicate before 32%N ++ title
      ++ replicate behind 32%N ++ AlertFormatter.lineSuffix af
    ∧ Z.of_nat (before + length title + behind) = AlertFormatter.contentWidth af
    ∧ (if JsString.eqb (AlertFormatter.titleAlign af) (JsString.lit "center")
       then (before ≤ behind ≤ before + 1)%nat
       else if JsString.eqb (AlertFormatter.titleAlign af) (JsString.lit "right")
            then behind = 0%nat
            else before = 0%nat).
Proof.
  intros Hfits. unfold AlertFormatter.titleLine.
  set (cw := AlertFormatter.contentWidth af) in *.
  set (len := Z.of_nat (length title)) in *.
  destruct (JsString.eqb (AlertFormatter.titleAlign af) (JsString.lit "center")).
  - exists (Z.to_nat (Z.quot (cw + len) 2 - len)),
           (Z.to_nat (cw - Z.quot (cw + len) 2)).
    assert (Hq : len ≤ Z.quot (cw + len) 2 ≤ cw).
    { split; [apply Z.quot_le_lower_bound|apply Z.quot_le_upper_bound]; lia. }
    assert (Hq2 : 2 * Z.quot (cw + len) 2 ≤ cw + len < 2 * Z.quot (cw + len) 2 + 2).
    { rewrite Z.quot_div_nonneg by lia. Z.div_mod_to_equations. lia. }
    subst len. set (half := Z.quot _ 2) in *. clearbody half.
    split; [|split].
    + unfold JsString.padEnd, JsString.padStart.
      rewrite length_app, length_replicate. rewrite <- !app_assoc.
      do 5 f_equal. lia.
    + lia.
    + lia.
  - destruct (JsString.eqb (AlertFormatter.titleAlign af) (JsString.lit "right")).
    + exists (Z.to_nat (cw - len)), 0%nat. subst len.
      split; [|split; [lia|done]].
      unfold JsString.padStart. cbn [replicate app].
      by rewrite <- !app_assoc.
    + exists 0%nat, (Z.to_nat (cw - len)). subst len.
      split; [|split; [lia|done]].
      unfold JsString.padEnd. cbn [replicate app].
      by rewrite <- !app_assoc.
Qed.

Lemma X23_title_witness :
  ∃ before behind : nat,
    AlertFormatter.titleLine box_readme
      (AlertFormatter.alertMessageTitle monitoring_readme)
    = AlertFormatter.linePrefix box_readme ++ replicate before 32%N
      ++ AlertFormatter.alertMessageTitle monitoring_readme
      ++ replicate behind 32%N ++ AlertFormatter.lineSuffix box_readme
    ∧ (before ≤ behind ≤ before + 1)%nat.
Proof.
  destruct (X23_title_is_padded_by_alignment box_readme
              (AlertFormatter.alertMessageTitle monitoring_readme))
    as (before & behind & Hline & _ & Hcenter).
  - vm_compute. discriminate.
  - exists before, behind. split; [exact Hline|exact Hcenter].
Defined.

